(** * SQL chatbot: the deterministic core of the query pipelines

    A shallow embedding of the text post-processing, SQL assembly, validation
    and error handling of [query_pipeline.py], [advanced_pipeline.py] and
    [simple_pipeline.py], followed by the properties proved about them.

    Conventions of the embedding.
    - Python [str] values are modelled as [string]; the characters are the
      7-bit ASCII characters (code points above 127 are treated as ordinary
      characters: neither letters, nor digits, nor white space).
    - The language model and the database are external: they are oracles of
      the environment, and every statement is proved for all oracles.
    - Python exceptions are values of type [exn]; a call that can raise
      returns an [outcome]. [print] calls are not modelled. *)

From Stdlib Require Import String Ascii List Bool Arith Lia.
Import ListNotations.
Local Open Scope list_scope.
Local Open Scope string_scope.

(* ================================================================== *)
(** ** Python string primitives *)
(* ================================================================== *)

Module Py.

Definition code (c : ascii) : nat := nat_of_ascii c.

Definition between (lo hi : nat) (c : ascii) : bool :=
  Nat.leb lo (code c) && Nat.leb (code c) hi.

Definition is_lower (c : ascii) : bool := between 97 122 c.
Definition is_upper (c : ascii) : bool := between 65 90 c.
Definition is_digit (c : ascii) : bool := between 48 57 c.

(** [str.isspace] on ASCII: TAB, LF, VT, FF, CR, FS, GS, RS, US, space. *)
Definition is_space (c : ascii) : bool :=
  between 9 13 c || between 28 32 c.

(** [\w] of the [re] module on ASCII. *)
Definition is_word (c : ascii) : bool :=
  is_lower c || is_upper c || is_digit c || Nat.eqb (code c) 95.

Definition to_upper (c : ascii) : ascii :=
  if is_lower c then ascii_of_nat (code c - 32) else c.

Definition to_lower (c : ascii) : ascii :=
  if is_upper c then ascii_of_nat (code c + 32) else c.

Fixpoint map_chars (f : ascii -> ascii) (s : string) : string :=
  match s with
  | EmptyString => EmptyString
  | String c s' => String (f c) (map_chars f s')
  end.

(** [s.upper()] and [s.lower()]. *)
Definition upper : string -> string := map_chars to_upper.
Definition lower : string -> string := map_chars to_lower.

(** [s.startswith(p)]. *)
Definition startswith (s p : string) : bool := prefix p s.

(** [sub in s]: substring test. *)
Fixpoint contains (sub s : string) : bool :=
  prefix sub s ||
  match s with
  | EmptyString => false
  | String _ s' => contains sub s'
  end.

(** [s.count(c)] for a one-character argument. *)
Fixpoint count_char (c : ascii) (s : string) : nat :=
  match s with
  | EmptyString => 0
  | String d s' => (if Ascii.eqb d c then 1 else 0) + count_char c s'
  end.

Fixpoint lstrip (s : string) : string :=
  match s with
  | EmptyString => EmptyString
  | String c s' => if is_space c then lstrip s' else s
  end.

Fixpoint rstrip (s : string) : string :=
  match s with
  | EmptyString => EmptyString
  | String c s' =>
      match rstrip s' with
      | EmptyString => if is_space c then EmptyString else String c EmptyString
      | r => String c r
      end
  end.

(** [s.strip()]. *)
Definition strip (s : string) : string := rstrip (lstrip s).

(** [s.rstrip(c)] for a one-character argument. *)
Fixpoint rstrip_char (x : ascii) (s : string) : string :=
  match s with
  | EmptyString => EmptyString
  | String c s' =>
      match rstrip_char x s' with
      | EmptyString => if Ascii.eqb c x then EmptyString else String c EmptyString
      | r => String c r
      end
  end.

Definition cons_word (w : string) (ws : list string) : list string :=
  match w with
  | EmptyString => ws
  | _ => w :: ws
  end.

(** The word that starts at the head of [s] (possibly empty) and the
    words after it. *)
Fixpoint split_go (s : string) : string * list string :=
  match s with
  | EmptyString => (EmptyString, [])
  | String c s' =>
      let (w, ws) := split_go s' in
      if is_space c then (EmptyString, cons_word w ws) else (String c w, ws)
  end.

(** [s.split()]: the maximal runs of non-space characters. *)
Definition split (s : string) : list string :=
  let (w, ws) := split_go s in cons_word w ws.

(** [s.split(sep)] for a one-character separator: empty fields are kept. *)
Fixpoint split_on (sep : ascii) (s : string) : list string :=
  match s with
  | EmptyString => [EmptyString]
  | String c s' =>
      if Ascii.eqb c sep then EmptyString :: split_on sep s'
      else match split_on sep s' with
           | w :: ws => String c w :: ws
           | [] => [String c EmptyString]
           end
  end.

(** Line boundaries of [str.splitlines] on ASCII: LF, VT, FF, CR, FS, GS, RS
    (and the pair CR LF, which is one boundary). *)
Definition is_linebreak (c : ascii) : bool :=
  between 10 13 c || between 28 30 c.

(** [s.splitlines()]. *)
Fixpoint splitlines (s : string) : list string :=
  match s with
  | EmptyString => []
  | String c s' =>
      if is_linebreak c then
        match s' with
        | String d s'' =>
            if Nat.eqb (code c) 13 && Nat.eqb (code d) 10
            then EmptyString :: splitlines s''
            else EmptyString :: splitlines s'
        | EmptyString => [EmptyString]
        end
      else match splitlines s' with
           | l :: ls => String c l :: ls
           | [] => [String c EmptyString]
           end
  end.

Fixpoint replace_go (old new : string) (skip : nat) (s : string) : string :=
  match s with
  | EmptyString => EmptyString
  | String c s' =>
      match skip with
      | S k => replace_go old new k s'
      | O => if prefix old s
             then new ++ replace_go old new (String.length old - 1) s'
             else String c (replace_go old new 0 s')
      end
  end.

Fixpoint intersperse (new s : string) : string :=
  match s with
  | EmptyString => EmptyString
  | String c s' => String c (new ++ intersperse new s')
  end.

(** [s.replace(old, new)]: every non-overlapping occurrence, leftmost
    first; an empty [old] matches between all characters. *)
Definition replace (old new s : string) : string :=
  match old with
  | EmptyString => new ++ intersperse new s
  | _ => replace_go old new 0 s
  end.

(** [sep.join(parts)]. *)
Definition join (sep : string) (parts : list string) : string :=
  String.concat sep parts.

(** [s[:n]]. *)
Definition take (n : nat) (s : string) : string := substring 0 n s.

(** [x in l] for a list of strings. *)
Definition mem (x : string) (l : list string) : bool :=
  existsb (String.eqb x) l.

(** [bool(s)] for a string: non-empty. *)
Definition truthy (s : string) : bool :=
  match s with
  | EmptyString => false
  | _ => true
  end.

(** [s.endswith(p)]. *)
Fixpoint endswith (s p : string) : bool :=
  String.eqb s p ||
  match s with
  | EmptyString => false
  | String _ s' => endswith s' p
  end.

(** The one-character strings that cannot be written as literals. *)
Definition LF : string := String (ascii_of_nat 10) EmptyString.
Definition DQUOTE : string := String (ascii_of_nat 34) EmptyString.

Definition hex_digit (n : nat) : ascii :=
  ascii_of_nat (if Nat.ltb n 10 then 48 + n else 87 + n).

Definition repr_char (quote c : ascii) : string :=
  if Ascii.eqb c quote || Nat.eqb (code c) 92 then String "\" (String c EmptyString)
  else if Nat.eqb (code c) 9 then "\t"
  else if Nat.eqb (code c) 10 then "\n"
  else if Nat.eqb (code c) 13 then "\r"
  else if Nat.ltb (code c) 32 || Nat.eqb (code c) 127
       then String "\" (String "x" (String (hex_digit (code c / 16))
                                   (String (hex_digit (code c mod 16)) EmptyString)))
  else String c EmptyString.

Fixpoint repr_body (quote : ascii) (s : string) : string :=
  match s with
  | EmptyString => EmptyString
  | String c s' => repr_char quote c ++ repr_body quote s'
  end.

(** [repr(s)]: single quotes, unless [s] has a single quote and no double
    quote. *)
Definition repr (s : string) : string :=
  let quote : ascii :=
    if contains "'" s && negb (contains DQUOTE s)
    then ascii_of_nat 34 else "'"%char in
  String quote (repr_body quote s ++ String quote EmptyString).

End Py.

(* ================================================================== *)
(** ** Backtracking regular expressions (the fragment of [re] in use) *)
(* ================================================================== *)

Module Re.

Definition charclass := ascii -> bool.

(** [Plus], [Star] and their lazy forms repeat a character class; [Many]
    is the greedy star of a sub-pattern, [(?:a)*]. *)
Inductive regex : Type :=
| Eps
| Chr (p : charclass)
| Seq (a b : regex)
| Alt (a b : regex)
| Opt (a : regex)
| Plus (p : charclass)
| PlusLazy (p : charclass)
| Star (p : charclass)
| StarLazy (p : charclass)
| Many (a : regex)
| Group (n : nat) (a : regex).

Definition captures := list (nat * string).

(** The text of group [n]; the empty string when it did not take part in
    the match (what [findall] reports). *)
Fixpoint group (n : nat) (caps : captures) : string :=
  match caps with
  | [] => EmptyString
  | (m, txt) :: rest => if Nat.eqb n m then txt else group n rest
  end.

(** What was read between [s] and its suffix [rest]. *)
Definition consumed (s rest : string) : string :=
  substring 0 (String.length s - String.length rest) s.

Definition cont := string -> captures -> option (string * captures).

(** [p+], longest first. *)
Fixpoint plus_greedy {A} (p : charclass) (s : string) (k : string -> option A)
  : option A :=
  match s with
  | EmptyString => None
  | String c s' =>
      if p c then
        match plus_greedy p s' k with
        | Some r => Some r
        | None => k s'
        end
      else None
  end.

(** [p+?], shortest first. *)
Fixpoint plus_lazy {A} (p : charclass) (s : string) (k : string -> option A)
  : option A :=
  match s with
  | EmptyString => None
  | String c s' =>
      if p c then
        match k s' with
        | Some r => Some r
        | None => plus_lazy p s' k
        end
      else None
  end.

(** [p*] is [p+] or nothing; [p*?] is nothing or [p+?]. *)
Definition star_greedy {A} (p : charclass) (s : string) (k : string -> option A)
  : option A :=
  match plus_greedy p s k with
  | Some r => Some r
  | None => k s
  end.

Definition star_lazy {A} (p : charclass) (s : string) (k : string -> option A)
  : option A :=
  match k s with
  | Some r => Some r
  | None => plus_lazy p s k
  end.

(** Match [r] at the head of [s], then continue with [k]; alternatives are
    tried in the order of the pattern and the first success wins. An
    iteration of [Many] must consume a character, so the length of the
    text bounds their number. *)
Fixpoint run (r : regex) (s : string) (caps : captures) (k : cont)
  : option (string * captures) :=
  match r with
  | Eps => k s caps
  | Chr p =>
      match s with
      | String c s' => if p c then k s' caps else None
      | EmptyString => None
      end
  | Seq a b => run a s caps (fun s' caps' => run b s' caps' k)
  | Alt a b =>
      match run a s caps k with
      | Some r => Some r
      | None => run b s caps k
      end
  | Opt a =>
      match run a s caps k with
      | Some r => Some r
      | None => k s caps
      end
  | Plus p => plus_greedy p s (fun s' => k s' caps)
  | PlusLazy p => plus_lazy p s (fun s' => k s' caps)
  | Star p => star_greedy p s (fun s' => k s' caps)
  | StarLazy p => star_lazy p s (fun s' => k s' caps)
  | Many a =>
      (fix many (fuel : nat) (s : string) (caps : captures) {struct fuel}
         : option (string * captures) :=
         match fuel with
         | O => k s caps
         | S fuel' =>
             match run a s caps
                     (fun s' caps' =>
                        if Nat.ltb (String.length s') (String.length s)
                        then many fuel' s' caps' else None) with
             | Some r => Some r
             | None => k s caps
             end
         end) (String.length s) s caps
  | Group n a =>
      run a s caps (fun s' caps' => k s' ((n, consumed s s') :: caps'))
  end.

Definition accept : cont := fun rest caps => Some (rest, caps).

(** [re.match]: the matched text and the groups. *)
Definition match_at (r : regex) (s : string) : option (string * captures) :=
  match run r s [] accept with
  | Some (rest, caps) => Some (consumed s rest, caps)
  | None => None
  end.

(** [re.search]: the leftmost match. *)
Fixpoint search (r : regex) (s : string) : option (string * captures) :=
  match match_at r s with
  | Some m => Some m
  | None =>
      match s with
      | EmptyString => None
      | String _ s' => search r s'
      end
  end.

Fixpoint findall_go (r : regex) (skip : nat) (s : string) : list captures :=
  match s with
  | EmptyString =>
      match match_at r EmptyString with
      | Some (_, caps) => [caps]
      | None => []
      end
  | String _ s' =>
      match skip with
      | S n => findall_go r n s'
      | O =>
          match match_at r s with
          | Some (txt, caps) => caps :: findall_go r (String.length txt - 1) s'
          | None => findall_go r 0 s'
          end
      end
  end.

(** [re.findall]: the groups of the successive non-overlapping matches. *)
Definition findall (r : regex) (s : string) : list captures :=
  findall_go r 0 s.

Fixpoint sub_go (r : regex) (repl : string) (skip : nat) (s : string) : string :=
  match s with
  | EmptyString =>
      match match_at r EmptyString with
      | Some _ => repl
      | None => EmptyString
      end
  | String c s' =>
      match skip with
      | S n => sub_go r repl n s'
      | O =>
          match match_at r s with
          | Some (EmptyString, _) => repl ++ String c (sub_go r repl 0 s')
          | Some (txt, _) => repl ++ sub_go r repl (String.length txt - 1) s'
          | None => String c (sub_go r repl 0 s')
          end
      end
  end.

(** [re.sub(r, repl, s)] for a replacement text without group references. *)
Definition sub (r : regex) (repl s : string) : string := sub_go r repl 0 s.

(** A literal, case-sensitive. *)
Fixpoint lit (w : string) : regex :=
  match w with
  | EmptyString => Eps
  | String x w' => Seq (Chr (fun c => Ascii.eqb c x)) (lit w')
  end.

(** A literal under [re.IGNORECASE]. *)
Fixpoint lit_ci (w : string) : regex :=
  match w with
  | EmptyString => Eps
  | String x w' =>
      Seq (Chr (fun c => Ascii.eqb (Py.to_upper c) (Py.to_upper x))) (lit_ci w')
  end.

Definition char (x : ascii) : charclass := fun c => Ascii.eqb c x.

(** [\s], [\w], [.] (without [re.DOTALL]). *)
Definition space : charclass := Py.is_space.
Definition word : charclass := Py.is_word.
Definition dot : charclass := fun c => negb (Nat.eqb (Py.code c) 10).
(** [.] under [re.DOTALL]. *)
Definition any : charclass := fun _ => true.

Fixpoint seq (rs : list regex) : regex :=
  match rs with
  | [] => Eps
  | [r] => r
  | r :: rs' => Seq r (seq rs')
  end.

Fixpoint alt (rs : list regex) : regex :=
  match rs with
  | [] => Eps
  | [r] => r
  | r :: rs' => Alt r (alt rs')
  end.

End Re.

(* ================================================================== *)
(** ** Exceptions, the external world, and the monad of the pipelines *)
(* ================================================================== *)

Module Runtime.

(** The exceptions that the modelled code raises or receives. An
    [ExternalError] is any exception raised by the language-model client or
    by the database driver; it carries its [str()]. *)
Inductive exn : Type :=
| ValueError (msg : string)
| KeyError (key : string)
| IndexError
| PlainException (msg : string)
| ExternalError (msg : string).

(** [str(e)]. *)
Definition str (e : exn) : string :=
  match e with
  | ValueError msg => msg
  | KeyError key => Py.repr key
  | IndexError => "list index out of range"
  | PlainException msg => msg
  | ExternalError msg => msg
  end.

Inductive outcome (A : Type) : Type :=
| Ok (a : A)
| Raise (e : exn).
Arguments Ok {A} a.
Arguments Raise {A} e.

Definition obind {A B} (c : outcome A) (k : A -> outcome B) : outcome B :=
  match c with
  | Ok a => k a
  | Raise e => Raise e
  end.

(** [for x in l: acc = body(acc, x)], stopping at the first exception. *)
Fixpoint for_each {A S} (l : list A) (body : S -> A -> outcome S) (acc : S)
  : outcome S :=
  match l with
  | [] => Ok acc
  | x :: l' => obind (body acc x) (for_each l' body)
  end.

(** [l[0]]. *)
Definition first {A} (l : list A) : outcome A :=
  match l with
  | x :: _ => Ok x
  | [] => Raise IndexError
  end.

(** Values of a result row. *)
Inductive value : Type :=
| VNull
| VNum (n : nat)
| VText (s : string).

(** A result row: a Python [dict] from column name to value, in insertion
    order. *)
Definition row := list (string * value).

(** [d[k] = v]. *)
Fixpoint dict_set (k : string) (v : value) (d : row) : row :=
  match d with
  | [] => [(k, v)]
  | (k', v') :: d' =>
      if String.eqb k k' then (k, v) :: d' else (k', v') :: dict_set k v d'
  end.

(** [dict(pairs)]. *)
Definition dict (pairs : list (string * value)) : row :=
  fold_left (fun d kv => dict_set (fst kv) (snd kv) d) pairs [].

(** What the database answers to one statement. *)
Inductive db_reply : Type :=
| DbRaises (msg : string)
| DbResult (keys : list string) (rows : list (list value)).

(** The observable state of the outside world: how many times the model
    was invoked, and the statements sent to the database so far. *)
Record world : Type := {
  llm_calls : nat;
  db_log : list string
}.

(** The oracles. The model's answer may depend on how many times it was
    asked before, the database's on every statement it has seen. *)
Record env : Type := {
  llm : nat -> outcome string;
  connect : list string -> outcome unit;
  execute : list string -> string -> db_reply
}.

Definition M (A : Type) : Type := world -> outcome A * world.

Definition ret {A} (a : A) : M A := fun w => (Ok a, w).
Definition raise {A} (e : exn) : M A := fun w => (Raise e, w).

Definition bind {A B} (c : M A) (k : A -> M B) : M B :=
  fun w =>
    match c w with
    | (Ok a, w') => k a w'
    | (Raise e, w') => (Raise e, w')
    end.

(** A computation that has no effect on the world. *)
Definition lift {A} (c : outcome A) : M A := fun w => (c, w).

(** [try: body  except Exception as e: handler(e)]. *)
Definition try_except {A} (body : M A) (handler : exn -> M A) : M A :=
  fun w =>
    match body w with
    | (Ok a, w') => (Ok a, w')
    | (Raise e, w') => handler e w'
    end.

(** [self.llm.invoke(prompt).content]. *)
Definition invoke (E : env) : M string :=
  fun w =>
    (llm E (llm_calls w),
     {| llm_calls := S (llm_calls w); db_log := db_log w |}).

(** [self.engine.connect()]. *)
Definition open_connection (E : env) : M unit :=
  fun w => (connect E (db_log w), w).

(** [connection.execute(text(stmt))]: the statement reaches the database,
    which answers or raises. *)
Definition run_statement (E : env) (stmt : string)
  : M (list string * list (list value)) :=
  fun w =>
    let w' := {| llm_calls := llm_calls w; db_log := db_log w ++ [stmt] |} in
    match execute E (db_log w) stmt with
    | DbRaises msg => (Raise (ExternalError msg), w')
    | DbResult keys rows => (Ok (keys, rows), w')
    end.

End Runtime.

Import Runtime.

Notation "x <- c ;; k" := (bind c (fun x => k))
  (at level 61, c at next level, right associativity).
Notation "c ;;; k" := (bind c (fun _ => k))
  (at level 61, right associativity).
Notation "x <~ c ;; k" := (obind c (fun x => k))
  (at level 61, c at next level, right associativity).

(* ================================================================== *)
(** ** query_pipeline.py *)
(* ================================================================== *)

Module QueryPipeline.

(** *** The schema snapshot ([self.schema]) *)

(** One entry of [inspector.get_foreign_keys(table)]. *)
Record foreign_key : Type := {
  constrained_columns : list string;
  referred_table : string;
  referred_columns : list string
}.

Record table_info : Type := {
  columns : list string;
  foreign_keys : list foreign_key
}.

(** A Python [dict] keeps its keys in insertion order, and the table
    identification iterates over them: the snapshot is an association
    list. *)
Definition schema : Type := list (string * table_info).

(** [self.schema.keys()]. *)
Definition keys (sc : schema) : list string := map fst sc.

(** [table in self.schema]. *)
Definition has_table (sc : schema) (table : string) : bool :=
  Py.mem table (keys sc).

(** [self.schema[table]]. *)
Fixpoint lookup (sc : schema) (table : string) : outcome table_info :=
  match sc with
  | [] => Raise (KeyError table)
  | (name, info) :: rest =>
      if String.eqb table name then Ok info else lookup rest table
  end.

(** One entry of the join plan. *)
Record join : Type := {
  from_table : string;
  to_table : string;
  from_column : string;
  to_column : string
}.

(** The record returned by [process_query]; [error = None] when the key
    is absent. *)
Record response : Type := {
  r_tables : list string;
  r_joins : list join;
  r_columns : list string;
  r_sql_query : string;
  r_results : list row;
  r_error : option string;
  r_validation_passed : bool
}.

(** *** extract_sql_condition *)

Definition word_or_dot : Re.charclass :=
  fun c => Re.word c || Re.char "." c.

Definition not_newline_or_quote : Re.charclass :=
  fun c => negb (Nat.eqb (Py.code c) 10 || Nat.eqb (Py.code c) 13 || Re.char "'" c).

(** [([\w\.]+\s+(LIKE|=|>|<|<=|>=|!=)\s+\'?[^\n\r\']+\'?)] with
    [re.IGNORECASE]. *)
Definition condition_pattern : Re.regex :=
  Re.Group 1
    (Re.seq [Re.Plus word_or_dot;
             Re.Plus Re.space;
             Re.Group 2 (Re.alt (map Re.lit_ci ["LIKE"; "="; ">"; "<"; "<="; ">="; "!="]));
             Re.Plus Re.space;
             Re.Opt (Re.Chr (Re.char "'"));
             Re.Plus not_newline_or_quote;
             Re.Opt (Re.Chr (Re.char "'"))]).

Definition line_operators : list string := ["LIKE"; "="; ">"; "<"; "!="].

(** The two chained [replace] calls of the fallback branches: the first
    deletes every double quote, the second maps a single quote to itself. *)
Definition unquote (s : string) : string :=
  Py.replace "'" "'" (Py.replace Py.DQUOTE "" s).

Definition extract_sql_condition (where_response : string) : string :=
  match Re.search condition_pattern where_response with
  | Some (_, caps) => Re.group 1 caps
  | None =>
      match find (fun line => existsb (fun op => Py.contains op line) line_operators)
                 (map Py.strip (Py.splitlines where_response)) with
      | Some line => unquote line
      | None =>
          if Nat.ltb (List.length (Py.split where_response)) 10
          then unquote (Py.strip where_response)
          else ""
      end
  end.

(** *** validate_sql_syntax *)

Definition required_clauses : list string := ["SELECT"; "FROM"].

Definition dangerous_patterns : list string :=
  ["DROP"; "DELETE"; "TRUNCATE"; "ALTER"; "CREATE"; "INSERT"; "UPDATE"].

Definition validate_sql_syntax (sql_query : string) : bool * string :=
  match find (fun clause => negb (Py.contains clause (Py.upper sql_query)))
             required_clauses with
  | Some clause => (false, "Missing required clause: " ++ clause)
  | None =>
      if negb (Nat.eqb (Py.count_char "(" sql_query) (Py.count_char ")" sql_query))
      then (false, "Mismatched parentheses")
      else if Py.contains "WHERE" (Py.upper sql_query)
              && negb (Py.contains "WHERE" sql_query)
      then (false, "Invalid WHERE clause")
      else
        match find (fun pattern => Py.contains pattern (Py.upper sql_query))
                   dangerous_patterns with
        | Some pattern =>
            (false, "Potentially dangerous SQL operation detected: " ++ pattern)
        | None => (true, "SQL syntax appears valid")
        end
  end.

(** *** The pipeline stages *)

Definition is_empty {A} (l : list A) : bool :=
  match l with
  | [] => true
  | _ => false
  end.

(** [response.strip().replace('\n', ' ').replace('`', '')]. *)
Definition clean_response (response : string) : string :=
  Py.replace "`" "" (Py.replace Py.LF " " (Py.strip response)).

(** [step1_identify_tables]. *)
Definition step1_identify_tables (E : env) (sc : schema) (user_query : string)
  : M (list string) :=
  response <- invoke E ;;
  let response_clean := clean_response response in
  let tables :=
    if Py.contains "," response_clean
    then map Py.strip (Py.split_on "," response_clean)
    else filter (fun table =>
                   Py.contains (Py.lower table) (Py.lower response_clean))
                (keys sc) in
  let valid_tables := filter (has_table sc) tables in
  let valid_tables :=
    if is_empty valid_tables then
      let query_lower := Py.lower user_query in
      (valid_tables ++
       filter (fun table =>
                 Py.contains (Py.lower table) query_lower
                 || existsb (fun word => Py.contains word query_lower)
                            (Py.split_on "_" (Py.lower table)))
              (keys sc))%list
    else valid_tables in
  ret valid_tables.

(** The joins that the foreign keys of [table1] towards [table2] add. *)
Definition joins_of_foreign_keys (table1 table2 : string)
           (fks : list foreign_key) (joins : list join) : outcome (list join) :=
  for_each fks
    (fun joins fk =>
       if String.eqb (referred_table fk) table2 then
         from_col <~ first (constrained_columns fk) ;;
         to_col <~ first (referred_columns fk) ;;
         Ok (joins ++ [{| from_table := table1; to_table := table2;
                          from_column := from_col; to_column := to_col |}])%list
       else Ok joins)
    joins.

(** [step2_analyze_joins]. *)
Definition step2_analyze_joins (sc : schema) (tables : list string)
  : outcome (list join) :=
  if Nat.ltb 1 (List.length tables) then
    for_each tables
      (fun joins table1 =>
         for_each tables
           (fun joins table2 =>
              if negb (String.eqb table1 table2) then
                info <~ lookup sc table1 ;;
                joins_of_foreign_keys table1 table2 (foreign_keys info) joins
              else Ok joins)
           joins)
      []
  else Ok [].

(** [for table in tables: for col in self.schema[table]['columns']:
    if keep(col): columns.append(col)]. *)
Definition collect_columns (sc : schema) (tables : list string)
           (pick : list string -> list string) : outcome (list string) :=
  for_each tables
    (fun cols table => info <~ lookup sc table ;; Ok (cols ++ pick (columns info))%list)
    [].

(** [step3_select_columns]. *)
Definition step3_select_columns (E : env) (sc : schema) (user_query : string)
           (tables : list string) : M (list string) :=
  if is_empty tables then ret []
  else
    _ <- lift (collect_columns sc tables (fun cols => cols)) ;;
    response <- invoke E ;;
    let response_clean := clean_response response in
    cols <- lift
      (if Py.contains "," response_clean
       then Ok (map Py.strip (Py.split_on "," response_clean))
       else collect_columns sc tables
              (filter (fun col =>
                         Py.contains (Py.lower col) (Py.lower response_clean)))) ;;
    if is_empty cols && negb (is_empty tables) then
      let query_lower := Py.lower user_query in
      if Py.contains "name" query_lower
      then lift (collect_columns sc tables
                   (filter (fun col => Py.contains "name" (Py.lower col))))
      else lift (collect_columns sc tables (firstn 3))
    else ret cols.

(** The inner loop of the SELECT clause: the first table of [tables] whose
    columns hold [col] prefixes it; a column found nowhere is used as is. *)
Fixpoint prefix_column (sc : schema) (tables : list string) (col : string)
  : outcome string :=
  match tables with
  | [] => Ok col
  | table :: rest =>
      info <~ lookup sc table ;;
      if Py.mem col (columns info)
      then Ok (table ++ "." ++ col)
      else prefix_column sc rest col
  end.

Definition select_clause (sc : schema) (tables columns : list string)
  : outcome string :=
  if negb (is_empty columns) then
    prefixed_columns <~
      for_each columns
        (fun acc col => p <~ prefix_column sc tables col ;; Ok (acc ++ [p])%list)
        [] ;;
    Ok ("SELECT " ++ Py.join ", " prefixed_columns)
  else Ok "SELECT *".

Definition join_clause (j : join) : string :=
  "JOIN " ++ to_table j ++ " ON " ++ from_table j ++ "." ++ from_column j
  ++ " = " ++ to_table j ++ "." ++ to_column j.

(** [[select_clause, from_clause] + join_clauses]. *)
Definition sql_parts (sc : schema) (tables : list string) (joins : list join)
           (columns : list string) : outcome (list string) :=
  match tables with
  | [] => Raise (ValueError "No tables identified for the query")
  | first_table :: _ =>
      sel <~ select_clause sc tables columns ;;
      Ok (List.app [sel; "FROM " ++ first_table] (map join_clause joins))
  end.

(** The WHERE clause is appended when the fragment is not empty, and the
    clauses are joined with single spaces. *)
Definition combine_clauses (parts : list string) (where_clause : string)
  : string :=
  Py.join " "
    (if Py.truthy where_clause
     then List.app parts ["WHERE " ++ where_clause]
     else parts).

(** The assembly part of [step4_build_sql], for a given WHERE fragment
    (the value of [extract_sql_condition(where_response)]). *)
Definition assemble_sql (sc : schema) (tables : list string)
           (joins : list join) (columns : list string) (where_clause : string)
  : outcome string :=
  parts <~ sql_parts sc tables joins columns ;;
  Ok (combine_clauses parts where_clause).

(** [_extract_where_conditions]. *)
Definition _extract_where_conditions (E : env) (user_query : string)
           (tables : list string) : M string :=
  if is_empty tables then ret ""
  else response <- invoke E ;; ret (Py.strip response).

(** [_validate_sql_with_explain]. *)
Definition _validate_sql_with_explain (E : env) (sql_query : string) : M bool :=
  try_except
    (open_connection E ;;;
     run_statement E ("EXPLAIN " ++ sql_query) ;;;
     ret true)
    (fun _ => ret false).

(** [FROM\s+(\w+)|JOIN\s+(\w+)|(\w+)\.] with [re.IGNORECASE]. *)
Definition tables_pattern : Re.regex :=
  Re.alt [Re.seq [Re.lit_ci "FROM"; Re.Plus Re.space; Re.Group 1 (Re.Plus Re.word)];
          Re.seq [Re.lit_ci "JOIN"; Re.Plus Re.space; Re.Group 2 (Re.Plus Re.word)];
          Re.seq [Re.Group 3 (Re.Plus Re.word); Re.Chr (Re.char ".")]].

(** [SELECT\s+(.+?)\s+FROM|(\w+)\.(\w+)] with [re.IGNORECASE]. *)
Definition columns_pattern : Re.regex :=
  Re.alt [Re.seq [Re.lit_ci "SELECT"; Re.Plus Re.space;
                  Re.Group 1 (Re.PlusLazy Re.dot);
                  Re.Plus Re.space; Re.lit_ci "FROM"];
          Re.seq [Re.Group 2 (Re.Plus Re.word); Re.Chr (Re.char ".");
                  Re.Group 3 (Re.Plus Re.word)]].

(** The groups of a [findall] result, as the tuple Python builds. *)
Definition groups3 (caps : Re.captures) : list string :=
  [Re.group 1 caps; Re.group 2 caps; Re.group 3 caps].

(** A loop that returns at the first element satisfying [f]. *)
Fixpoint any_of {A} (f : A -> outcome bool) (l : list A) : outcome bool :=
  match l with
  | [] => Ok false
  | x :: l' => b <~ f x ;; if b then Ok true else any_of f l'
  end.

Definition column_unknown (sc : schema) (caps : Re.captures) : outcome bool :=
  let table := Re.group 2 caps in
  let column := Re.group 3 caps in
  if Py.truthy table && Py.truthy column then
    if has_table sc table then
      info <~ lookup sc table ;;
      Ok (negb (Py.mem column (columns info)))
    else Ok false
  else Ok false.

(** [_validate_sql_semantics]; an exception in the body gives [False]. *)
Definition _validate_sql_semantics (sc : schema) (sql_query : string)
           (tables columns : list string) : bool :=
  let mentioned_tables :=
    flat_map (fun caps => filter Py.truthy (groups3 caps))
             (Re.findall tables_pattern sql_query) in
  let body :=
    if existsb (fun table => negb (has_table sc table)) mentioned_tables
    then Ok false
    else
      unknown <~ any_of (column_unknown sc) (Re.findall columns_pattern sql_query) ;;
      Ok (negb unknown) in
  match body with
  | Ok b => b
  | Raise _ => false
  end.

(** The three validation layers that end [step4_build_sql]. *)
Definition validation_layers (E : env) (sc : schema) (sql_query : string)
           (tables columns : list string) : M string :=
  let (is_valid, error_msg) := validate_sql_syntax sql_query in
  if negb is_valid then raise (ValueError ("SQL syntax error: " ++ error_msg))
  else
    explained <- _validate_sql_with_explain E sql_query ;;
    if negb explained
    then raise (ValueError "SQL query failed database validation")
    else if negb (_validate_sql_semantics sc sql_query tables columns)
    then raise (ValueError "SQL query failed semantic validation")
    else ret sql_query.

(** [step4_build_sql]: the assembly, then the validation layers. *)
Definition step4_build_sql (E : env) (sc : schema) (tables : list string)
           (joins : list join) (columns : list string) (user_query : string)
  : M string :=
  parts <- lift (sql_parts sc tables joins columns) ;;
  where_response <- _extract_where_conditions E user_query tables ;;
  let where_clause := extract_sql_condition where_response in
  let sql_query := combine_clauses parts where_clause in
  validation_layers E sc sql_query tables columns.

Definition SET_TIMEOUT : string := "SET SESSION MAX_EXECUTION_TIME = 30000".

(** [step5_execute_query]: any exception is caught and gives []. *)
Definition step5_execute_query (E : env) (sql_query : string) : M (list row) :=
  try_except
    (open_connection E ;;;
     run_statement E SET_TIMEOUT ;;;
     result <- run_statement E sql_query ;;
     let (column_names, fetched) := result in
     ret (map (fun r => dict (combine column_names r)) fetched))
    (fun _ => ret []).

(** The body of the [try] block of [process_query]. *)
Definition process_query_body (E : env) (sc : schema) (user_query : string)
  : M response :=
  tables <- step1_identify_tables E sc user_query ;;
  joins <- lift (step2_analyze_joins sc tables) ;;
  columns <- step3_select_columns E sc user_query tables ;;
  sql_query <- step4_build_sql E sc tables joins columns user_query ;;
  results <- step5_execute_query E sql_query ;;
  ret {| r_tables := tables; r_joins := joins; r_columns := columns;
         r_sql_query := sql_query; r_results := results; r_error := None;
         r_validation_passed := true |}.

Definition failure_record (e : exn) : response :=
  {| r_tables := []; r_joins := []; r_columns := []; r_sql_query := "";
     r_results := []; r_error := Some (str e);
     r_validation_passed := false |}.

(** [process_query]. *)
Definition process_query (E : env) (sc : schema) (user_query : string)
  : M response :=
  try_except (process_query_body E sc user_query)
             (fun e => ret (failure_record e)).

End QueryPipeline.


(* ================================================================== *)
(** ** advanced_pipeline.py *)
(* ================================================================== *)

Module AdvancedPipeline.

(** The record returned by [process_query]; [error = None] when the key
    is absent. *)
Record response : Type := {
  success : bool;
  user_question : string;
  target_table : string;
  sql_query : string;
  results : list row;
  result_count : nat;
  error : option string
}.

(** [_error_response]. *)
Definition _error_response (error_message : string) : response :=
  {| success := false; user_question := ""; target_table := "";
     sql_query := ""; results := []; result_count := 0;
     error := Some error_message |}.

(** The markdown fences that [_clean_advanced_sql] deletes: a fence with
    the [sql] tag or a bare fence, each with an optional line feed. *)
Definition fence : string := "```".

Definition fence_pattern : Re.regex :=
  Re.alt [Re.seq [Re.lit (fence ++ "sql"); Re.Opt (Re.Chr (Re.char (ascii_of_nat 10)))];
          Re.seq [Re.lit fence; Re.Opt (Re.Chr (Re.char (ascii_of_nat 10)))]].

(** A fenced block, its contents in group 1 ([re.DOTALL | re.IGNORECASE]):
    fence, optional [sql], [\s*], optional line feed, [(.*?)], optional line
    feed, fence. *)
Definition block_pattern : Re.regex :=
  Re.seq [Re.lit fence; Re.Opt (Re.lit_ci "sql"); Re.Star Re.space;
          Re.Opt (Re.Chr (Re.char (ascii_of_nat 10)));
          Re.Group 1 (Re.StarLazy Re.any);
          Re.Opt (Re.Chr (Re.char (ascii_of_nat 10)));
          Re.lit fence].

(** [(SELECT\s+.+|WITH\s+.+)] with [re.IGNORECASE | re.DOTALL]. *)
Definition statement_pattern : Re.regex :=
  Re.Group 1
    (Re.alt [Re.seq [Re.lit_ci "SELECT"; Re.Plus Re.space; Re.Plus Re.any];
             Re.seq [Re.lit_ci "WITH"; Re.Plus Re.space; Re.Plus Re.any]]).

(** [_extract_sql_from_advanced_response]. *)
Definition _extract_sql_from_advanced_response (response : string) : string :=
  match Re.search block_pattern response with
  | Some (_, caps) => Py.strip (Re.group 1 caps)
  | None =>
      let response_upper := Py.upper response in
      if existsb (fun keyword => Py.contains keyword response_upper)
                 ["SELECT"; "WITH"; "FROM"; "JOIN"]
      then
        match Re.search statement_pattern response with
        | Some (_, caps) => Py.strip (Re.group 1 caps)
        | None => Py.strip (Py.rstrip_char ";" (Py.strip response))
        end
      else Py.strip response
  end.

(** [_clean_advanced_sql]. *)
Definition _clean_advanced_sql (sql : string) : string :=
  let sql := Re.sub fence_pattern "" sql in
  let sql :=
    if negb (Py.startswith (Py.upper (Py.strip sql)) "SELECT")
    then _extract_sql_from_advanced_response sql
    else sql in
  let sql := Py.rstrip_char ";" (Py.strip sql) in
  Py.join " " (Py.split sql).

(** [_generate_advanced_sql]: the prompt is built from the question and
    the schema, the model answers, and the answer is cleaned. *)
Definition _generate_advanced_sql (E : env) (user_question : string) : M string :=
  response <- invoke E ;;
  ret (_clean_advanced_sql (Py.strip response)).

Definition dangerous_keywords : list string :=
  ["DROP"; "DELETE"; "UPDATE"; "INSERT"; "CREATE"; "ALTER"; "TRUNCATE";
   "EXEC"; "EXECUTE"].

(** [_is_safe_sql]. *)
Definition _is_safe_sql (sql : string) : bool :=
  let sql_upper := Py.strip (Py.upper sql) in
  if negb (Py.startswith sql_upper "SELECT" || Py.startswith sql_upper "WITH")
  then false
  else
    match find (fun keyword => Py.contains keyword sql_upper) dangerous_keywords with
    | Some _ => false
    | None => if Py.contains ";" sql then false else true
    end.

(** [for i, col in enumerate(columns): row_dict[col] = row[i]]. *)
Fixpoint row_to_dict (columns : list string) (i : nat) (r : list value)
         (row_dict : row) : outcome row :=
  match columns with
  | [] => Ok row_dict
  | col :: columns' =>
      match nth_error r i with
      | Some v => row_to_dict columns' (S i) r (dict_set col v row_dict)
      | None => Raise IndexError
      end
  end.

(** [_execute_query]: one connection, one statement; an exception is
    printed and raised again. *)
Definition _execute_query (E : env) (sql : string) : M (list row) :=
  try_except
    (open_connection E ;;;
     result <- run_statement E sql ;;
     let (columns, rows) := result in
     lift (for_each rows
             (fun results r =>
                row_dict <~ row_to_dict columns 0 r [] ;;
                Ok (results ++ [row_dict])%list)
             []))
    (fun e => raise e).

(** [(?:FROM|JOIN|LEFT\s+JOIN|RIGHT\s+JOIN|INNER\s+JOIN|FULL\s+JOIN)\s+(\w+)]
    with [re.IGNORECASE]. *)
Definition table_pattern : Re.regex :=
  Re.seq [Re.alt [Re.lit_ci "FROM"; Re.lit_ci "JOIN";
                  Re.seq [Re.lit_ci "LEFT"; Re.Plus Re.space; Re.lit_ci "JOIN"];
                  Re.seq [Re.lit_ci "RIGHT"; Re.Plus Re.space; Re.lit_ci "JOIN"];
                  Re.seq [Re.lit_ci "INNER"; Re.Plus Re.space; Re.lit_ci "JOIN"];
                  Re.seq [Re.lit_ci "FULL"; Re.Plus Re.space; Re.lit_ci "JOIN"]];
          Re.Plus Re.space; Re.Group 1 (Re.Plus Re.word)].

(** [_extract_main_tables]. The order in which [list(set(tables))]
    enumerates a set is not specified: [set_order] stands for it. *)
Definition _extract_main_tables (set_order : list string -> list string)
           (sql : string) : list string :=
  set_order (nodup string_dec
               (map (Re.group 1) (Re.findall table_pattern sql))).

(** The body of the [try] block of [process_query]. *)
Definition process_query_body (E : env) (set_order : list string -> list string)
           (user_question : string) : M response :=
  sql_query <- _generate_advanced_sql E user_question ;;
  if negb (_is_safe_sql sql_query)
  then ret (_error_response "Generated SQL failed safety check")
  else
    results <- _execute_query E sql_query ;;
    let main_tables := _extract_main_tables set_order sql_query in
    ret {| success := true;
           user_question := user_question;
           target_table :=
             if negb (QueryPipeline.is_empty main_tables)
             then Py.join ", " main_tables else "Multiple tables";
           sql_query := sql_query;
           results := results;
           result_count := List.length results;
           error := None |}.

(** [process_query]. *)
Definition process_query (E : env) (set_order : list string -> list string)
           (user_question : string) : M response :=
  try_except (process_query_body E set_order user_question)
             (fun e => ret (_error_response (str e))).

End AdvancedPipeline.

(* ================================================================== *)
(** ** simple_pipeline.py *)
(* ================================================================== *)

Module SimplePipeline.

(** [self.schema]: table name to column names, in insertion order. *)
Definition schema : Type := list (string * list string).

Definition keys (sc : schema) : list string := map fst sc.

Fixpoint lookup (sc : schema) (table : string) : outcome (list string) :=
  match sc with
  | [] => Raise (KeyError table)
  | (name, cols) :: rest =>
      if String.eqb table name then Ok cols else lookup rest table
  end.

(** The record returned by [process_query]; a field is [None] when the
    key is absent (the error record has four keys only). *)
Record response : Type := {
  success : bool;
  user_question : option string;
  target_table : option string;
  sql_query : option string;
  results : list row;
  result_count : nat;
  error : option string
}.

(** [_error_response]. *)
Definition _error_response (error_message : string) : response :=
  {| success := false; user_question := None; target_table := None;
     sql_query := None; results := []; result_count := 0;
     error := Some error_message |}.

(** [_identify_table]; [None] is Python's [None]. *)
Definition _identify_table (E : env) (sc : schema) (user_question : string)
  : M (option string) :=
  let available_tables := keys sc in
  response <- invoke E ;;
  let response := Py.strip response in
  let table_name := Py.strip (Py.lower response) in
  if Py.mem table_name available_tables then ret (Some table_name)
  else
    let question_lower := Py.lower user_question in
    ret (find (fun table => Py.contains (Py.lower table) question_lower)
              available_tables).

(** Method 1 of [_extract_sql_from_response]: the loop over the lines,
    with its state [found_select] and [sql_lines]. *)
Fixpoint method1 (lines : list string) (found_select : bool)
         (sql_lines : list string) : list string :=
  match lines with
  | [] => sql_lines
  | line :: rest =>
      let line_stripped := Py.strip line in
      if negb found_select && negb (Py.truthy line_stripped)
      then method1 rest found_select sql_lines
      else if negb found_select
              && Py.startswith (Py.upper line_stripped) "SELECT"
      then method1 rest true (sql_lines ++ [line_stripped])%list
      else if found_select then
        if Py.truthy line_stripped then
          if existsb (fun keyword => Py.contains keyword (Py.upper line_stripped))
                     ["FROM"; "WHERE"; "GROUP"; "ORDER"; "HAVING"; "LIMIT";
                      "AS"; "AND"; "OR"]
             || Py.endswith line_stripped ","
             || Py.startswith line_stripped "("
             || Py.endswith (last sql_lines EmptyString) ","
          then method1 rest found_select (sql_lines ++ [line_stripped])%list
          else sql_lines
        else sql_lines
      else method1 rest found_select sql_lines
  end.

(** [SELECT\s+.+?FROM\s+\w+(?:\s+(?:WHERE|GROUP\s+BY|ORDER\s+BY|HAVING|LIMIT)\s+.+?)*]
    with [re.IGNORECASE | re.DOTALL]. *)
Definition select_pattern : Re.regex :=
  Re.seq [Re.lit_ci "SELECT"; Re.Plus Re.space; Re.PlusLazy Re.any;
          Re.lit_ci "FROM"; Re.Plus Re.space; Re.Plus Re.word;
          Re.Many
            (Re.seq [Re.Plus Re.space;
                     Re.alt [Re.lit_ci "WHERE";
                             Re.seq [Re.lit_ci "GROUP"; Re.Plus Re.space; Re.lit_ci "BY"];
                             Re.seq [Re.lit_ci "ORDER"; Re.Plus Re.space; Re.lit_ci "BY"];
                             Re.lit_ci "HAVING";
                             Re.lit_ci "LIMIT"];
                     Re.Plus Re.space; Re.PlusLazy Re.any])].

(** [_extract_sql_from_response]. *)
Definition _extract_sql_from_response (response : string) : string :=
  let lines := Py.split_on (ascii_of_nat 10) (Py.strip response) in
  let sql_lines := method1 lines false [] in
  if negb (QueryPipeline.is_empty sql_lines) then Py.join " " sql_lines
  else
    match Re.search select_pattern response with
    | Some (txt, _) => Py.join " " (Py.split (Py.strip txt))
    | None =>
        match find (fun line_clean =>
                      Py.contains "SELECT" (Py.upper line_clean)
                      && Py.contains "FROM" (Py.upper line_clean))
                   (map (fun line => Py.join " " (Py.split line)) lines) with
        | Some line_clean => line_clean
        | None => Py.strip response
        end
    end.

Definition looks_like_sql (line : string) : bool :=
  Py.startswith (Py.upper line) "SELECT"
  || existsb (fun keyword => Py.contains keyword (Py.upper line))
             ["FROM"; "WHERE"; "GROUP BY"; "ORDER BY"; "HAVING"; "LIMIT"]
  || Py.contains "CONCAT(" (Py.upper line)
  || Py.endswith line ","
  || Py.startswith line "AND"
  || Py.startswith line "OR".

(** The second loop of [_clean_sql]: blank lines are skipped, and the
    first line that does not look like SQL ends the loop. *)
Fixpoint keep_sql_lines (lines : list string) : list string :=
  match lines with
  | [] => []
  | line :: rest =>
      let line := Py.strip line in
      if Py.truthy line then
        if looks_like_sql line then line :: keep_sql_lines rest else []
      else keep_sql_lines rest
  end.

(** The first argument of the last [replace] of [_clean_sql]: its two
    adjacent triple quotes delimit one string literal. *)
Definition replaced_text : string :=
  ", " ++ Py.DQUOTE ++ "'" ++ Py.DQUOTE ++ ").replace(".

(** [_clean_sql]. *)
Definition _clean_sql (sql : string) : string :=
  let sql := Re.sub AdvancedPipeline.fence_pattern "" sql in
  let sql_extracted :=
    if negb (Py.startswith (Py.upper (Py.strip sql)) "SELECT")
    then _extract_sql_from_response sql
    else Py.strip sql in
  let sql_extracted := Py.rstrip_char ";" (Py.strip sql_extracted) in
  let sql_extracted := Py.rstrip_char "]" sql_extracted in
  let sql_lines := keep_sql_lines (Py.split_on (ascii_of_nat 10) sql_extracted) in
  let sql_extracted :=
    if negb (QueryPipeline.is_empty sql_lines)
    then Py.join " " sql_lines else sql_extracted in
  Py.replace replaced_text "'" sql_extracted.

(** [_generate_sql]. *)
Definition _generate_sql (E : env) (sc : schema) (user_question target_table : string)
  : M string :=
  _ <- lift (lookup sc target_table) ;;
  response <- invoke E ;;
  let response := Py.strip response in
  let response :=
    if negb (Py.startswith (Py.strip (Py.upper response)) "SELECT") then
      match find (fun line => Py.startswith (Py.upper (Py.strip line)) "SELECT")
                 (Py.split_on (ascii_of_nat 10) response) with
      | Some line => Py.strip line
      | None => response
      end
    else response in
  ret (_clean_sql response).

Definition dangerous_words : list string :=
  ["DROP"; "DELETE"; "UPDATE"; "INSERT"; "ALTER"; "CREATE"; "TRUNCATE"; "EXEC"].

(** The single quotes that are not preceded by a backslash; [prev] is the
    character before the head of [s], if any. *)
Fixpoint count_quotes (prev : option ascii) (s : string) : nat :=
  match s with
  | EmptyString => 0
  | String c s' =>
      (if Ascii.eqb c "'"
          && match prev with
             | None => true
             | Some b => negb (Nat.eqb (Py.code b) 92)
             end
       then 1 else 0) + count_quotes (Some c) s'
  end.

(** [_is_safe_sql]. *)
Definition _is_safe_sql (sql : string) : bool :=
  if negb (Py.truthy sql) || String.eqb (Py.strip sql) "" then false
  else
    let sql_clean := Py.join " " (Py.split sql) in
    let sql_upper := Py.strip (Py.upper sql_clean) in
    if negb (Py.startswith sql_upper "SELECT")
       && negb (Py.contains "SELECT" (Py.take 20 sql_upper))
    then false
    else if existsb (fun word => Py.contains word sql_upper) dangerous_words
    then false
    else if negb (Nat.eqb (count_quotes None sql mod 2) 0) then false
    else if negb (Py.contains "FROM" sql_upper) then false
    else if negb (Nat.eqb (Py.count_char "(" sql_upper) (Py.count_char ")" sql_upper))
    then false
    else true.

(** [_execute_query]: [EXPLAIN] first, its failure raised as a new
    [Exception]; then the statement itself; any exception is raised again. *)
Definition _execute_query (E : env) (sql_query : string) : M (list row) :=
  try_except
    (open_connection E ;;;
     try_except
       (run_statement E ("EXPLAIN " ++ sql_query) ;;; ret tt)
       (fun explain_error =>
          raise (PlainException ("SQL syntax error: " ++ str explain_error))) ;;;
     result <- run_statement E sql_query ;;
     let (column_names, rows) := result in
     ret (map (fun r => dict (combine column_names r)) rows))
    (fun e => raise e).

(** The body of the [try] block of [process_query]. *)
Definition process_query_body (E : env) (sc : schema) (user_question : string)
  : M response :=
  found <- _identify_table E sc user_question ;;
  match found with
  | None | Some EmptyString =>
      ret (_error_response "Could not identify which table you're asking about")
  | Some target_table =>
      sql_query <- _generate_sql E sc user_question target_table ;;
      if negb (_is_safe_sql sql_query)
      then ret (_error_response "Generated SQL failed safety check")
      else
        results <- _execute_query E sql_query ;;
        ret {| success := true;
               user_question := Some user_question;
               target_table := Some target_table;
               sql_query := Some sql_query;
               results := results;
               result_count := List.length results;
               error := None |}
  end.

(** [process_query]. *)
Definition process_query (E : env) (sc : schema) (user_question : string)
  : M response :=
  try_except (process_query_body E sc user_question)
             (fun e => ret (_error_response (str e))).

End SimplePipeline.

(* ================================================================== *)
(** ** Sample schema and oracles *)
(* ================================================================== *)

Module Sample.

Import QueryPipeline.

Definition customers : table_info :=
  {| columns := ["id"; "first_name"; "last_name"; "city"];
     foreign_keys := [] |}.

Definition orders : table_info :=
  {| columns := ["id"; "customer_id"; "total"];
     foreign_keys :=
       [{| constrained_columns := ["customer_id"];
           referred_table := "customers";
           referred_columns := ["id"] |}] |}.

Definition shop : schema := [("customers", customers); ("orders", orders)].

Definition orders_to_customers : join :=
  {| from_table := "orders"; to_table := "customers";
     from_column := "customer_id"; to_column := "id" |}.

Definition start : world := {| llm_calls := 0; db_log := [] |}.

(** A model that names the tables, then the columns, then the filter. *)
Definition answers (n : nat) : outcome string :=
  match n with
  | 0 => Ok "orders, customers"
  | 1 => Ok "total, first_name"
  | _ => Ok "city = 'NYC'"
  end.

(** A database that accepts the session setting and every EXPLAIN, and
    fails on the statement itself. *)
Definition failing_statements : env :=
  {| llm := answers;
     connect := fun _ => Ok tt;
     execute := fun _ stmt =>
       if String.eqb stmt SET_TIMEOUT || Py.startswith stmt "EXPLAIN"
       then DbResult [] []
       else DbRaises "Lost connection to MySQL server during query" |}.

(** A database that is reachable for the EXPLAIN check and refuses the
    connection afterwards. *)
Definition connection_lost : env :=
  {| llm := answers;
     connect := fun log =>
       match log with
       | [] => Ok tt
       | _ => Raise (ExternalError "Can't connect to MySQL server")
       end;
     execute := fun _ _ => DbResult [] [] |}.

(** For the advanced pipeline: the model answers with one statement, on
    which the database fails. *)
Definition failing_advanced : env :=
  {| llm := fun _ => Ok "SELECT * FROM orders";
     connect := fun _ => Ok tt;
     execute := fun _ _ => DbRaises "Table 'shop.orders' doesn't exist" |}.

Definition shop_sql : string :=
  "SELECT orders.total, customers.first_name FROM orders JOIN customers ON orders.customer_id = customers.id WHERE city = 'NYC'".

End Sample.

(* ================================================================== *)
(** ** Vocabulary of the specification *)
(* ================================================================== *)

Module Spec.

(** [sub] occurs in [s] at some position. *)
Definition occurs (sub s : string) : Prop :=
  exists pre post, s = pre ++ sub ++ post.

(** The keyword [kw] (in capitals) occurs in [s] in some letter case. *)
Definition mentions (kw s : string) : Prop :=
  exists pre w post, s = pre ++ w ++ post /\ Py.upper w = kw.

(** A keyword that neither starts nor ends with white space. *)
Definition solid_start (kw : string) : bool :=
  match kw with
  | EmptyString => false
  | String c _ => negb (Py.is_space c)
  end.

Fixpoint solid_end (kw : string) : bool :=
  match kw with
  | EmptyString => false
  | String c EmptyString => negb (Py.is_space c)
  | String _ kw' => solid_end kw'
  end.

(** *** The rule groups of the validator *)

(** Some structural rule is violated: SELECT or FROM is absent, the
    parentheses do not balance, or WHERE occurs only in another case. *)
Definition structural_violation (s : string) : bool :=
  negb (Py.contains "SELECT" (Py.upper s))
  || negb (Py.contains "FROM" (Py.upper s))
  || negb (Nat.eqb (Py.count_char "(" s) (Py.count_char ")" s))
  || (Py.contains "WHERE" (Py.upper s) && negb (Py.contains "WHERE" s)).

(** Some keyword of the denylist of [validate_sql_syntax] occurs. *)
Definition denylist_violation (s : string) : bool :=
  existsb (fun kw => Py.contains kw (Py.upper s)) QueryPipeline.dangerous_patterns.

Definition structural_diagnostics : list string :=
  ["Missing required clause: SELECT"; "Missing required clause: FROM";
   "Mismatched parentheses"; "Invalid WHERE clause"].

Definition denylist_diagnostic (kw : string) : string :=
  "Potentially dangerous SQL operation detected: " ++ kw.

(** *** The extractor *)

(** No line of [s], once stripped, holds a comparison operator of the
    line scan. *)
Definition no_operator_line (s : string) : Prop :=
  forall line op,
    In line (Py.splitlines s) -> In op QueryPipeline.line_operators ->
    Py.contains op (Py.strip line) = false.

(** [s] without the occurrences of the character [x]. *)
Fixpoint without (x : ascii) (s : string) : string :=
  match s with
  | EmptyString => EmptyString
  | String c s' => if Ascii.eqb c x then without x s' else String c (without x s')
  end.

Definition dquote : ascii := ascii_of_nat 34.

(** The number of white-space separated tokens. *)
Definition tokens (s : string) : nat := List.length (Py.split s).

(** *** The assembler *)

(** Table [t] of the snapshot has a column named [col]. *)
Definition has_column (sc : QueryPipeline.schema) (t col : string) : Prop :=
  exists info, QueryPipeline.lookup sc t = Ok info
               /\ In col (QueryPipeline.columns info).

(** [t] is the first table of [tables], in list order, that has [col]. *)
Definition first_owner (sc : QueryPipeline.schema) (tables : list string)
           (col t : string) : Prop :=
  exists before after,
    tables = (before ++ t :: after)%list
    /\ has_column sc t col
    /\ forall t', In t' before -> ~ has_column sc t' col.

(** [q] is [col] qualified by its first owner, or [col] itself when no
    candidate table has it. *)
Definition qualified (sc : QueryPipeline.schema) (tables : list string)
           (col q : string) : Prop :=
  (exists t, first_owner sc tables col t /\ q = t ++ "." ++ col)
  \/ ((forall t, In t tables -> ~ has_column sc t col) /\ q = col).

(** The text of the JOIN clauses: one clause per entry of the join plan,
    in the order of the plan, each after a single space. *)
Fixpoint join_clauses_text (joins : list QueryPipeline.join) : string :=
  match joins with
  | [] => ""
  | j :: joins' =>
      " JOIN " ++ QueryPipeline.to_table j
      ++ " ON " ++ QueryPipeline.from_table j ++ "." ++ QueryPipeline.from_column j
      ++ " = " ++ QueryPipeline.to_table j ++ "." ++ QueryPipeline.to_column j
      ++ join_clauses_text joins'
  end.

(** The text of the WHERE clause: nothing for an empty fragment. *)
Definition where_text (where_clause : string) : string :=
  match where_clause with
  | EmptyString => ""
  | _ => " WHERE " ++ where_clause
  end.

(** Every element after a single space. *)
Fixpoint spaced (parts : list string) : string :=
  match parts with
  | [] => ""
  | x :: parts' => " " ++ x ++ spaced parts'
  end.

(** A semicolon becomes a space, any other character is kept. *)
Definition blank_semicolon (c : ascii) : ascii :=
  if Ascii.eqb c ";" then " "%char else c.

(** A keyword without semicolon and without space. *)
Fixpoint plain (kw : string) : bool :=
  match kw with
  | EmptyString => true
  | String k kw' => negb (Ascii.eqb k ";") && negb (Ascii.eqb k " ") && plain kw'
  end.

End Spec.

(* ================================================================== *)
(** ** Vocabulary of the further properties *)
(* ================================================================== *)

Module Props.

(** A join of the plan is backed by the snapshot: it links two distinct
    tables of the list, and the first table has a foreign key to the second
    whose first column pair is the one of the join. *)
Definition backed_join (sc : QueryPipeline.schema) (tables : list string)
           (j : QueryPipeline.join) : Prop :=
  In (QueryPipeline.from_table j) tables
  /\ In (QueryPipeline.to_table j) tables
  /\ QueryPipeline.from_table j <> QueryPipeline.to_table j
  /\ exists info fk,
      QueryPipeline.lookup sc (QueryPipeline.from_table j) = Ok info
      /\ In fk (QueryPipeline.foreign_keys info)
      /\ QueryPipeline.referred_table fk = QueryPipeline.to_table j
      /\ hd_error (QueryPipeline.constrained_columns fk)
         = Some (QueryPipeline.from_column j)
      /\ hd_error (QueryPipeline.referred_columns fk)
         = Some (QueryPipeline.to_column j).

(** Every foreign key of the snapshot names at least one column on each
    side. *)
Definition foreign_keys_have_columns (sc : QueryPipeline.schema) : Prop :=
  forall name info fk,
    In (name, info) sc -> In fk (QueryPipeline.foreign_keys info) ->
    QueryPipeline.constrained_columns fk <> []
    /\ QueryPipeline.referred_columns fk <> [].

(** [col] is a column of one of the tables of the list. *)
Definition column_of_some (sc : QueryPipeline.schema) (tables : list string)
           (col : string) : Prop :=
  exists t, In t tables /\ Spec.has_column sc t col.

(** A text without white space; a token is such a text that is not empty. *)
Fixpoint spacefree (w : string) : bool :=
  match w with
  | EmptyString => true
  | String c w' => negb (Py.is_space c) && spacefree w'
  end.

Definition is_token (w : string) : bool := Py.truthy w && spacefree w.

(** [' '.join(s.split())]. *)
Definition normalize (s : string) : string := Py.join " " (Py.split s).

(** The statements that [SQLQueryPipeline] may send to the database for a
    validated statement [sql]. *)
Definition allowed_statement (stmt : string) : Prop :=
  stmt = QueryPipeline.SET_TIMEOUT
  \/ exists sql,
      fst (QueryPipeline.validate_sql_syntax sql) = true
      /\ (stmt = "EXPLAIN " ++ sql \/ stmt = sql).



(** The computation [c] only adds to the log of the database, and every
    statement it adds satisfies [P]. *)
Definition sends {A : Type} (P : string -> Prop) (c : M A) : Prop :=
  forall w, exists sent,
      db_log (snd (c w)) = (db_log w ++ sent)%list /\ Forall P sent.

(** What the advanced pipeline may send: a statement that passed its safety
    check. *)
Definition advanced_statement (stmt : string) : Prop :=
  AdvancedPipeline._is_safe_sql stmt = true.

(** What the simple pipeline may send: a statement that passed its safety
    check, or the EXPLAIN of one. *)
Definition simple_statement (stmt : string) : Prop :=
  exists sql,
    SimplePipeline._is_safe_sql sql = true
    /\ (stmt = "EXPLAIN " ++ sql \/ stmt = sql).

(** The computation [c] invokes the model at most [n] times, and never
    resets the count. *)
Definition asks {A : Type} (n : nat) (c : M A) : Prop :=
  forall w,
    llm_calls w <= llm_calls (snd (c w))
    /\ llm_calls (snd (c w)) <= llm_calls w + n.

(** For the simple pipeline: a snapshot with one table, a model that names
    the table and then writes the statement, and a database that refuses
    every EXPLAIN. *)
Definition one_table : SimplePipeline.schema := [("orders", ["id"; "total"])].

Definition explain_refused : env :=
  {| llm := fun n => match n with
                     | 0 => Ok "orders"
                     | _ => Ok "SELECT * FROM orders"
                     end;
     connect := fun _ => Ok tt;
     execute := fun _ _ => DbRaises "You have an error in your SQL syntax" |}.

End Props.

(* ================================================================== *)
(** ** Facts about the string primitives *)
(* ================================================================== *)

Section StringFacts.

Lemma append_empty_r (s : string) : s ++ "" = s.
Proof. induction s; simpl; congruence. Qed.

Lemma append_assoc (a b c : string) : (a ++ b) ++ c = a ++ b ++ c.
Proof. induction a; simpl; congruence. Qed.

Lemma prefix_append (p s : string) : prefix p (p ++ s) = true.
Proof.
  induction p as [|c p IH]; simpl.
  - now destruct s.
  - destruct (ascii_dec c c); [exact IH | congruence].
Qed.

Lemma prefix_split (p s : string) :
  prefix p s = true -> exists rest, s = p ++ rest.
Proof.
  revert s; induction p as [|c p IH]; intros s H.
  - now exists s.
  - destruct s as [|d s]; simpl in H; [discriminate|].
    destruct (ascii_dec c d) as [->|]; [|discriminate].
    destruct (IH _ H) as [rest ->]. now exists rest.
Qed.

Lemma contains_tail (sub : string) (c : ascii) (s : string) :
  Py.contains sub s = true -> Py.contains sub (String c s) = true.
Proof.
  intros H. change (prefix sub (String c s) || Py.contains sub s = true).
  rewrite H. apply orb_true_r.
Qed.

Lemma contains_prefix (sub s : string) :
  prefix sub s = true -> Py.contains sub s = true.
Proof. intros H. destruct s; cbn [Py.contains]; rewrite H; reflexivity. Qed.

Lemma contains_intro (sub pre post : string) :
  Py.contains sub (pre ++ sub ++ post) = true.
Proof.
  induction pre as [|c pre IH].
  - apply contains_prefix. cbn [append]. apply prefix_append.
  - simpl append. now apply contains_tail.
Qed.

Lemma contains_elim (sub s : string) :
  Py.contains sub s = true -> Spec.occurs sub s.
Proof.
  induction s as [|c s IH]; cbn [Py.contains]; intros H.
  - rewrite orb_false_r in H. destruct (prefix_split _ _ H) as [rest ->].
    now exists "", rest.
  - apply orb_true_iff in H as [H|H].
    + destruct (prefix_split _ _ H) as [rest ->]. now exists "", rest.
    + destruct (IH H) as (pre & post & ->). now exists (String c pre), post.
Qed.

Lemma occurs_contains (sub s : string) :
  Spec.occurs sub s <-> Py.contains sub s = true.
Proof.
  split.
  - intros (pre & post & ->). apply contains_intro.
  - apply contains_elim.
Qed.

Lemma map_chars_append (f : ascii -> ascii) (a b : string) :
  Py.map_chars f (a ++ b) = Py.map_chars f a ++ Py.map_chars f b.
Proof. induction a; simpl; congruence. Qed.

Lemma mentions_contains_upper (kw s : string) :
  Spec.mentions kw s -> Py.contains kw (Py.upper s) = true.
Proof.
  intros (pre & w & post & -> & <-). unfold Py.upper.
  rewrite !map_chars_append. apply contains_intro.
Qed.

Lemma contains_nonempty (sub s : string) :
  Py.contains sub s = true -> sub <> "" -> s <> "".
Proof. intros H Hs ->. simpl in H. now destruct sub. Qed.

Lemma contains_lstrip (kw s : string) :
  Spec.solid_start kw = true ->
  Py.contains kw s = true -> Py.contains kw (Py.lstrip s) = true.
Proof.
  intros Hk. induction s as [|c s IH]; intros H; [exact H|].
  simpl Py.lstrip. destruct (Py.is_space c) eqn:Hc; [|exact H].
  apply IH. cbn [Py.contains] in H. apply orb_true_iff in H as [H|H]; [|exact H].
  destruct kw as [|k kw]; [discriminate|]. simpl in H, Hk.
  destruct (ascii_dec k c) as [->|]; [|discriminate].
  rewrite Hc in Hk. discriminate.
Qed.

Lemma solid_end_nonempty (kw : string) : Spec.solid_end kw = true -> kw <> "".
Proof. now destruct kw. Qed.

Lemma prefix_rstrip (kw s : string) :
  Spec.solid_end kw = true ->
  prefix kw s = true -> prefix kw (Py.rstrip s) = true.
Proof.
  revert s. induction kw as [|k kw IH]; intros s Hk H; [discriminate|].
  destruct s as [|c s]; [discriminate|]. simpl in H.
  destruct (ascii_dec k c) as [->|]; [|discriminate].
  destruct kw as [|k' kw].
  - simpl in Hk. simpl. destruct (Py.rstrip s); simpl.
    + apply negb_true_iff in Hk. rewrite Hk. simpl.
      now destruct (ascii_dec c c).
    + now destruct (ascii_dec c c).
  - assert (Hr : prefix (String k' kw) (Py.rstrip s) = true) by (apply IH; assumption).
    simpl Py.rstrip. destruct (Py.rstrip s) as [|d r]; [discriminate|].
    cbn [prefix]. now destruct (ascii_dec c c).
Qed.

Lemma contains_rstrip (kw s : string) :
  Spec.solid_end kw = true ->
  Py.contains kw s = true -> Py.contains kw (Py.rstrip s) = true.
Proof.
  intros Hk. induction s as [|c s IH]; intros H; [exact H|].
  cbn [Py.contains] in H. apply orb_true_iff in H as [H|H].
  - apply (prefix_rstrip _ _ Hk) in H. now apply contains_prefix.
  - specialize (IH H).
    assert (Hne : Py.rstrip s <> "")
      by (eapply contains_nonempty; [exact IH | now apply solid_end_nonempty]).
    simpl Py.rstrip. destruct (Py.rstrip s) as [|d r]; [congruence|].
    now apply contains_tail.
Qed.

Lemma contains_strip (kw s : string) :
  Spec.solid_start kw = true -> Spec.solid_end kw = true ->
  Py.contains kw s = true -> Py.contains kw (Py.strip s) = true.
Proof.
  intros Hs He H. unfold Py.strip.
  now apply contains_rstrip, contains_lstrip.
Qed.

Lemma find_hit {A} (f : A -> bool) (l : list A) (x : A) :
  In x l -> f x = true -> exists y, find f l = Some y.
Proof.
  intros Hin Hx. destruct (find f l) eqn:E; [now eexists|].
  now rewrite (find_none _ _ E _ Hin) in Hx.
Qed.

End StringFacts.

(* ================================================================== *)
(** ** The validators: denylist, semicolons, order of the checks *)
(* ================================================================== *)

Section Validators.

Import QueryPipeline.

Lemma validate_rejects_denylisted (s kw : string) :
  In kw dangerous_patterns -> Py.contains kw (Py.upper s) = true ->
  fst (validate_sql_syntax s) = false.
Proof.
  intros Hin Hkw. unfold validate_sql_syntax.
  destruct (find _ required_clauses); [reflexivity|].
  destruct (negb _); [reflexivity|].
  destruct (_ && _); [reflexivity|].
  destruct (find_hit (fun p => Py.contains p (Py.upper s)) _ _ Hin Hkw) as [y ->].
  reflexivity.
Qed.

Lemma advanced_keywords_solid (kw : string) :
  In kw AdvancedPipeline.dangerous_keywords ->
  Spec.solid_start kw = true /\ Spec.solid_end kw = true.
Proof.
  unfold AdvancedPipeline.dangerous_keywords. simpl.
  intros H; repeat (destruct H as [<-|H]; [split; reflexivity|]); contradiction.
Qed.

Lemma advanced_rejects_denylisted (s kw : string) :
  In kw AdvancedPipeline.dangerous_keywords ->
  Py.contains kw (Py.upper s) = true ->
  AdvancedPipeline._is_safe_sql s = false.
Proof.
  intros Hin Hkw. unfold AdvancedPipeline._is_safe_sql.
  destruct (negb _); [reflexivity|].
  destruct (advanced_keywords_solid _ Hin) as [Hs He].
  pose proof (contains_strip _ _ Hs He Hkw) as Hc.
  destruct (find_hit (fun k => Py.contains k (Py.strip (Py.upper s))) _ _ Hin Hc)
    as [y ->].
  reflexivity.
Qed.

(** C1. Every string in which DROP, DELETE or INSERT occurs, in any letter
    case and at any position, is rejected by [validate_sql_syntax] and by
    the advanced pipeline's [_is_safe_sql]. *)
Theorem C1_denylisted_keyword_is_rejected (s kw : string) :
  In kw ["DROP"; "DELETE"; "INSERT"] ->
  Spec.mentions kw s ->
  fst (validate_sql_syntax s) = false
  /\ AdvancedPipeline._is_safe_sql s = false.
Proof.
  intros Hkw Hm. apply mentions_contains_upper in Hm.
  split.
  - apply validate_rejects_denylisted with kw; [|exact Hm].
    simpl in Hkw |- *. intuition.
  - apply advanced_rejects_denylisted with kw; [|exact Hm].
    simpl in Hkw |- *. intuition.
Qed.

Lemma C1_witness :
  fst (validate_sql_syntax "SELECT * FROM t WHERE x='Drop'") = false
  /\ AdvancedPipeline._is_safe_sql "SELECT * FROM t WHERE x='Drop'" = false.
Proof.
  apply (C1_denylisted_keyword_is_rejected "SELECT * FROM t WHERE x='Drop'" "DROP").
  - simpl. auto.
  - exists "SELECT * FROM t WHERE x='", "Drop", "'". split; reflexivity.
Defined.

(** *** Semicolons *)

Lemma blank_semicolon_upper (c : ascii) :
  Py.to_upper (Spec.blank_semicolon c) = Spec.blank_semicolon (Py.to_upper c).
Proof. destruct c as [[] [] [] [] [] [] [] []]; reflexivity. Qed.

Lemma upper_blank (s : string) :
  Py.upper (Py.map_chars Spec.blank_semicolon s)
  = Py.map_chars Spec.blank_semicolon (Py.upper s).
Proof.
  unfold Py.upper. induction s as [|c s IH]; simpl; [reflexivity|].
  now rewrite IH, blank_semicolon_upper.
Qed.

Lemma ascii_dec_blank (k c : ascii) :
  Ascii.eqb k ";" = false -> Ascii.eqb k " " = false ->
  (if ascii_dec k (Spec.blank_semicolon c) then true else false)
  = (if ascii_dec k c then true else false).
Proof.
  intros H1 H2. unfold Spec.blank_semicolon.
  destruct (Ascii.eqb c ";") eqn:Hc; [|reflexivity].
  apply Ascii.eqb_eq in Hc. subst c.
  destruct (ascii_dec k " ") as [->|]; [discriminate|].
  destruct (ascii_dec k ";") as [->|]; [discriminate|reflexivity].
Qed.

Lemma prefix_blank (kw s : string) :
  Spec.plain kw = true ->
  prefix kw (Py.map_chars Spec.blank_semicolon s) = prefix kw s.
Proof.
  revert s. induction kw as [|k kw IH]; intros s Hp;
    (destruct s as [|c s]; [reflexivity|]); [reflexivity|].
  simpl in Hp. apply andb_true_iff in Hp as [Hp Hkw].
  apply andb_true_iff in Hp as [H1 H2].
  apply negb_true_iff in H1, H2.
  pose proof (ascii_dec_blank k c H1 H2) as Hd.
  simpl. destruct (ascii_dec k (Spec.blank_semicolon c)), (ascii_dec k c);
    try discriminate; auto.
Qed.

Lemma contains_blank (kw s : string) :
  Spec.plain kw = true ->
  Py.contains kw (Py.map_chars Spec.blank_semicolon s) = Py.contains kw s.
Proof.
  intros Hp. induction s as [|c s IH].
  - reflexivity.
  - change (Py.map_chars Spec.blank_semicolon (String c s))
      with (String (Spec.blank_semicolon c) (Py.map_chars Spec.blank_semicolon s)).
    cbn [Py.contains]. rewrite IH. f_equal.
    apply (prefix_blank kw (String c s) Hp).
Qed.

Lemma count_blank (x : ascii) (s : string) :
  Ascii.eqb x ";" = false -> Ascii.eqb x " " = false ->
  Py.count_char x (Py.map_chars Spec.blank_semicolon s) = Py.count_char x s.
Proof.
  intros H1 H2. induction s as [|c s IH]; simpl; [reflexivity|].
  rewrite IH. f_equal. unfold Spec.blank_semicolon.
  destruct (Ascii.eqb c ";") eqn:Hc; [|reflexivity].
  apply Ascii.eqb_eq in Hc. subst c.
  rewrite Ascii.eqb_sym, H2, Ascii.eqb_sym, H1. reflexivity.
Qed.

(** The verdict and the diagnostic of [validate_sql_syntax] do not depend
    on semicolons. *)
Lemma validate_ignores_semicolons (s : string) :
  validate_sql_syntax (Py.map_chars Spec.blank_semicolon s) = validate_sql_syntax s.
Proof.
  unfold validate_sql_syntax, required_clauses, dangerous_patterns.
  cbn [find]. rewrite upper_blank.
  rewrite !contains_blank by reflexivity.
  rewrite !count_blank by reflexivity.
  reflexivity.
Qed.

(** C2, as the code has it. Every string that contains a semicolon is
    rejected by the advanced pipeline's [_is_safe_sql]. The validator
    [validate_sql_syntax] has no semicolon rule: its result is the same when
    every semicolon of the input is replaced by a space. *)
Theorem C2_semicolon_guard_is_in_the_advanced_validator (s : string) :
  (Spec.occurs ";" s -> AdvancedPipeline._is_safe_sql s = false)
  /\ validate_sql_syntax (Py.map_chars Spec.blank_semicolon s)
     = validate_sql_syntax s.
Proof.
  split; [|apply validate_ignores_semicolons].
  intros H. apply occurs_contains in H.
  unfold AdvancedPipeline._is_safe_sql.
  destruct (negb _); [reflexivity|].
  destruct (find _ _); [reflexivity|].
  now rewrite H.
Qed.

Lemma C2_witness :
  AdvancedPipeline._is_safe_sql "SELECT * FROM orders; SELECT 1" = false.
Proof.
  apply (proj1 (C2_semicolon_guard_is_in_the_advanced_validator
                  "SELECT * FROM orders; SELECT 1")).
  exists "SELECT * FROM orders", " SELECT 1". reflexivity.
Defined.

(** C2 as stated fails on [validate_sql_syntax]: a statement that ends
    with a semicolon passes. *)
Lemma C2_counterexample :
  Py.contains ";" "SELECT a FROM b;" = true
  /\ validate_sql_syntax "SELECT a FROM b;" = (true, "SQL syntax appears valid").
Proof. split; reflexivity. Qed.

End Validators.

Section CheckOrder.

Import QueryPipeline.

Lemma find_none_existsb {A} (f : A -> bool) (l : list A) :
  existsb f l = false -> find f l = None.
Proof.
  induction l as [|x l IH]; simpl; [reflexivity|].
  destruct (f x); simpl; [discriminate|exact IH].
Qed.

Lemma find_some_existsb {A} (f : A -> bool) (l : list A) :
  existsb f l = true -> exists x, find f l = Some x /\ In x l /\ f x = true.
Proof.
  intros H. destruct (find f l) as [x|] eqn:E.
  - exists x. split; [reflexivity|]. now apply find_some in E.
  - apply existsb_exists in H as (x & Hin & Hx).
    now rewrite (find_none _ _ E _ Hin) in Hx.
Qed.

(** The structural rules, in the order of the code; [Spec.structural_violation]
    is their disjunction. *)
Lemma validate_structural (s : string) :
  Spec.structural_violation s = true ->
  exists diag,
    In diag Spec.structural_diagnostics /\ validate_sql_syntax s = (false, diag).
Proof.
  unfold Spec.structural_violation, validate_sql_syntax, required_clauses.
  cbn [find].
  destruct (Py.contains "SELECT" (Py.upper s));
    [|intros _; eexists; split; [|reflexivity]; simpl; auto].
  destruct (Py.contains "FROM" (Py.upper s));
    [|intros _; eexists; split; [|reflexivity]; simpl; auto].
  destruct (Nat.eqb _ _);
    [|intros _; eexists; split; [|reflexivity]; simpl; auto].
  cbn [negb orb].
  intros ->. eexists; split; [|reflexivity]. simpl; auto.
Qed.

Lemma validate_after_structure (s : string) :
  Spec.structural_violation s = false ->
  validate_sql_syntax s =
  match find (fun pattern => Py.contains pattern (Py.upper s)) dangerous_patterns with
  | Some pattern => (false, Spec.denylist_diagnostic pattern)
  | None => (true, "SQL syntax appears valid")
  end.
Proof.
  unfold Spec.structural_violation, validate_sql_syntax, required_clauses.
  cbn [find]. intros H.
  apply orb_false_iff in H as [H Hw].
  apply orb_false_iff in H as [H Hp].
  apply orb_false_iff in H as [Hs Hf].
  rewrite Hs, Hf, Hp, Hw. reflexivity.
Qed.

Lemma explain_never_raises (E : env) (sql : string) (w : world) :
  exists b w', _validate_sql_with_explain E sql w = (Ok b, w').
Proof.
  unfold _validate_sql_with_explain, try_except, bind, open_connection,
    run_statement, ret.
  destruct (connect E (db_log w)); [|now eexists _, _].
  destruct (execute E (db_log w) _); now eexists _, _.
Qed.

(** C6, as the code has it. [validate_sql_syntax] checks the structural
    rules first (SELECT present, FROM present, balanced parentheses, WHERE
    case) and the keyword denylist last, and returns the diagnostic of the
    first failing check: an input that violates a structural rule gets a
    structural diagnostic, whether or not it also holds a denylisted
    keyword. In [step4_build_sql] this syntax layer comes first and a
    failure there raises before the database is contacted; the EXPLAIN
    layer comes second and the semantic layer last. *)
Theorem C6_structural_checks_precede_the_denylist (s : string) :
  (Spec.structural_violation s = true ->
     exists diag, In diag Spec.structural_diagnostics
                  /\ validate_sql_syntax s = (false, diag))
  /\ (Spec.structural_violation s = false ->
      Spec.denylist_violation s = true ->
      exists kw, In kw dangerous_patterns
                 /\ Py.contains kw (Py.upper s) = true
                 /\ validate_sql_syntax s = (false, Spec.denylist_diagnostic kw))
  /\ (Spec.structural_violation s = false ->
      Spec.denylist_violation s = false ->
      validate_sql_syntax s = (true, "SQL syntax appears valid"))
  /\ (forall E sc tables columns w,
        fst (validate_sql_syntax s) = false ->
        validation_layers E sc s tables columns w
        = (Raise (ValueError ("SQL syntax error: " ++ snd (validate_sql_syntax s))), w))
  /\ (forall E sc tables columns w explained w',
        fst (validate_sql_syntax s) = true ->
        _validate_sql_with_explain E s w = (Ok explained, w') ->
        validation_layers E sc s tables columns w
        = (if negb explained
           then Raise (ValueError "SQL query failed database validation")
           else if negb (_validate_sql_semantics sc s tables columns)
           then Raise (ValueError "SQL query failed semantic validation")
           else Ok s, w')).
Proof.
  split; [apply validate_structural|].
  split.
  { intros Hs Hd. rewrite (validate_after_structure _ Hs).
    destruct (find_some_existsb _ _ Hd) as (kw & -> & Hin & Hkw).
    now exists kw. }
  split.
  { intros Hs Hd. rewrite (validate_after_structure _ Hs).
    unfold Spec.denylist_violation in Hd.
    now rewrite (find_none_existsb _ _ Hd). }
  split.
  { intros E sc tables columns w H. unfold validation_layers.
    destruct (validate_sql_syntax s) as [v d]. simpl in H. subst v.
    reflexivity. }
  intros E sc tables columns w explained w' H He. unfold validation_layers.
  destruct (validate_sql_syntax s) as [v d]. simpl in H. subst v.
  cbn [negb]. unfold bind. rewrite He.
  destruct explained; cbn [negb]; [|reflexivity].
  destruct (_validate_sql_semantics sc s tables columns); reflexivity.
Qed.

Lemma C6_witness :
  exists diag, In diag Spec.structural_diagnostics
               /\ validate_sql_syntax "SELECT * FROM orders WHERE (DROP" = (false, diag).
Proof.
  apply (proj1 (C6_structural_checks_precede_the_denylist
                  "SELECT * FROM orders WHERE (DROP")).
  reflexivity.
Defined.

(** C6 as stated fails: this input breaks a lexical rule (DROP is on the
    denylist) and a structural rule (there is no SELECT), and the diagnostic
    is the structural one. *)
Lemma C6_counterexample :
  Spec.denylist_violation "DROP TABLE t" = true
  /\ Spec.structural_violation "DROP TABLE t" = true
  /\ validate_sql_syntax "DROP TABLE t" = (false, "Missing required clause: SELECT").
Proof. repeat split. Qed.

End CheckOrder.

(* ================================================================== *)
(** ** The assembler *)
(* ================================================================== *)

Section Assembler.

Import QueryPipeline.

Variable sc : schema.

Lemma join_spaced (a : string) (l : list string) :
  Py.join " " (a :: l) = a ++ Spec.spaced l.
Proof.
  unfold Py.join. revert a. induction l as [|x l IH]; intros a.
  - simpl. now rewrite append_empty_r.
  - change (String.concat " " (a :: x :: l))
      with (a ++ " " ++ String.concat " " (x :: l)).
    now rewrite IH.
Qed.

Lemma spaced_app (l1 l2 : list string) :
  Spec.spaced (l1 ++ l2) = Spec.spaced l1 ++ Spec.spaced l2.
Proof.
  induction l1 as [|x l1 IH]; simpl; [reflexivity|].
  now rewrite IH, append_assoc.
Qed.

Lemma spaced_join_clauses (joins : list join) :
  Spec.spaced (map join_clause joins) = Spec.join_clauses_text joins.
Proof.
  induction joins as [|j joins IH]; [reflexivity|].
  cbn [map Spec.spaced Spec.join_clauses_text]. rewrite IH.
  unfold join_clause.
  repeat (rewrite !append_assoc; simpl). reflexivity.
Qed.

(** The shape of the assembled statement: SELECT clause, FROM clause on
    the first table, the JOIN clauses in plan order, the WHERE clause. *)
Lemma assemble_shape (t0 : string) (ts : list string) (joins : list join)
      (columns : list string) (where_clause : string) :
  assemble_sql sc (t0 :: ts) joins columns where_clause
  = (sel <~ select_clause sc (t0 :: ts) columns ;;
     Ok (sel ++ " FROM " ++ t0 ++ Spec.join_clauses_text joins
             ++ Spec.where_text where_clause)).
Proof.
  unfold assemble_sql, sql_parts.
  destruct (select_clause sc (t0 :: ts) columns) as [sel|e]; [|reflexivity].
  cbn [obind]. f_equal. unfold combine_clauses.
  destruct where_clause as [|c wc]; cbn [Py.truthy Spec.where_text].
  - cbn [List.app]. rewrite join_spaced. cbn [Spec.spaced].
    rewrite spaced_join_clauses, append_empty_r.
    now rewrite !append_assoc.
  - cbn [List.app]. rewrite join_spaced. cbn [Spec.spaced].
    rewrite spaced_app, spaced_join_clauses. cbn [Spec.spaced].
    rewrite append_empty_r.
    repeat (rewrite !append_assoc; simpl). reflexivity.
Qed.

(** What [step4_build_sql] hands to its validation layers is the
    assembled statement. *)
Lemma step4_validates_the_assembly (E : env) (tables : list string)
      (joins : list join) (columns : list string) (user_query : string)
      (w w1 : world) (where_response sql : string) :
  _extract_where_conditions E user_query tables w = (Ok where_response, w1) ->
  assemble_sql sc tables joins columns (extract_sql_condition where_response)
  = Ok sql ->
  step4_build_sql E sc tables joins columns user_query w
  = validation_layers E sc sql tables columns w1.
Proof.
  unfold step4_build_sql, assemble_sql, bind, lift. intros Hw Ha.
  destruct (sql_parts sc tables joins columns) as [parts|e]; [|discriminate].
  rewrite Hw. cbn [obind] in Ha. now injection Ha as ->.
Qed.

(** C3. For a non-empty table list, no join, no column and an empty WHERE
    fragment, the assembled statement is exactly [SELECT * FROM] followed
    by the first table; within [step4_build_sql] this is the statement
    handed to the validation layers whenever the extracted WHERE fragment
    is empty. *)
Theorem C3_select_star_from_first_table (t : string) (ts : list string) :
  assemble_sql sc (t :: ts) [] [] "" = Ok ("SELECT * FROM " ++ t)
  /\ (forall E user_query w w1 where_response,
        _extract_where_conditions E user_query (t :: ts) w = (Ok where_response, w1) ->
        extract_sql_condition where_response = "" ->
        step4_build_sql E sc (t :: ts) [] [] user_query w
        = validation_layers E sc ("SELECT * FROM " ++ t) (t :: ts) [] w1).
Proof.
  assert (H : assemble_sql sc (t :: ts) [] [] "" = Ok ("SELECT * FROM " ++ t)).
  { rewrite assemble_shape. cbn. now rewrite append_empty_r. }
  split; [exact H|].
  intros E user_query w w1 where_response Hw He.
  apply step4_validates_the_assembly with where_response; [exact Hw|].
  now rewrite He.
Qed.

(** *** Column qualification *)

Lemma mem_In (x : string) (l : list string) : Py.mem x l = true <-> In x l.
Proof.
  unfold Py.mem. rewrite existsb_exists. split.
  - intros (y & Hin & Heq). apply String.eqb_eq in Heq. now subst.
  - intros Hin. exists x. split; [exact Hin | apply String.eqb_refl].
Qed.

Lemma has_table_lookup (t : string) :
  has_table sc t = true -> exists info, lookup sc t = Ok info.
Proof.
  unfold has_table, keys. induction sc as [|[name info] rest IH]; simpl.
  - discriminate.
  - destruct (String.eqb t name); [now eexists|exact IH].
Qed.

Lemma not_has_column (t col : string) (info : table_info) :
  lookup sc t = Ok info -> Py.mem col (columns info) = false ->
  ~ Spec.has_column sc t col.
Proof.
  intros Hl Hm (info' & Hl' & Hin). rewrite Hl in Hl'. injection Hl' as <-.
  apply mem_In in Hin. congruence.
Qed.

(** The inner loop finds the first owner. *)
Lemma prefix_column_qualified (tables : list string) (col : string) :
  Forall (fun t => has_table sc t = true) tables ->
  exists q, prefix_column sc tables col = Ok q /\ Spec.qualified sc tables col q.
Proof.
  induction 1 as [|t rest Ht _ IH].
  - exists col. split; [reflexivity|]. right. split; [|reflexivity].
    intros t [].
  - destruct (has_table_lookup _ Ht) as [info Hl].
    cbn [prefix_column]. rewrite Hl. cbn [obind].
    destruct (Py.mem col (columns info)) eqn:Hm.
    + exists (t ++ "." ++ col). split; [reflexivity|]. left.
      exists t. split; [|reflexivity].
      exists [], rest. split; [reflexivity|]. split.
      * exists info. split; [exact Hl | now apply mem_In].
      * intros t' [].
    + destruct IH as (q & Hq & Hspec). exists q. split; [exact Hq|].
      pose proof (not_has_column _ _ _ Hl Hm) as Hno.
      destruct Hspec as [(t1 & (before & after & -> & Hown & Hbefore) & ->) | [Hnone ->]].
      * left. exists t1. split; [|reflexivity].
        exists (t :: before), after. split; [reflexivity|]. split; [exact Hown|].
        intros t' [<-|Hin]; [exact Hno | now apply Hbefore].
      * right. split; [|reflexivity].
        intros t' [<-|Hin]; [exact Hno | now apply Hnone].
Qed.

(** The outer loop keeps the order of the column list. *)
Lemma prefixed_columns_qualified (tables columns acc : list string) :
  Forall (fun t => has_table sc t = true) tables ->
  exists qs,
    for_each columns
      (fun acc col => p <~ prefix_column sc tables col ;; Ok (acc ++ [p])%list) acc
    = Ok (acc ++ qs)%list
    /\ Forall2 (Spec.qualified sc tables) columns qs.
Proof.
  intros Ht. revert acc. induction columns as [|col columns IH]; intros acc.
  - exists []. split; [|constructor]. cbn. now rewrite app_nil_r.
  - destruct (prefix_column_qualified tables col Ht) as (q & Hq & Hspec).
    destruct (IH (acc ++ [q])%list) as (qs & Hqs & Hall).
    exists (q :: qs). split; [|now constructor].
    cbn [for_each]. rewrite Hq. cbn [obind]. rewrite Hqs.
    now rewrite <- app_assoc.
Qed.



End Assembler.

Lemma C3_witness :
  QueryPipeline.step4_build_sql
    {| llm := fun _ => Ok "  "; connect := fun _ => Ok tt;
       execute := fun _ _ => DbResult [] [] |}
    Sample.shop ["orders"; "customers"] [] [] "all the orders" Sample.start
  = QueryPipeline.validation_layers
      {| llm := fun _ => Ok "  "; connect := fun _ => Ok tt;
         execute := fun _ _ => DbResult [] [] |}
      Sample.shop "SELECT * FROM orders" ["orders"; "customers"] []
      {| llm_calls := 1; db_log := [] |}.
Proof.
  apply (proj2 (C3_select_star_from_first_table Sample.shop "orders" ["customers"])
           _ "all the orders" Sample.start {| llm_calls := 1; db_log := [] |} "");
    vm_compute; reflexivity.
Defined.


(** On the sample schema: [id] is a column of both tables and goes to the
    first of the list, and an aggregate is passed through. *)
Example assemble_sample :
  QueryPipeline.assemble_sql Sample.shop ["orders"; "customers"]
    [Sample.orders_to_customers] ["total"; "id"; "first_name"; "COUNT(*)"] "total > 10"
  = Ok "SELECT orders.total, orders.id, customers.first_name, COUNT(*) FROM orders JOIN customers ON orders.customer_id = customers.id WHERE total > 10".
Proof. reflexivity. Qed.

(* ================================================================== *)
(** ** The extractor of WHERE fragments *)
(* ================================================================== *)

Section Extractor.

Import QueryPipeline.

Lemma prefix_empty (s : string) : prefix "" s = true.
Proof. now destruct s. Qed.

Lemma prefix_char (x c : ascii) (s : string) :
  prefix (String x "") (String c s) = Ascii.eqb c x.
Proof.
  cbn [prefix]. rewrite prefix_empty.
  destruct (ascii_dec x c) as [->|Hn].
  - now rewrite Ascii.eqb_refl.
  - symmetry. apply Ascii.eqb_neq. congruence.
Qed.

(** Replacing a character by nothing deletes it. *)
Lemma replace_char_by_nothing (x : ascii) (s : string) :
  Py.replace (String x "") "" s = Spec.without x s.
Proof.
  unfold Py.replace. induction s as [|c s IH]; [reflexivity|].
  cbn [Py.replace_go Spec.without]. rewrite prefix_char.
  destruct (Ascii.eqb c x); cbn [String.length Nat.sub append]; now rewrite IH.
Qed.

(** Replacing a character by itself changes nothing. *)
Lemma replace_char_by_itself (x : ascii) (s : string) :
  Py.replace (String x "") (String x "") s = s.
Proof.
  unfold Py.replace. induction s as [|c s IH]; [reflexivity|].
  cbn [Py.replace_go]. rewrite prefix_char.
  destruct (Ascii.eqb c x) eqn:E; cbn [String.length Nat.sub append]; rewrite IH.
  - apply Ascii.eqb_eq in E. now subst.
  - reflexivity.
Qed.

Lemma unquote_without (s : string) : unquote s = Spec.without Spec.dquote s.
Proof.
  unfold unquote. rewrite replace_char_by_itself.
  apply replace_char_by_nothing.
Qed.

Lemma without_absent (x : ascii) (s : string) :
  Py.count_char x s = 0 -> Spec.without x s = s.
Proof.
  induction s as [|c s IH]; [reflexivity|]. simpl.
  destruct (Ascii.eqb c x); [discriminate|]. intros H. now rewrite IH.
Qed.

Lemma count_lstrip (x : ascii) (s : string) :
  Py.count_char x (Py.lstrip s) <= Py.count_char x s.
Proof.
  induction s as [|c s IH]; [reflexivity|]. cbn [Py.lstrip].
  destruct (Py.is_space c); [|reflexivity].
  cbn [Py.count_char]. lia.
Qed.

Lemma count_rstrip (x : ascii) (s : string) :
  Py.count_char x (Py.rstrip s) <= Py.count_char x s.
Proof.
  induction s as [|c s IH]; [reflexivity|]. cbn [Py.rstrip].
  destruct (Py.rstrip s) as [|d r].
  - destruct (Py.is_space c); cbn [Py.count_char] in *; lia.
  - cbn [Py.count_char] in *. lia.
Qed.

Lemma count_strip (x : ascii) (s : string) :
  Py.count_char x s = 0 -> Py.count_char x (Py.strip s) = 0.
Proof.
  intros H. unfold Py.strip.
  pose proof (count_rstrip x (Py.lstrip s)). pose proof (count_lstrip x s). lia.
Qed.

Lemma line_scan_finds_nothing (s : string) :
  Spec.no_operator_line s ->
  find (fun line => existsb (fun op => Py.contains op line) line_operators)
       (map Py.strip (Py.splitlines s)) = None.
Proof.
  intros H.
  destruct (find _ _) as [line|] eqn:E; [|reflexivity].
  apply find_some in E as [Hin Hop].
  apply in_map_iff in Hin as (raw & <- & Hraw).
  apply existsb_exists in Hop as (op & Hop & Hc).
  now rewrite (H raw op Hraw Hop) in Hc.
Qed.

(** C7, as the code has it. When the pattern finds no condition and no
    line holds a comparison operator, an input of fewer than 10 tokens is
    returned stripped of the surrounding white space and with its double
    quotes deleted (hence unchanged apart from the stripping when it has no
    double quote), and an input of 10 tokens or more gives the empty
    string. *)
Theorem C7_fallback_strips_and_deletes_double_quotes (s : string) :
  Re.search condition_pattern s = None ->
  Spec.no_operator_line s ->
  (Spec.tokens s < 10 ->
     extract_sql_condition s = Spec.without Spec.dquote (Py.strip s))
  /\ (Spec.tokens s < 10 -> Py.count_char Spec.dquote s = 0 ->
      extract_sql_condition s = Py.strip s)
  /\ (10 <= Spec.tokens s -> extract_sql_condition s = "").
Proof.
  intros Hre Hlines. unfold extract_sql_condition, Spec.tokens.
  rewrite Hre, (line_scan_finds_nothing _ Hlines).
  repeat split; intros Hn.
  - apply Nat.ltb_lt in Hn. rewrite Hn. apply unquote_without.
  - intros Hq. apply Nat.ltb_lt in Hn. rewrite Hn, unquote_without.
    apply without_absent. now apply count_strip.
  - apply Nat.ltb_ge in Hn. now rewrite Hn.
Qed.

Lemma C7_witness :
  extract_sql_condition "  all rows of the table  " = "all rows of the table".
Proof.
  apply (C7_fallback_strips_and_deletes_double_quotes "  all rows of the table  ").
  - vm_compute. reflexivity.
  - intros line op Hin Hop. vm_compute in Hin. destruct Hin as [<-|[]].
    vm_compute in Hop.
    repeat (destruct Hop as [<-|Hop]; [vm_compute; reflexivity|]). contradiction.
  - vm_compute. lia.
  - vm_compute. reflexivity.
Defined.

(** C7 as stated fails: this short input has no condition and no
    operator, it has no surrounding white space, and yet it is not returned
    unchanged: its double quotes are gone. *)
Lemma C7_counterexample :
  let s := "say " ++ Py.DQUOTE ++ "hi" ++ Py.DQUOTE in
  Re.search condition_pattern s = None
  /\ find (fun line => existsb (fun op => Py.contains op line) line_operators)
          (map Py.strip (Py.splitlines s)) = None
  /\ Spec.tokens s = 2
  /\ Py.strip s = s
  /\ extract_sql_condition s = "say hi".
Proof. vm_compute. repeat split. Qed.

(** The matcher against CPython's [re] on sample responses. *)
Example condition_quoted :
  extract_sql_condition "city = 'New York'" = "city = 'New York'".
Proof. vm_compute. reflexivity. Qed.

Example condition_in_prose :
  extract_sql_condition "The condition is: first_name LIKE 'S%' ok"
  = "first_name LIKE 'S%'".
Proof. vm_compute. reflexivity. Qed.

Example condition_backtracks_to_longer_operator :
  extract_sql_condition "a <= 5" = "a <= 5".
Proof. vm_compute. reflexivity. Qed.

Example condition_gives_up_a_space :
  extract_sql_condition "a =  ''" = "a =  '".
Proof. vm_compute. reflexivity. Qed.

Example condition_by_line_scan :
  extract_sql_condition "  MONTH(order_date) = 1" = "MONTH(order_date) = 1".
Proof. vm_compute. reflexivity. Qed.

Example condition_long_prose :
  extract_sql_condition "there is no filter at all in this question I think" = "".
Proof. vm_compute. reflexivity. Qed.

End Extractor.

(* ================================================================== *)
(** ** Exceptions in the pipelines *)
(* ================================================================== *)

Section MonadFacts.

Context {A B : Type}.

Lemma bind_ok (c : M A) (k : A -> M B) (w w' : world) (b : B) :
  bind c k w = (Ok b, w') ->
  exists a w1, c w = (Ok a, w1) /\ k a w1 = (Ok b, w').
Proof.
  unfold bind. destruct (c w) as [[a|e] w1]; [|discriminate].
  intros H. now exists a, w1.
Qed.

Lemma bind_step (c : M A) (k : A -> M B) (w w1 : world) (a : A) :
  c w = (Ok a, w1) -> bind c k w = k a w1.
Proof. unfold bind. now intros ->. Qed.

Lemma bind_raise (c : M A) (k : A -> M B) (w w1 : world) (e : exn) :
  c w = (Raise e, w1) -> bind c k w = (Raise e, w1).
Proof. unfold bind. now intros ->. Qed.

(** A [try] whose handler returns a value always returns a value: the one
    of the body, or the handler's. *)
Lemma try_except_returns (body : M A) (h : exn -> A) (w : world) :
  exists a w',
    try_except body (fun e => ret (h e)) w = (Ok a, w')
    /\ (body w = (Ok a, w') \/ exists e, body w = (Raise e, w') /\ a = h e).
Proof.
  unfold try_except, ret. destruct (body w) as [[a|e] w'].
  - exists a, w'. auto.
  - exists (h e), w'. split; [reflexivity|]. right. now exists e.
Qed.

Lemma try_except_invariant (P : A -> Prop) (body : M A) (h : exn -> A) (w : world) :
  (forall a w', body w = (Ok a, w') -> P a) ->
  (forall e, P (h e)) ->
  exists a w', try_except body (fun e => ret (h e)) w = (Ok a, w') /\ P a.
Proof.
  intros Hbody Hh.
  destruct (try_except_returns body h w) as (a & w' & Heq & [Hok|(e & _ & ->)]).
  - exists a, w'. split; [exact Heq | now apply Hbody with w'].
  - exists (h e), w'. split; [exact Heq | apply Hh].
Qed.

End MonadFacts.

Section ExecutionErrors.

(** *** The executors send each statement once *)

Lemma advanced_execute_sends_once (E : env) (sql : string) (w : world) :
  exists sent,
    db_log (snd (AdvancedPipeline._execute_query E sql w)) = (db_log w ++ sent)%list
    /\ (sent = [] \/ sent = [sql]).
Proof.
  unfold AdvancedPipeline._execute_query, try_except, bind, open_connection,
    run_statement, raise, lift.
  destruct (connect E (db_log w)); cbn.
  - destruct (execute E (db_log w) sql); cbn.
    + exists [sql]. split; [reflexivity | now right].
    + destruct (for_each _ _ _); cbn; exists [sql];
        (split; [reflexivity | now right]).
  - exists []. rewrite app_nil_r. split; [reflexivity | now left].
Qed.

Lemma step5_never_raises (E : env) (sql : string) (w : world) :
  exists rows w' sent,
    QueryPipeline.step5_execute_query E sql w = (Ok rows, w')
    /\ db_log w' = (db_log w ++ sent)%list
    /\ (sent = [] \/ sent = [QueryPipeline.SET_TIMEOUT]
        \/ sent = [QueryPipeline.SET_TIMEOUT; sql]).
Proof.
  unfold QueryPipeline.step5_execute_query, try_except, bind, open_connection,
    run_statement, ret.
  destruct (connect E (db_log w)); cbn.
  - destruct (execute E (db_log w) QueryPipeline.SET_TIMEOUT); cbn.
    + eexists _, _, [QueryPipeline.SET_TIMEOUT].
      split; [reflexivity|]. split; [reflexivity | now right; left].
    + destruct (execute E _ sql); cbn;
        eexists _, _, [QueryPipeline.SET_TIMEOUT; sql];
        (split; [reflexivity|]); cbn [db_log]; rewrite <- app_assoc;
        (split; [reflexivity | now right; right]).
  - eexists _, _, []. split; [reflexivity|]. rewrite app_nil_r.
    split; [reflexivity | now left].
Qed.

Lemma step5_swallows_the_error (E : env) (sql msg : string) (w : world)
      (keys : list string) (rows : list (list value)) :
  connect E (db_log w) = Ok tt ->
  execute E (db_log w) QueryPipeline.SET_TIMEOUT = DbResult keys rows ->
  execute E (db_log w ++ [QueryPipeline.SET_TIMEOUT]) sql = DbRaises msg ->
  QueryPipeline.step5_execute_query E sql w
  = (Ok [], {| llm_calls := llm_calls w;
               db_log := db_log w ++ [QueryPipeline.SET_TIMEOUT; sql] |}).
Proof.
  intros Hc Hs Hx.
  unfold QueryPipeline.step5_execute_query, try_except, bind, open_connection,
    run_statement, ret.
  rewrite Hc, Hs. cbn. rewrite Hx. cbn. now rewrite <- app_assoc.
Qed.

Lemma advanced_execute_raises (E : env) (sql msg : string) (w : world) :
  connect E (db_log w) = Ok tt ->
  execute E (db_log w) sql = DbRaises msg ->
  AdvancedPipeline._execute_query E sql w
  = (Raise (ExternalError msg),
     {| llm_calls := llm_calls w; db_log := db_log w ++ [sql] |}).
Proof.
  intros Hc Hx.
  unfold AdvancedPipeline._execute_query, try_except, bind, open_connection,
    run_statement, raise.
  now rewrite Hc, Hx.
Qed.

(** C8, as the code has it. No executor retries: each sends the statement
    to the database at most once. In the advanced pipeline an execution
    error is raised again by [_execute_query] and [process_query] turns it
    into the failure record (success false, no rows, count 0, the error
    message). In [SQLQueryPipeline] the error is caught inside
    [step5_execute_query], which returns the empty list, and
    [process_query] returns its usual record: no rows, no error message,
    [validation_passed] true. *)
Theorem C8_execution_error_without_retry :
  (forall E sql w,
      exists sent,
        db_log (snd (AdvancedPipeline._execute_query E sql w)) = (db_log w ++ sent)%list
        /\ (sent = [] \/ sent = [sql]))
  /\ (forall E sql w,
         exists rows w' sent,
           QueryPipeline.step5_execute_query E sql w = (Ok rows, w')
           /\ db_log w' = (db_log w ++ sent)%list
           /\ (sent = [] \/ sent = [QueryPipeline.SET_TIMEOUT]
               \/ sent = [QueryPipeline.SET_TIMEOUT; sql]))
  /\ (forall E set_order user_question w sql w1 msg,
         AdvancedPipeline._generate_advanced_sql E user_question w = (Ok sql, w1) ->
         AdvancedPipeline._is_safe_sql sql = true ->
         connect E (db_log w1) = Ok tt ->
         execute E (db_log w1) sql = DbRaises msg ->
         AdvancedPipeline.process_query E set_order user_question w
         = (Ok (AdvancedPipeline._error_response msg),
            {| llm_calls := llm_calls w1; db_log := db_log w1 ++ [sql] |}))
  /\ (forall E sc user_query w tables joins columns sql w1 w3 w4 keys rows msg,
         QueryPipeline.step1_identify_tables E sc user_query w = (Ok tables, w1) ->
         QueryPipeline.step2_analyze_joins sc tables = Ok joins ->
         QueryPipeline.step3_select_columns E sc user_query tables w1 = (Ok columns, w3) ->
         QueryPipeline.step4_build_sql E sc tables joins columns user_query w3
         = (Ok sql, w4) ->
         connect E (db_log w4) = Ok tt ->
         execute E (db_log w4) QueryPipeline.SET_TIMEOUT = DbResult keys rows ->
         execute E (db_log w4 ++ [QueryPipeline.SET_TIMEOUT]) sql = DbRaises msg ->
         QueryPipeline.process_query E sc user_query w
         = (Ok {| QueryPipeline.r_tables := tables;
                  QueryPipeline.r_joins := joins;
                  QueryPipeline.r_columns := columns;
                  QueryPipeline.r_sql_query := sql;
                  QueryPipeline.r_results := [];
                  QueryPipeline.r_error := None;
                  QueryPipeline.r_validation_passed := true |},
            {| llm_calls := llm_calls w4;
               db_log := db_log w4 ++ [QueryPipeline.SET_TIMEOUT; sql] |})).
Proof.
  split; [exact advanced_execute_sends_once|].
  split; [exact step5_never_raises|].
  split.
  - intros E set_order q w sql w1 msg Hg Hsafe Hc Hx.
    unfold AdvancedPipeline.process_query, try_except,
      AdvancedPipeline.process_query_body.
    rewrite (bind_step _ _ _ _ _ Hg), Hsafe. cbn [negb].
    rewrite (bind_raise _ _ _ _ _ (advanced_execute_raises _ _ _ _ Hc Hx)).
    reflexivity.
  - intros E sc q w tables joins columns sql w1 w3 w4 keys rows msg
           H1 H2 H3 H4 Hc Hs Hx.
    unfold QueryPipeline.process_query, try_except,
      QueryPipeline.process_query_body.
    rewrite (bind_step _ _ _ _ _ H1).
    unfold lift at 1. rewrite H2.
    rewrite (bind_step (fun w => (Ok joins, w)) _ w1 w1 joins eq_refl).
    rewrite (bind_step _ _ _ _ _ H3), (bind_step _ _ _ _ _ H4).
    rewrite (bind_step _ _ _ _ _ (step5_swallows_the_error _ _ _ _ _ _ Hc Hs Hx)).
    reflexivity.
Qed.

End ExecutionErrors.

Lemma C8_witness :
  AdvancedPipeline.process_query Sample.failing_advanced (fun l => l) "all orders"
    Sample.start
  = (Ok (AdvancedPipeline._error_response "Table 'shop.orders' doesn't exist"),
     {| llm_calls := 1; db_log := ["SELECT * FROM orders"] |})
  /\ QueryPipeline.process_query Sample.failing_statements Sample.shop
       "orders of customers in NYC" Sample.start
     = (Ok {| QueryPipeline.r_tables := ["orders"; "customers"];
              QueryPipeline.r_joins := [Sample.orders_to_customers];
              QueryPipeline.r_columns := ["total"; "first_name"];
              QueryPipeline.r_sql_query := Sample.shop_sql;
              QueryPipeline.r_results := [];
              QueryPipeline.r_error := None;
              QueryPipeline.r_validation_passed := true |},
        {| llm_calls := 3;
           db_log := ["EXPLAIN " ++ Sample.shop_sql; QueryPipeline.SET_TIMEOUT;
                      Sample.shop_sql] |}).
Proof.
  split.
  - apply (proj1 (proj2 (proj2 C8_execution_error_without_retry))
             Sample.failing_advanced (fun l => l) "all orders" Sample.start
             "SELECT * FROM orders" {| llm_calls := 1; db_log := [] |}
             "Table 'shop.orders' doesn't exist");
      vm_compute; reflexivity.
  - apply (proj2 (proj2 (proj2 C8_execution_error_without_retry))
             Sample.failing_statements Sample.shop "orders of customers in NYC"
             Sample.start ["orders"; "customers"] [Sample.orders_to_customers]
             ["total"; "first_name"] Sample.shop_sql
             {| llm_calls := 1; db_log := [] |}
             {| llm_calls := 2; db_log := [] |}
             {| llm_calls := 3; db_log := ["EXPLAIN " ++ Sample.shop_sql] |}
             [] [] "Lost connection to MySQL server during query");
      vm_compute; reflexivity.
Defined.

(** C8 as stated fails on [SQLQueryPipeline]: the database raises on the
    statement, and the record that [process_query] returns has the shape of
    a success, with [validation_passed] true and no error message. *)
Lemma C8_counterexample :
  execute Sample.failing_statements
          ["EXPLAIN " ++ Sample.shop_sql; QueryPipeline.SET_TIMEOUT] Sample.shop_sql
  = DbRaises "Lost connection to MySQL server during query"
  /\ fst (QueryPipeline.process_query Sample.failing_statements Sample.shop
            "orders of customers in NYC" Sample.start)
     = Ok {| QueryPipeline.r_tables := ["orders"; "customers"];
             QueryPipeline.r_joins := [Sample.orders_to_customers];
             QueryPipeline.r_columns := ["total"; "first_name"];
             QueryPipeline.r_sql_query := Sample.shop_sql;
             QueryPipeline.r_results := [];
             QueryPipeline.r_error := None;
             QueryPipeline.r_validation_passed := true |}.
Proof. split; vm_compute; reflexivity. Qed.

Section NoExceptionEscapes.

Lemma no_table_no_query (E : env) (sc : QueryPipeline.schema)
      (user_query : string) (w w1 : world) :
  QueryPipeline.step1_identify_tables E sc user_query w = (Ok [], w1) ->
  QueryPipeline.process_query_body E sc user_query w
  = (Raise (ValueError "No tables identified for the query"), w1).
Proof.
  intros H1. unfold QueryPipeline.process_query_body.
  rewrite (bind_step _ _ _ _ _ H1). reflexivity.
Qed.

Lemma step4_failure_reaches_the_handler (E : env) (sc : QueryPipeline.schema)
      (user_query : string) (w w1 w3 w4 : world) (tables columns : list string)
      (joins : list QueryPipeline.join) (e : exn) :
  QueryPipeline.step1_identify_tables E sc user_query w = (Ok tables, w1) ->
  QueryPipeline.step2_analyze_joins sc tables = Ok joins ->
  QueryPipeline.step3_select_columns E sc user_query tables w1 = (Ok columns, w3) ->
  QueryPipeline.step4_build_sql E sc tables joins columns user_query w3
  = (Raise e, w4) ->
  QueryPipeline.process_query_body E sc user_query w = (Raise e, w4).
Proof.
  intros H1 H2 H3 H4. unfold QueryPipeline.process_query_body.
  rewrite (bind_step _ _ _ _ _ H1).
  unfold lift at 1. rewrite H2.
  rewrite (bind_step (fun w => (Ok joins, w)) _ w1 w1 joins eq_refl).
  rewrite (bind_step _ _ _ _ _ H3).
  now rewrite (bind_raise _ _ _ _ _ H4).
Qed.

(** C9, as the code has it. [process_query] always returns a record and
    never an exception. Every exception raised in its [try] block gives the
    failure record: the message of the exception, empty tables, joins,
    columns, statement and rows, and [validation_passed] false (in the
    advanced pipeline: the record of [_error_response]). This covers a
    table identification that finds no table (the assembly then raises), a
    failure of the model, and the failure of the syntax, EXPLAIN or semantic
    validation inside [step4_build_sql]. Errors of the execution itself are
    not among them in [SQLQueryPipeline]: [step5_execute_query] catches
    them. *)
Theorem C9_exceptions_become_failure_records :
  (forall E sc user_query w,
      exists r w',
        QueryPipeline.process_query E sc user_query w = (Ok r, w')
        /\ (QueryPipeline.process_query_body E sc user_query w = (Ok r, w')
            \/ exists e,
               QueryPipeline.process_query_body E sc user_query w = (Raise e, w')
               /\ r = {| QueryPipeline.r_tables := [];
                         QueryPipeline.r_joins := [];
                         QueryPipeline.r_columns := [];
                         QueryPipeline.r_sql_query := "";
                         QueryPipeline.r_results := [];
                         QueryPipeline.r_error := Some (str e);
                         QueryPipeline.r_validation_passed := false |}))
  /\ (forall E sc user_query w w1,
         QueryPipeline.step1_identify_tables E sc user_query w = (Ok [], w1) ->
         QueryPipeline.process_query E sc user_query w
         = (Ok (QueryPipeline.failure_record
                  (ValueError "No tables identified for the query")), w1))
  /\ (forall E sc user_query w w1 w3 w4 tables joins columns e,
         QueryPipeline.step1_identify_tables E sc user_query w = (Ok tables, w1) ->
         QueryPipeline.step2_analyze_joins sc tables = Ok joins ->
         QueryPipeline.step3_select_columns E sc user_query tables w1
         = (Ok columns, w3) ->
         QueryPipeline.step4_build_sql E sc tables joins columns user_query w3
         = (Raise e, w4) ->
         QueryPipeline.process_query E sc user_query w
         = (Ok (QueryPipeline.failure_record e), w4))
  /\ (forall E set_order user_question w,
         exists r w',
           AdvancedPipeline.process_query E set_order user_question w = (Ok r, w')
           /\ (AdvancedPipeline.process_query_body E set_order user_question w
               = (Ok r, w')
               \/ exists e,
                  AdvancedPipeline.process_query_body E set_order user_question w
                  = (Raise e, w')
                  /\ r = {| AdvancedPipeline.success := false;
                            AdvancedPipeline.user_question := "";
                            AdvancedPipeline.target_table := "";
                            AdvancedPipeline.sql_query := "";
                            AdvancedPipeline.results := [];
                            AdvancedPipeline.result_count := 0;
                            AdvancedPipeline.error := Some (str e) |})).
Proof.
  split.
  { intros E sc q w. apply (try_except_returns _ QueryPipeline.failure_record). }
  split.
  { intros E sc q w w1 H1. unfold QueryPipeline.process_query, try_except.
    now rewrite (no_table_no_query _ _ _ _ _ H1). }
  split.
  { intros E sc q w w1 w3 w4 tables joins columns e H1 H2 H3 H4.
    unfold QueryPipeline.process_query, try_except.
    now rewrite (step4_failure_reaches_the_handler _ _ _ _ _ _ _ _ _ _ _ H1 H2 H3 H4). }
  intros E set_order q w.
  apply (try_except_returns _ (fun e => AdvancedPipeline._error_response (str e))).
Qed.

End NoExceptionEscapes.

Lemma C9_witness :
  QueryPipeline.process_query Sample.failing_statements Sample.shop
    "what is the weather" {| llm_calls := 5; db_log := [] |}
  = (Ok (QueryPipeline.failure_record
           (ValueError "No tables identified for the query")),
     {| llm_calls := 6; db_log := [] |}).
Proof.
  apply (proj1 (proj2 C9_exceptions_become_failure_records)
           Sample.failing_statements Sample.shop "what is the weather"
           {| llm_calls := 5; db_log := [] |} {| llm_calls := 6; db_log := [] |}).
  vm_compute. reflexivity.
Defined.

(** C9 as stated fails for the errors of the execution stage of
    [SQLQueryPipeline]: the connection is refused when the statement is to
    be executed, and the record returned carries no error message, a
    statement, and [validation_passed] true. *)
Lemma C9_counterexample :
  connect Sample.connection_lost ["EXPLAIN " ++ Sample.shop_sql]
  = Raise (ExternalError "Can't connect to MySQL server")
  /\ QueryPipeline.process_query Sample.connection_lost Sample.shop
       "orders of customers in NYC" Sample.start
     = (Ok {| QueryPipeline.r_tables := ["orders"; "customers"];
              QueryPipeline.r_joins := [Sample.orders_to_customers];
              QueryPipeline.r_columns := ["total"; "first_name"];
              QueryPipeline.r_sql_query := Sample.shop_sql;
              QueryPipeline.r_results := [];
              QueryPipeline.r_error := None;
              QueryPipeline.r_validation_passed := true |},
        {| llm_calls := 3; db_log := ["EXPLAIN " ++ Sample.shop_sql] |}).
Proof. split; vm_compute; reflexivity. Qed.

Section ResponseInvariant.

(** The invariant of the response records of the simple and of the
    advanced pipeline. *)
Lemma simple_body_invariant (E : env) (sc : SimplePipeline.schema)
      (user_question : string) (w w' : world) (r : SimplePipeline.response) :
  SimplePipeline.process_query_body E sc user_question w = (Ok r, w') ->
  SimplePipeline.result_count r = List.length (SimplePipeline.results r)
  /\ (SimplePipeline.success r = false -> SimplePipeline.results r = []).
Proof.
  unfold SimplePipeline.process_query_body. intros H.
  apply bind_ok in H as (found & w1 & _ & H).
  destruct found as [[|c t]|];
    try (injection H as <- _; split; reflexivity).
  apply bind_ok in H as (sql & w2 & _ & H).
  destruct (SimplePipeline._is_safe_sql sql); cbn [negb] in H;
    [|injection H as <- _; split; reflexivity].
  apply bind_ok in H as (rows & w3 & _ & H).
  injection H as <- _. split; [reflexivity | discriminate].
Qed.

Lemma advanced_body_invariant (E : env) (set_order : list string -> list string)
      (user_question : string) (w w' : world) (r : AdvancedPipeline.response) :
  AdvancedPipeline.process_query_body E set_order user_question w = (Ok r, w') ->
  AdvancedPipeline.result_count r = List.length (AdvancedPipeline.results r)
  /\ (AdvancedPipeline.success r = false -> AdvancedPipeline.results r = []).
Proof.
  unfold AdvancedPipeline.process_query_body. intros H.
  apply bind_ok in H as (sql & w1 & _ & H).
  destruct (AdvancedPipeline._is_safe_sql sql); cbn [negb] in H;
    [|injection H as <- _; split; reflexivity].
  apply bind_ok in H as (rows & w2 & _ & H).
  injection H as <- _. split; [reflexivity | discriminate].
Qed.

(** C10. Every record returned by [process_query] of the simple and of the
    advanced pipeline, and one is always returned, has [result_count] equal
    to the length of [results], and has no result when [success] is false. *)
Theorem C10_result_count_is_the_number_of_results :
  (forall E sc user_question w,
      exists r w',
        SimplePipeline.process_query E sc user_question w = (Ok r, w')
        /\ SimplePipeline.result_count r = List.length (SimplePipeline.results r)
        /\ (SimplePipeline.success r = false -> SimplePipeline.results r = []))
  /\ (forall E set_order user_question w,
         exists r w',
           AdvancedPipeline.process_query E set_order user_question w = (Ok r, w')
           /\ AdvancedPipeline.result_count r
              = List.length (AdvancedPipeline.results r)
           /\ (AdvancedPipeline.success r = false ->
               AdvancedPipeline.results r = [])).
Proof.
  split.
  - intros E sc q w.
    apply (try_except_invariant
             (fun r => SimplePipeline.result_count r
                       = List.length (SimplePipeline.results r)
                       /\ (SimplePipeline.success r = false ->
                           SimplePipeline.results r = []))
             _ (fun e => SimplePipeline._error_response (str e))).
    + intros r w'. apply simple_body_invariant.
    + intros e. split; reflexivity.
  - intros E set_order q w.
    apply (try_except_invariant
             (fun r => AdvancedPipeline.result_count r
                       = List.length (AdvancedPipeline.results r)
                       /\ (AdvancedPipeline.success r = false ->
                           AdvancedPipeline.results r = []))
             _ (fun e => AdvancedPipeline._error_response (str e))).
    + intros r w'. apply advanced_body_invariant.
    + intros e. split; reflexivity.
Qed.

End ResponseInvariant.

(* ================================================================== *)
(** ** The stages on the sample schema *)
(* ================================================================== *)

Section Samples.

Example joins_from_foreign_keys :
  QueryPipeline.step2_analyze_joins Sample.shop ["orders"; "customers"]
  = Ok [Sample.orders_to_customers].
Proof. vm_compute. reflexivity. Qed.

Example semantics_accepts_known_names :
  QueryPipeline._validate_sql_semantics Sample.shop Sample.shop_sql
    ["orders"; "customers"] ["total"; "first_name"] = true.
Proof. vm_compute. reflexivity. Qed.

Example semantics_rejects_unknown_column :
  QueryPipeline._validate_sql_semantics Sample.shop
    "SELECT * FROM orders WHERE orders.price > 3" ["orders"] [] = false.
Proof. vm_compute. reflexivity. Qed.

Example semantics_rejects_unknown_table :
  QueryPipeline._validate_sql_semantics Sample.shop
    "SELECT * FROM invoices" ["orders"] [] = false.
Proof. vm_compute. reflexivity. Qed.

Example two_statements_are_reported_by_keyword :
  QueryPipeline.validate_sql_syntax "SELECT * FROM orders; DROP TABLE orders"
  = (false, "Potentially dangerous SQL operation detected: DROP").
Proof. vm_compute. reflexivity. Qed.

Example fenced_block_is_unwrapped :
  AdvancedPipeline._clean_advanced_sql
    (AdvancedPipeline.fence ++ "sql" ++ Py.LF ++ "SELECT a FROM b" ++ Py.LF
     ++ AdvancedPipeline.fence)
  = "SELECT a FROM b".
Proof. vm_compute. reflexivity. Qed.

Example prose_before_the_statement_is_dropped :
  AdvancedPipeline._clean_advanced_sql
    ("Here is the query: " ++ Py.LF ++ "select  a," ++ Py.LF ++ " b from t;")
  = "select a, b from t".
Proof. vm_compute. reflexivity. Qed.

Example simple_validator_has_no_semicolon_rule :
  SimplePipeline._is_safe_sql "SELECT a FROM b;" = true.
Proof. vm_compute. reflexivity. Qed.

Example simple_validator_counts_quotes :
  SimplePipeline._is_safe_sql "SELECT 'a FROM b" = false.
Proof. vm_compute. reflexivity. Qed.

Example simple_cleaning_stops_at_prose :
  SimplePipeline._clean_sql
    ("Here:" ++ Py.LF ++ Py.LF ++ "select a" ++ Py.LF ++ "from t;" ++ Py.LF
     ++ Py.LF ++ "done")
  = "select a from t".
Proof. vm_compute. reflexivity. Qed.

End Samples.

(* ================================================================== *)
(** ** Further properties: the stages of [SQLQueryPipeline] *)
(* ================================================================== *)

Section Loops.

Context {A S : Type}.

(** An invariant of the accumulator of a loop that ends normally. *)
Lemma for_each_ok_inv (P : S -> Prop) (l : list A) (body : S -> A -> outcome S)
      (acc r : S) :
  P acc ->
  (forall acc x acc', In x l -> P acc -> body acc x = Ok acc' -> P acc') ->
  for_each l body acc = Ok r -> P r.
Proof.
  revert acc. induction l as [|x l IH]; intros acc Hacc Hstep H.
  - cbn in H. now injection H as <-.
  - cbn [for_each] in H. destruct (body acc x) as [acc'|e] eqn:Hb; [|discriminate].
    cbn [obind] in H. apply IH with acc'.
    + apply Hstep with acc x; [now left | exact Hacc | exact Hb].
    + intros a y a' Hy. apply Hstep. now right.
    + exact H.
Qed.

(** What a loop raises, one of its iterations raised. *)
Lemma for_each_raise_inv (Q : exn -> Prop) (l : list A)
      (body : S -> A -> outcome S) (acc : S) (e : exn) :
  (forall acc x e, In x l -> body acc x = Raise e -> Q e) ->
  for_each l body acc = Raise e -> Q e.
Proof.
  revert acc. induction l as [|x l IH]; intros acc Hstep H; [discriminate|].
  cbn [for_each] in H. destruct (body acc x) as [acc'|e'] eqn:Hb.
  - cbn [obind] in H. apply IH with acc'; [|exact H].
    intros a y e0 Hy. apply Hstep. now right.
  - cbn [obind] in H. injection H as <-.
    apply Hstep with acc x; [now left | exact Hb].
Qed.

(** A loop whose iterations all end normally ends normally. *)
Lemma for_each_total (l : list A) (body : S -> A -> outcome S) (acc : S) :
  (forall acc x, In x l -> exists acc', body acc x = Ok acc') ->
  exists r, for_each l body acc = Ok r.
Proof.
  revert acc. induction l as [|x l IH]; intros acc Hstep; [now eexists|].
  cbn [for_each]. destruct (Hstep acc x (or_introl eq_refl)) as [acc' ->].
  cbn [obind]. apply IH. intros a y Hy. apply Hstep. now right.
Qed.

End Loops.

Section Stages.

Import QueryPipeline.

Variable sc : schema.

Lemma key_has_table (t : string) : In t (keys sc) -> has_table sc t = true.
Proof. intros H. now apply mem_In. Qed.

Lemma has_table_key (t : string) : has_table sc t = true -> In t (keys sc).
Proof. intros H. now apply mem_In. Qed.

Lemma filter_keys_known (f : string -> bool) :
  Forall (fun t => has_table sc t = true) (filter f (keys sc)).
Proof.
  apply Forall_forall. intros t Ht. apply filter_In in Ht as [Ht _].
  now apply key_has_table.
Qed.

(** The tables of [step1_identify_tables] are tables of the snapshot. *)
Lemma step1_returns_known_tables
        (E : env) (user_query : string) (w w' : world) (tables : list string) :
  step1_identify_tables E sc user_query w = (Ok tables, w') ->
  Forall (fun t => has_table sc t = true) tables
  /\ llm_calls w' = S (llm_calls w)
  /\ db_log w' = db_log w.
Proof.
  unfold step1_identify_tables, bind, invoke, ret.
  destruct (llm E (llm_calls w)) as [response|e]; [|discriminate].
  intros H. injection H as <- <-. split; [|split; reflexivity].
  set (picked := filter (has_table sc) _).
  assert (Hp : Forall (fun t => has_table sc t = true) picked).
  { apply Forall_forall. intros t Ht. now apply filter_In in Ht as [_ Ht]. }
  destruct (is_empty picked); [|exact Hp].
  apply Forall_app. split; [exact Hp | apply filter_keys_known].
Qed.

(** X1. Whatever the model answers, [step1_identify_tables] returns tables
    of the schema snapshot only; it asks the model once and does not touch
    the database. *)
Theorem X1_identified_tables_are_schema_tables
        (E : env) (user_query : string) (w w' : world) (tables : list string) :
  step1_identify_tables E sc user_query w = (Ok tables, w') ->
  Forall (fun t => has_table sc t = true) tables
  /\ llm_calls w' = S (llm_calls w)
  /\ db_log w' = db_log w.
Proof. apply step1_returns_known_tables. Qed.

(** *** Joins *)

Lemma first_hd_error {T} (l : list T) (x : T) :
  first l = Ok x -> hd_error l = Some x.
Proof. destruct l; cbn; congruence. Qed.

Lemma joins_of_foreign_keys_backed (tables : list string) (table1 table2 : string)
      (info : table_info) (joins r : list join) :
  In table1 tables -> In table2 tables -> table1 <> table2 ->
  lookup sc table1 = Ok info ->
  Forall (Props.backed_join sc tables) joins ->
  joins_of_foreign_keys table1 table2 (foreign_keys info) joins = Ok r ->
  Forall (Props.backed_join sc tables) r.
Proof.
  intros H1 H2 Hne Hl Hj. unfold joins_of_foreign_keys.
  apply for_each_ok_inv; [exact Hj|].
  intros acc fk acc' Hfk Hacc Hb.
  destruct (String.eqb (referred_table fk) table2) eqn:Hr.
  - apply String.eqb_eq in Hr.
    destruct (first (constrained_columns fk)) as [fc|] eqn:Hfc; [|discriminate].
    destruct (first (referred_columns fk)) as [tc|] eqn:Htc; [|discriminate].
    cbn [obind] in Hb. injection Hb as <-.
    apply Forall_app. split; [exact Hacc|]. constructor; [|constructor].
    unfold Props.backed_join. cbn.
    repeat split; try assumption.
    exists info, fk. repeat split; try assumption; now apply first_hd_error.
  - now injection Hb as <-.
Qed.

(** The joins of [step2_analyze_joins] are backed by foreign keys. *)
Lemma step2_returns_backed_joins (tables : list string) :
  (forall joins,
      step2_analyze_joins sc tables = Ok joins ->
      Forall (Props.backed_join sc tables) joins)
  /\ (List.length tables < 2 -> step2_analyze_joins sc tables = Ok []).
Proof.
  split.
  - unfold step2_analyze_joins. intros joins.
    destruct (Nat.ltb 1 (List.length tables));
      [|intros H; injection H as <-; constructor].
    apply for_each_ok_inv; [constructor|].
    intros acc table1 acc' H1 Hacc.
    apply for_each_ok_inv; [exact Hacc|].
    intros acc2 table2 acc2' H2 Hacc2 Hb.
    destruct (String.eqb table1 table2) eqn:Heq; cbn [negb] in Hb.
    + now injection Hb as <-.
    + apply String.eqb_neq in Heq.
      destruct (lookup sc table1) as [info|] eqn:Hl; [|discriminate].
      cbn [obind] in Hb.
      now apply (joins_of_foreign_keys_backed tables table1 table2 info acc2).
  - intros H. unfold step2_analyze_joins.
    destruct (Nat.ltb 1 (List.length tables)) eqn:Hlt; [|reflexivity].
    apply Nat.ltb_lt in Hlt. lia.
Qed.

(** X2. Every join that [step2_analyze_joins] returns links two distinct
    tables of the list through a foreign key of the first one, with the first
    constrained and the first referred column; a list of fewer than two tables
    gives no join. *)
Theorem X2_joins_follow_foreign_keys (tables : list string) :
  (forall joins,
      step2_analyze_joins sc tables = Ok joins ->
      Forall (Props.backed_join sc tables) joins)
  /\ (List.length tables < 2 -> step2_analyze_joins sc tables = Ok []).
Proof. apply step2_returns_backed_joins. Qed.

End Stages.

Lemma X1_witness :
  Forall (fun t => QueryPipeline.has_table Sample.shop t = true) ["orders"; "customers"]
  /\ llm_calls {| llm_calls := 1; db_log := [] |} = S (llm_calls Sample.start)
  /\ db_log {| llm_calls := 1; db_log := [] |} = db_log Sample.start.
Proof.
  apply (X1_identified_tables_are_schema_tables Sample.shop Sample.failing_statements
           "orders of customers in NYC" Sample.start
           {| llm_calls := 1; db_log := [] |} ["orders"; "customers"]).
  vm_compute. reflexivity.
Defined.

Lemma X2_witness :
  Forall (Props.backed_join Sample.shop ["orders"; "customers"])
         [Sample.orders_to_customers].
Proof.
  apply (proj1 (X2_joins_follow_foreign_keys Sample.shop ["orders"; "customers"])).
  vm_compute. reflexivity.
Defined.

Section StageErrors.

Import QueryPipeline.

Variable sc : schema.

Lemma lookup_In (t : string) (info : table_info) :
  lookup sc t = Ok info -> In (t, info) sc.
Proof.
  induction sc as [|[name i] rest IH]; cbn [lookup]; [discriminate|].
  destruct (String.eqb t name) eqn:E.
  - apply String.eqb_eq in E. subst. intros H. injection H as ->. now left.
  - intros H. right. now apply IH.
Qed.

Lemma joins_of_foreign_keys_raises (table1 table2 : string)
      (fks : list foreign_key) (joins : list join) (e : exn) :
  joins_of_foreign_keys table1 table2 fks joins = Raise e -> e = IndexError.
Proof.
  unfold joins_of_foreign_keys.
  apply (for_each_raise_inv (fun e => e = IndexError)).
  intros acc fk e0 _ Hb.
  destruct (String.eqb (referred_table fk) table2); [|discriminate].
  destruct (constrained_columns fk); [cbn in Hb; congruence|].
  destruct (referred_columns fk); [cbn in Hb; congruence|].
  discriminate.
Qed.

Lemma joins_of_foreign_keys_total (table1 table2 : string)
      (fks : list foreign_key) (joins : list join) :
  (forall fk, In fk fks -> constrained_columns fk <> [] /\ referred_columns fk <> []) ->
  exists r, joins_of_foreign_keys table1 table2 fks joins = Ok r.
Proof.
  intros H. unfold joins_of_foreign_keys. apply for_each_total.
  intros acc fk Hfk. destruct (H fk Hfk) as [Hc Hr].
  destruct (String.eqb (referred_table fk) table2); [|now eexists].
  destruct (constrained_columns fk); [congruence|].
  destruct (referred_columns fk); [congruence|].
  now eexists.
Qed.

(** X3. On tables of the snapshot, [step2_analyze_joins] never fails on a
    missing table: it returns a join plan or raises [IndexError] (a foreign
    key without column), and it returns a plan when every foreign key of the
    snapshot names a column on each side. *)
Theorem X3_join_analysis_on_schema_tables (tables : list string) :
  Forall (fun t => has_table sc t = true) tables ->
  ((exists joins, step2_analyze_joins sc tables = Ok joins)
   \/ step2_analyze_joins sc tables = Raise IndexError)
  /\ (Props.foreign_keys_have_columns sc ->
      exists joins, step2_analyze_joins sc tables = Ok joins).
Proof.
  intros Ht. rewrite Forall_forall in Ht. split.
  - destruct (step2_analyze_joins sc tables) as [joins|e] eqn:H; [left; now eexists|].
    right. f_equal. revert H. unfold step2_analyze_joins.
    destruct (Nat.ltb 1 (List.length tables)); [|discriminate].
    apply (for_each_raise_inv (fun e => e = IndexError)). intros acc table1 e1 H1.
    apply (for_each_raise_inv (fun e => e = IndexError)). intros acc2 table2 e2 H2 Hb.
    destruct (String.eqb table1 table2); cbn [negb] in Hb; [discriminate|].
    destruct (has_table_lookup sc table1 (Ht _ H1)) as [info Hl].
    rewrite Hl in Hb. cbn [obind] in Hb.
    now apply joins_of_foreign_keys_raises in Hb.
  - intros Hfk. unfold step2_analyze_joins.
    destruct (Nat.ltb 1 (List.length tables)); [|now eexists].
    apply for_each_total. intros acc table1 H1.
    apply for_each_total. intros acc2 table2 H2.
    destruct (String.eqb table1 table2); cbn [negb]; [now eexists|].
    destruct (has_table_lookup sc table1 (Ht _ H1)) as [info Hl].
    rewrite Hl. cbn [obind]. apply joins_of_foreign_keys_total.
    intros fk Hin. apply (Hfk table1 info fk); [now apply lookup_In | exact Hin].
Qed.

(** *** The assembly *)

Lemma lookup_unknown (t : string) :
  has_table sc t = false -> lookup sc t = Raise (KeyError t).
Proof.
  unfold has_table, keys, Py.mem.
  induction sc as [|[name i] rest IH]; cbn; [reflexivity|].
  destruct (String.eqb t name); [discriminate|exact IH].
Qed.

Lemma select_clause_total (tables columns : list string) :
  Forall (fun t => has_table sc t = true) tables ->
  exists sel, select_clause sc tables columns = Ok sel.
Proof.
  intros Ht. unfold select_clause.
  destruct (negb (is_empty columns)); [|now eexists].
  destruct (prefixed_columns_qualified sc tables columns [] Ht) as (qs & -> & _).
  now eexists.
Qed.

(** X4. The assembly fails on an empty table list with the [ValueError]
    [No tables identified for the query]; without column it never consults
    the snapshot and always succeeds; with a column and a first table that is
    not in the snapshot it raises [KeyError] on that table; and on tables of
    the snapshot it always succeeds. *)
Theorem X4_assembly_failures (joins : list join) (columns : list string)
        (where_clause : string) :
  assemble_sql sc [] joins columns where_clause
  = Raise (ValueError "No tables identified for the query")
  /\ (forall t ts,
         assemble_sql sc (t :: ts) joins [] where_clause
         = Ok ("SELECT * FROM " ++ t ++ Spec.join_clauses_text joins
               ++ Spec.where_text where_clause))
  /\ (forall t ts,
         has_table sc t = false -> columns <> [] ->
         assemble_sql sc (t :: ts) joins columns where_clause = Raise (KeyError t))
  /\ (forall t ts,
         Forall (fun x => has_table sc x = true) (t :: ts) ->
         exists sql, assemble_sql sc (t :: ts) joins columns where_clause = Ok sql).
Proof.
  split; [reflexivity|]. split; [|split].
  - intros t ts. now rewrite assemble_shape.
  - intros t ts Ht Hc. rewrite assemble_shape. unfold select_clause.
    destruct columns as [|c cs]; [congruence|].
    cbn [is_empty negb for_each prefix_column].
    now rewrite (lookup_unknown _ Ht).
  - intros t ts Ht. rewrite assemble_shape.
    destruct (select_clause_total (t :: ts) columns Ht) as [sel ->].
    now eexists.
Qed.

(** *** Column selection *)

Lemma collect_columns_sound (tables : list string)
      (pick : list string -> list string) (cols : list string) :
  (forall l x, In x (pick l) -> In x l) ->
  collect_columns sc tables pick = Ok cols ->
  Forall (Props.column_of_some sc tables) cols.
Proof.
  intros Hpick. unfold collect_columns.
  apply for_each_ok_inv; [constructor|].
  intros acc table acc' Ht Hacc Hb.
  destruct (lookup sc table) as [info|] eqn:Hl; [|discriminate].
  cbn [obind] in Hb. injection Hb as <-.
  apply Forall_app. split; [exact Hacc|].
  apply Forall_forall. intros col Hcol.
  exists table. split; [exact Ht|]. exists info. split; [exact Hl|].
  now apply Hpick.
Qed.

Lemma filter_sub {T} (f : T -> bool) (l : list T) (x : T) :
  In x (filter f l) -> In x l.
Proof. intros H. now apply filter_In in H. Qed.

Lemma firstn_sub {T} (n : nat) (l : list T) (x : T) :
  In x (firstn n l) -> In x l.
Proof.
  revert l. induction n as [|n IH]; intros [|y l]; cbn; try contradiction.
  intros [->|H]; [now left | right; now apply IH].
Qed.

(** X5. [step3_select_columns] returns no column, and does not ask the
    model, for an empty table list. When the cleaned answer of the model has
    no comma, every column returned is a column of one of the listed tables
    in the snapshot. *)
Theorem X5_selected_columns_come_from_the_schema
        (E : env) (user_query : string) (tables : list string) (w : world) :
  (tables = [] -> step3_select_columns E sc user_query tables w = (Ok [], w))
  /\ (forall response cols w',
         llm E (llm_calls w) = Ok response ->
         Py.contains "," (clean_response response) = false ->
         step3_select_columns E sc user_query tables w = (Ok cols, w') ->
         Forall (Props.column_of_some sc tables) cols).
Proof.
  split; [now intros ->|].
  intros response cols w' Hllm Hcomma. unfold step3_select_columns.
  destruct (is_empty tables) eqn:Hemp.
  { intros H. injection H as <- _. constructor. }
  unfold bind, lift, invoke, ret.
  destruct (collect_columns sc tables (fun cols0 => cols0)); [|discriminate].
  rewrite Hllm, Hcomma.
  destruct (collect_columns sc tables (filter _)) as [found|] eqn:Hfound;
    [|discriminate].
  apply collect_columns_sound in Hfound; [|intros l x; apply filter_sub].
  destruct (is_empty found && negb false) eqn:Hnone.
  - destruct (Py.contains "name" (Py.lower user_query)).
    + destruct (collect_columns sc tables (filter _)) as [named|] eqn:Hn;
        [|discriminate].
      intros H. injection H as <- _.
      apply (collect_columns_sound _ _ _ (fun l x => filter_sub _ l x) Hn).
    + destruct (collect_columns sc tables (firstn 3)) as [some|] eqn:Hn;
        [|discriminate].
      intros H. injection H as <- _.
      apply (collect_columns_sound _ _ _ (fun l x => firstn_sub 3 l x) Hn).
  - intros H. injection H as <- _. exact Hfound.
Qed.

End StageErrors.

Lemma X3_witness :
  ((exists joins,
       QueryPipeline.step2_analyze_joins Sample.shop ["orders"; "customers"] = Ok joins)
   \/ QueryPipeline.step2_analyze_joins Sample.shop ["orders"; "customers"]
      = Raise IndexError)
  /\ (Props.foreign_keys_have_columns Sample.shop ->
      exists joins,
        QueryPipeline.step2_analyze_joins Sample.shop ["orders"; "customers"] = Ok joins).
Proof.
  apply (X3_join_analysis_on_schema_tables Sample.shop ["orders"; "customers"]).
  repeat constructor.
Defined.

Lemma X4_witness :
  QueryPipeline.assemble_sql Sample.shop ["invoices"; "orders"] [] ["id"] ""
  = Raise (KeyError "invoices").
Proof.
  apply (proj1 (proj2 (proj2 (X4_assembly_failures Sample.shop [] ["id"] "")))
           "invoices" ["orders"]).
  - reflexivity.
  - discriminate.
Defined.

Lemma X5_witness :
  Forall (Props.column_of_some Sample.shop ["orders"]) ["id"; "customer_id"; "total"].
Proof.
  apply (proj2 (X5_selected_columns_come_from_the_schema Sample.shop
                  Sample.failing_advanced "all orders" ["orders"] Sample.start)
           "SELECT * FROM orders" ["id"; "customer_id"; "total"]
           {| llm_calls := 1; db_log := [] |});
    vm_compute; reflexivity.
Defined.

Section ValidatedStatements.

Import QueryPipeline.

Variable sc : schema.

Lemma contains_append_r (sub a b : string) :
  Py.contains sub b = true -> Py.contains sub (a ++ b) = true.
Proof.
  intros H. induction a as [|c a IH]; [exact H|].
  cbn [append]. now apply contains_tail.
Qed.

Lemma select_clause_starts_with_select (tables columns : list string) (sel : string) :
  select_clause sc tables columns = Ok sel -> exists rest, sel = "SELECT " ++ rest.
Proof.
  unfold select_clause. destruct (negb (is_empty columns)).
  - destruct (for_each _ _ _) as [qs|]; [|discriminate].
    cbn [obind]. intros H. injection H as <-. now eexists.
  - intros H. injection H as <-. now exists "*".
Qed.

Lemma assembled_shape (tables : list string) (joins : list join)
      (columns : list string) (where_clause sql : string) :
  assemble_sql sc tables joins columns where_clause = Ok sql ->
  exists rest t0,
    sql = "SELECT " ++ rest ++ " FROM " ++ t0 ++ Spec.join_clauses_text joins
          ++ Spec.where_text where_clause.
Proof.
  destruct tables as [|t0 ts]; [discriminate|].
  rewrite assemble_shape.
  destruct (select_clause sc (t0 :: ts) columns) as [sel|] eqn:Hs; [|discriminate].
  destruct (select_clause_starts_with_select _ _ _ Hs) as [rest ->].
  cbn [obind]. intros H. injection H as <-. exists rest, t0.
  first [reflexivity | now rewrite !append_assoc].
Qed.

(** X6. A statement produced by the assembly always holds SELECT and FROM
    in capitals, and WHERE in capitals when the fragment is not empty. So
    [validate_sql_syntax] never reports a missing clause on it, and reports an
    invalid WHERE clause only if the fragment is empty: what remains is
    unbalanced parentheses or a denylisted keyword. *)
Theorem X6_assembled_statements_keep_their_clauses
        (tables : list string) (joins : list join) (columns : list string)
        (where_clause sql : string) :
  assemble_sql sc tables joins columns where_clause = Ok sql ->
  Py.contains "SELECT" (Py.upper sql) = true
  /\ Py.contains "FROM" (Py.upper sql) = true
  /\ (where_clause <> "" -> Py.contains "WHERE" sql = true)
  /\ (validate_sql_syntax sql = (true, "SQL syntax appears valid")
      \/ validate_sql_syntax sql = (false, "Mismatched parentheses")
      \/ (where_clause = ""
          /\ validate_sql_syntax sql = (false, "Invalid WHERE clause"))
      \/ exists kw,
          In kw dangerous_patterns
          /\ validate_sql_syntax sql = (false, Spec.denylist_diagnostic kw)).
Proof.
  intros H. destruct (assembled_shape _ _ _ _ _ H) as (rest & t0 & ->).
  assert (Hs : Py.contains "SELECT"
                 (Py.upper ("SELECT " ++ rest ++ " FROM " ++ t0
                            ++ Spec.join_clauses_text joins
                            ++ Spec.where_text where_clause)) = true).
  { apply contains_prefix. unfold Py.upper. rewrite map_chars_append.
    apply (prefix_append "SELECT"). }
  assert (Hf : Py.contains "FROM"
                 (Py.upper ("SELECT " ++ rest ++ " FROM " ++ t0
                            ++ Spec.join_clauses_text joins
                            ++ Spec.where_text where_clause)) = true).
  { unfold Py.upper. rewrite !map_chars_append.
    do 2 apply contains_append_r.
    change (Py.map_chars Py.to_upper " FROM ") with (" " ++ "FROM" ++ " ").
    rewrite !append_assoc. apply contains_intro. }
  assert (Hw : where_clause <> "" ->
               Py.contains "WHERE"
                 ("SELECT " ++ rest ++ " FROM " ++ t0
                  ++ Spec.join_clauses_text joins
                  ++ Spec.where_text where_clause) = true).
  { intros Hne. destruct where_clause as [|c wc]; [congruence|].
    cbn [Spec.where_text].
    do 5 apply contains_append_r.
    apply (contains_intro "WHERE" " " (" " ++ String c wc)). }
  split; [exact Hs|]. split; [exact Hf|]. split; [exact Hw|].
  unfold validate_sql_syntax, required_clauses. cbn [find].
  rewrite Hs, Hf. cbn [negb].
  destruct (Nat.eqb _ _); cbn [negb]; [|now right; left].
  destruct (Py.contains "WHERE" (Py.upper _) && negb (Py.contains "WHERE" _)) eqn:Hc.
  - right. right. left. split; [|reflexivity].
    destruct where_clause as [|c wc]; [reflexivity|].
    rewrite Hw in Hc by discriminate. cbn [negb] in Hc.
    now rewrite andb_false_r in Hc.
  - destruct (find _ dangerous_patterns) as [kw|] eqn:Hd; [|now left].
    right. right. right. exists kw. apply find_some in Hd as [Hin _].
    split; [exact Hin | reflexivity].
Qed.

(** *** The validation layers *)

Lemma where_conditions_keep_the_log (E : env) (user_query : string)
      (tables : list string) (w : world) :
  db_log (snd (_extract_where_conditions E user_query tables w)) = db_log w.
Proof.
  unfold _extract_where_conditions, bind, invoke, ret.
  destruct (is_empty tables); [reflexivity|].
  destruct (llm E (llm_calls w)); reflexivity.
Qed.

Lemma validation_layers_ok (E : env) (sql : string) (tables columns : list string)
      (w w' : world) (out : string) :
  validation_layers E sc sql tables columns w = (Ok out, w') ->
  out = sql
  /\ fst (validate_sql_syntax sql) = true
  /\ _validate_sql_semantics sc sql tables columns = true
  /\ db_log w' = List.app (db_log w) ["EXPLAIN " ++ sql]
  /\ exists keys rows, execute E (db_log w) ("EXPLAIN " ++ sql) = DbResult keys rows.
Proof.
  unfold validation_layers, _validate_sql_with_explain, try_except, bind,
    open_connection, run_statement, ret, raise.
  destruct (validate_sql_syntax sql) as [[|] d];
    cbv beta iota zeta delta [negb fst]; [|discriminate].
  destruct (connect E (db_log w));
    cbv beta iota zeta delta [negb]; [|discriminate].
  destruct (execute E (db_log w) ("EXPLAIN " ++ sql)) as [msg|keys rows];
    cbv beta iota zeta delta [negb]; [discriminate|].
  destruct (_validate_sql_semantics sc sql tables columns);
    cbv beta iota zeta delta [negb]; [|discriminate].
  intros H. injection H as <- <-. repeat split. now exists keys, rows.
Qed.

(** What [step4_build_sql] returns passed its three layers. *)
Lemma step4_returns_checked
        (E : env) (tables : list string) (joins : list join)
        (columns : list string) (user_query sql : string) (w w' : world) :
  step4_build_sql E sc tables joins columns user_query w = (Ok sql, w') ->
  (exists where_response,
      assemble_sql sc tables joins columns (extract_sql_condition where_response)
      = Ok sql)
  /\ fst (validate_sql_syntax sql) = true
  /\ _validate_sql_semantics sc sql tables columns = true
  /\ db_log w' = List.app (db_log w) ["EXPLAIN " ++ sql]
  /\ exists keys rows, execute E (db_log w) ("EXPLAIN " ++ sql) = DbResult keys rows.
Proof.
  unfold step4_build_sql, bind, lift.
  destruct (sql_parts sc tables joins columns) as [parts|] eqn:Hp; [|discriminate].
  pose proof (where_conditions_keep_the_log E user_query tables w) as Hlog.
  destruct (_extract_where_conditions E user_query tables w) as [[wr|] w1];
    [|discriminate].
  cbn [snd] in Hlog. intros H.
  apply validation_layers_ok in H as (-> & Hv & Hsem & Hl & Hx).
  rewrite Hlog in Hl, Hx. split; [|auto].
  exists wr. unfold assemble_sql. now rewrite Hp.
Qed.

(** X7. A statement returned by [step4_build_sql] is the assembled one and
    it passed the three layers: [validate_sql_syntax] accepts it, the database
    answered its EXPLAIN (sent exactly once, and nothing else was sent), and
    the semantic validation accepts it. *)
Theorem X7_built_statements_passed_every_layer
        (E : env) (tables : list string) (joins : list join)
        (columns : list string) (user_query sql : string) (w w' : world) :
  step4_build_sql E sc tables joins columns user_query w = (Ok sql, w') ->
  (exists where_response,
      assemble_sql sc tables joins columns (extract_sql_condition where_response)
      = Ok sql)
  /\ fst (validate_sql_syntax sql) = true
  /\ _validate_sql_semantics sc sql tables columns = true
  /\ db_log w' = List.app (db_log w) ["EXPLAIN " ++ sql]
  /\ exists keys rows, execute E (db_log w) ("EXPLAIN " ++ sql) = DbResult keys rows.
Proof. apply step4_returns_checked. Qed.

End ValidatedStatements.

Lemma X6_witness :
  Py.contains "SELECT" (Py.upper "SELECT * FROM orders WHERE total > 10") = true
  /\ Py.contains "FROM" (Py.upper "SELECT * FROM orders WHERE total > 10") = true
  /\ ("total > 10" <> "" ->
      Py.contains "WHERE" "SELECT * FROM orders WHERE total > 10" = true)
  /\ (QueryPipeline.validate_sql_syntax "SELECT * FROM orders WHERE total > 10"
      = (true, "SQL syntax appears valid")
      \/ QueryPipeline.validate_sql_syntax "SELECT * FROM orders WHERE total > 10"
         = (false, "Mismatched parentheses")
      \/ ("total > 10" = ""
          /\ QueryPipeline.validate_sql_syntax "SELECT * FROM orders WHERE total > 10"
             = (false, "Invalid WHERE clause"))
      \/ exists kw,
          In kw QueryPipeline.dangerous_patterns
          /\ QueryPipeline.validate_sql_syntax "SELECT * FROM orders WHERE total > 10"
             = (false, Spec.denylist_diagnostic kw)).
Proof.
  apply (X6_assembled_statements_keep_their_clauses Sample.shop ["orders"] [] []
           "total > 10" "SELECT * FROM orders WHERE total > 10").
  vm_compute. reflexivity.
Defined.

Lemma X7_witness :
  (exists where_response,
      QueryPipeline.assemble_sql Sample.shop ["orders"; "customers"]
        [Sample.orders_to_customers] ["total"; "first_name"]
        (QueryPipeline.extract_sql_condition where_response)
      = Ok Sample.shop_sql)
  /\ fst (QueryPipeline.validate_sql_syntax Sample.shop_sql) = true
  /\ QueryPipeline._validate_sql_semantics Sample.shop Sample.shop_sql
       ["orders"; "customers"] ["total"; "first_name"] = true
  /\ db_log {| llm_calls := 3; db_log := ["EXPLAIN " ++ Sample.shop_sql] |}
     = List.app (db_log {| llm_calls := 2; db_log := [] |}) ["EXPLAIN " ++ Sample.shop_sql]
  /\ exists keys rows,
      execute Sample.failing_statements (db_log {| llm_calls := 2; db_log := [] |})
              ("EXPLAIN " ++ Sample.shop_sql) = DbResult keys rows.
Proof.
  apply (X7_built_statements_passed_every_layer Sample.shop Sample.failing_statements
           ["orders"; "customers"] [Sample.orders_to_customers]
           ["total"; "first_name"] "orders of customers in NYC" Sample.shop_sql
           {| llm_calls := 2; db_log := [] |}
           {| llm_calls := 3; db_log := ["EXPLAIN " ++ Sample.shop_sql] |}).
  vm_compute. reflexivity.
Defined.

(* ================================================================== *)
(** ** Further properties: what reaches the database *)
(* ================================================================== *)

Section Sends.

Context {A B : Type}.

Variable P : string -> Prop.

Lemma sends_ret (a : A) : Props.sends P (ret a).
Proof. intros w. exists []. cbn. now rewrite app_nil_r. Qed.

Lemma sends_raise (e : exn) : Props.sends P (@raise A e).
Proof. intros w. exists []. cbn. now rewrite app_nil_r. Qed.

Lemma sends_lift (c : outcome A) : Props.sends P (lift c).
Proof. intros w. exists []. cbn. now rewrite app_nil_r. Qed.

Lemma sends_bind_post (Q : A -> Prop) (c : M A) (k : A -> M B) :
  Props.sends P c ->
  (forall a w w', c w = (Ok a, w') -> Q a) ->
  (forall a, Q a -> Props.sends P (k a)) ->
  Props.sends P (bind c k).
Proof.
  intros Hc Hpost Hk w. unfold bind.
  destruct (Hc w) as (s1 & H1 & F1).
  destruct (c w) as [[a|e] w1] eqn:Hcw; cbn [snd] in H1.
  - destruct (Hk a (Hpost a w w1 Hcw) w1) as (s2 & H2 & F2).
    exists (s1 ++ s2)%list. split.
    + now rewrite H2, H1, app_assoc.
    + apply Forall_app. now split.
  - exists s1. now split.
Qed.

Lemma sends_bind (c : M A) (k : A -> M B) :
  Props.sends P c -> (forall a, Props.sends P (k a)) ->
  Props.sends P (bind c k).
Proof.
  intros Hc Hk. apply (sends_bind_post (fun _ => True)); auto.
Qed.

Lemma sends_try (body : M A) (h : exn -> M A) :
  Props.sends P body -> (forall e, Props.sends P (h e)) ->
  Props.sends P (try_except body h).
Proof.
  intros Hb Hh w. unfold try_except.
  destruct (Hb w) as (s1 & H1 & F1).
  destruct (body w) as [[a|e] w1]; cbn [snd] in H1.
  - exists s1. now split.
  - destruct (Hh e w1) as (s2 & H2 & F2).
    exists (s1 ++ s2)%list. split.
    + now rewrite H2, H1, app_assoc.
    + apply Forall_app. now split.
Qed.

End Sends.

Section SendsPrimitives.

Variable P : string -> Prop.
Variable E : env.

Lemma sends_invoke : Props.sends P (invoke E).
Proof. intros w. exists []. cbn. now rewrite app_nil_r. Qed.

Lemma sends_open : Props.sends P (open_connection E).
Proof. intros w. exists []. cbn. now rewrite app_nil_r. Qed.

Lemma sends_run (stmt : string) : P stmt -> Props.sends P (run_statement E stmt).
Proof.
  intros Hs w. exists [stmt]. unfold run_statement.
  destruct (execute E (db_log w) stmt); cbn; (split; [reflexivity|]);
    now constructor.
Qed.

End SendsPrimitives.

Lemma sends_nothing {A} (c : M A) (w : world) :
  Props.sends (fun _ => False) c -> db_log (snd (c w)) = db_log w.
Proof.
  intros H. destruct (H w) as (sent & -> & F).
  destruct sent as [|x sent]; [apply app_nil_r|].
  now apply Forall_inv in F.
Qed.

Section DatabaseTraffic.

Variable E : env.

Lemma step1_sends (P : string -> Prop) (sc : QueryPipeline.schema) (q : string) :
  Props.sends P (QueryPipeline.step1_identify_tables E sc q).
Proof.
  unfold QueryPipeline.step1_identify_tables.
  apply sends_bind; [apply sends_invoke | intros; apply sends_ret].
Qed.

Lemma step3_sends (P : string -> Prop) (sc : QueryPipeline.schema) (q : string)
      (tables : list string) :
  Props.sends P (QueryPipeline.step3_select_columns E sc q tables).
Proof.
  unfold QueryPipeline.step3_select_columns.
  destruct (QueryPipeline.is_empty tables); [apply sends_ret|].
  apply sends_bind; [apply sends_lift|]. intros _.
  apply sends_bind; [apply sends_invoke|]. intros response.
  apply sends_bind; [apply sends_lift|]. intros cols.
  destruct (_ && _); [|apply sends_ret].
  destruct (Py.contains _ _); apply sends_lift.
Qed.

Lemma validation_layers_sends (sc : QueryPipeline.schema) (sql : string)
      (tables columns : list string) :
  Props.sends Props.allowed_statement
              (QueryPipeline.validation_layers E sc sql tables columns).
Proof.
  unfold QueryPipeline.validation_layers.
  destruct (QueryPipeline.validate_sql_syntax sql) as [[|] d] eqn:Hv;
    cbn [negb]; [|apply sends_raise].
  assert (Ha : Props.allowed_statement ("EXPLAIN " ++ sql)).
  { right. exists sql. rewrite Hv. auto. }
  apply sends_bind.
  - unfold QueryPipeline._validate_sql_with_explain.
    apply sends_try; [|intros; apply sends_ret].
    apply sends_bind; [apply sends_open|]. intros _.
    apply sends_bind; [now apply sends_run|]. intros _. apply sends_ret.
  - intros explained. destruct (negb explained); [apply sends_raise|].
    destruct (negb _); [apply sends_raise | apply sends_ret].
Qed.

Lemma step4_sends (sc : QueryPipeline.schema) (tables : list string)
      (joins : list QueryPipeline.join) (columns : list string) (q : string) :
  Props.sends Props.allowed_statement
              (QueryPipeline.step4_build_sql E sc tables joins columns q).
Proof.
  unfold QueryPipeline.step4_build_sql.
  apply sends_bind; [apply sends_lift|]. intros parts.
  apply sends_bind.
  - unfold QueryPipeline._extract_where_conditions.
    destruct (QueryPipeline.is_empty tables); [apply sends_ret|].
    apply sends_bind; [apply sends_invoke | intros; apply sends_ret].
  - intros wr. apply validation_layers_sends.
Qed.

Lemma step4_returns_validated (sc : QueryPipeline.schema) (tables : list string)
      (joins : list QueryPipeline.join) (columns : list string) (q sql : string)
      (w w' : world) :
  QueryPipeline.step4_build_sql E sc tables joins columns q w = (Ok sql, w') ->
  fst (QueryPipeline.validate_sql_syntax sql) = true.
Proof.
  unfold QueryPipeline.step4_build_sql, bind, lift.
  destruct (QueryPipeline.sql_parts sc tables joins columns); [|discriminate].
  destruct (QueryPipeline._extract_where_conditions E q tables w) as [[wr|] w1];
    [|discriminate].
  intros H. now apply validation_layers_ok in H as (-> & Hv & _).
Qed.

Lemma step5_sends (sql : string) :
  fst (QueryPipeline.validate_sql_syntax sql) = true ->
  Props.sends Props.allowed_statement (QueryPipeline.step5_execute_query E sql).
Proof.
  intros Hv. unfold QueryPipeline.step5_execute_query.
  apply sends_try; [|intros; apply sends_ret].
  apply sends_bind; [apply sends_open|]. intros _.
  apply sends_bind; [apply sends_run; now left|]. intros _.
  apply sends_bind; [apply sends_run; right; exists sql; auto|].
  intros [keys rows]. apply sends_ret.
Qed.

(** X8. Whatever the model and the database answer, [process_query] of
    [SQLQueryPipeline] only adds to the statements the database has seen, and
    each statement it sends is the session time limit, or a statement that
    [validate_sql_syntax] accepts, or the EXPLAIN of such a statement. *)
Theorem X8_only_validated_statements_reach_the_database
        (sc : QueryPipeline.schema) (user_query : string) (w : world) :
  exists sent,
    db_log (snd (QueryPipeline.process_query E sc user_query w))
    = (db_log w ++ sent)%list
    /\ Forall Props.allowed_statement sent.
Proof.
  revert w. change (Props.sends Props.allowed_statement
                      (QueryPipeline.process_query E sc user_query)).
  unfold QueryPipeline.process_query.
  apply sends_try; [|intros; apply sends_ret].
  unfold QueryPipeline.process_query_body.
  apply sends_bind; [apply step1_sends|]. intros tables.
  apply sends_bind; [apply sends_lift|]. intros joins.
  apply sends_bind; [apply step3_sends|]. intros columns.
  apply (sends_bind_post _
           (fun sql => fst (QueryPipeline.validate_sql_syntax sql) = true)).
  - apply step4_sends.
  - intros sql w0 w1. apply step4_returns_validated.
  - intros sql Hv. apply sends_bind; [now apply step5_sends|].
    intros results. apply sends_ret.
Qed.

(** *** The advanced pipeline *)

Lemma generate_advanced_sends (P : string -> Prop) (q : string) :
  Props.sends P (AdvancedPipeline._generate_advanced_sql E q).
Proof.
  unfold AdvancedPipeline._generate_advanced_sql.
  apply sends_bind; [apply sends_invoke | intros; apply sends_ret].
Qed.

(** X9. The advanced pipeline sends at most one statement to the database
    for a question, and only a statement that passed [_is_safe_sql]: it starts
    with SELECT or WITH, holds no keyword of the denylist and no semicolon. *)
Theorem X9_advanced_sends_one_safe_statement
        (set_order : list string -> list string) (user_question : string) (w : world) :
  exists sent,
    db_log (snd (AdvancedPipeline.process_query E set_order user_question w))
    = (db_log w ++ sent)%list
    /\ (sent = []
        \/ exists sql, sent = [sql] /\ AdvancedPipeline._is_safe_sql sql = true).
Proof.
  unfold AdvancedPipeline.process_query, try_except,
    AdvancedPipeline.process_query_body, bind.
  pose proof (sends_nothing _ w (generate_advanced_sends (fun _ => False) user_question))
    as Hg.
  destruct (AdvancedPipeline._generate_advanced_sql E user_question w)
    as [[sql|e] w1]; cbn [snd] in Hg.
  - destruct (AdvancedPipeline._is_safe_sql sql) eqn:Hsafe; cbn [negb].
    + destruct (advanced_execute_sends_once E sql w1) as (sent & Hs & Hsent).
      exists sent. rewrite <- Hg. split.
      * destruct (AdvancedPipeline._execute_query E sql w1) as [[rows|e] w2];
          exact Hs.
      * destruct Hsent as [->| ->]; [now left | right; now exists sql].
    + exists []. cbn. rewrite app_nil_r. split; [exact Hg | now left].
  - exists []. cbn. rewrite app_nil_r. split; [exact Hg | now left].
Qed.

(** *** The simple pipeline *)

Lemma identify_table_sends (P : string -> Prop) (sc : SimplePipeline.schema)
      (q : string) :
  Props.sends P (SimplePipeline._identify_table E sc q).
Proof.
  unfold SimplePipeline._identify_table.
  apply sends_bind; [apply sends_invoke|]. intros response.
  destruct (Py.mem _ _); apply sends_ret.
Qed.

Lemma generate_sql_sends (P : string -> Prop) (sc : SimplePipeline.schema)
      (q t : string) :
  Props.sends P (SimplePipeline._generate_sql E sc q t).
Proof.
  unfold SimplePipeline._generate_sql.
  apply sends_bind; [apply sends_lift|]. intros _.
  apply sends_bind; [apply sends_invoke | intros; apply sends_ret].
Qed.

Lemma simple_execute_sends (sql : string) (w : world) :
  exists sent,
    db_log (snd (SimplePipeline._execute_query E sql w)) = (db_log w ++ sent)%list
    /\ (sent = [] \/ sent = ["EXPLAIN " ++ sql] \/ sent = ["EXPLAIN " ++ sql; sql]).
Proof.
  unfold SimplePipeline._execute_query, try_except, bind, open_connection,
    run_statement, raise, ret.
  destruct (connect E (db_log w)); cbn [snd db_log].
  - destruct (execute E (db_log w) ("EXPLAIN " ++ sql)); cbn [snd db_log].
    + exists ["EXPLAIN " ++ sql]. split; [reflexivity | now right; left].
    + destruct (execute E _ sql); cbn [snd db_log];
        exists ["EXPLAIN " ++ sql; sql]; rewrite <- app_assoc;
        (split; [reflexivity | now right; right]).
  - exists []. rewrite app_nil_r. split; [reflexivity | now left].
Qed.

(** X10. The simple pipeline sends to the database, for a question, nothing,
    or the EXPLAIN of one statement, or that EXPLAIN followed by the statement
    itself; the statement passed [_is_safe_sql], and it is never sent without
    its EXPLAIN before it. *)
Theorem X10_simple_sends_explain_then_the_statement
        (sc : SimplePipeline.schema) (user_question : string) (w : world) :
  exists sent,
    db_log (snd (SimplePipeline.process_query E sc user_question w))
    = (db_log w ++ sent)%list
    /\ (sent = []
        \/ exists sql,
            SimplePipeline._is_safe_sql sql = true
            /\ (sent = ["EXPLAIN " ++ sql] \/ sent = ["EXPLAIN " ++ sql; sql])).
Proof.
  assert (Hnone : forall w0 : world,
             exists sent, db_log w0 = (db_log w0 ++ sent)%list
                          /\ (sent = []
                              \/ exists sql,
                                  SimplePipeline._is_safe_sql sql = true
                                  /\ (sent = ["EXPLAIN " ++ sql]
                                      \/ sent = ["EXPLAIN " ++ sql; sql]))).
  { intros w0. exists []. rewrite app_nil_r. split; [reflexivity | now left]. }
  unfold SimplePipeline.process_query, try_except,
    SimplePipeline.process_query_body, bind.
  pose proof (sends_nothing _ w (identify_table_sends (fun _ => False) sc user_question))
    as Hi.
  destruct (SimplePipeline._identify_table E sc user_question w)
    as [[found|e] w1]; cbn [snd] in Hi; [|cbn; rewrite Hi; apply Hnone].
  destruct found as [[|c t]|]; try (cbn; rewrite Hi; apply Hnone).
  pose proof (sends_nothing _ w1
                (generate_sql_sends (fun _ => False) sc user_question (String c t)))
    as Hg.
  destruct (SimplePipeline._generate_sql E sc user_question (String c t) w1)
    as [[sql|e] w2]; cbn [snd] in Hg;
    [|cbn; rewrite Hg, Hi; apply Hnone].
  destruct (SimplePipeline._is_safe_sql sql) eqn:Hsafe; cbn [negb];
    [|cbn; rewrite Hg, Hi; apply Hnone].
  destruct (simple_execute_sends sql w2) as (sent & Hs & Hsent).
  exists sent. rewrite <- Hi, <- Hg. split.
  - destruct (SimplePipeline._execute_query E sql w2) as [[rows|e] w3]; exact Hs.
  - destruct Hsent as [->|Hsent]; [now left|]. right. now exists sql.
Qed.

End DatabaseTraffic.

(* ================================================================== *)
(** ** Further properties: white space and keywords *)
(* ================================================================== *)

Section Tokens.

Lemma cons_word_tokens (w : string) (ws : list string) :
  Props.spacefree w = true ->
  Forall (fun x => Props.is_token x = true) ws ->
  Forall (fun x => Props.is_token x = true) (Py.cons_word w ws).
Proof.
  intros Hw Hws. destruct w as [|c w]; [exact Hws|].
  constructor; [|exact Hws]. unfold Props.is_token. now rewrite Hw.
Qed.

Lemma split_go_tokens (s : string) :
  Props.spacefree (fst (Py.split_go s)) = true
  /\ Forall (fun x => Props.is_token x = true) (snd (Py.split_go s)).
Proof.
  induction s as [|c s [IHw IHws]]; [split; [reflexivity | constructor]|].
  cbn [Py.split_go]. destruct (Py.split_go s) as [w ws]. cbn [fst snd] in *.
  destruct (Py.is_space c) eqn:Hc; cbn [fst snd].
  - split; [reflexivity | now apply cons_word_tokens].
  - split; [|exact IHws]. cbn [Props.spacefree]. now rewrite Hc, IHw.
Qed.

(** The parts of [s.split()] are tokens. *)
Lemma split_tokens (s : string) :
  Forall (fun x => Props.is_token x = true) (Py.split s).
Proof.
  unfold Py.split. destruct (split_go_tokens s) as [Hw Hws].
  destruct (Py.split_go s) as [w ws]. now apply cons_word_tokens.
Qed.

Lemma split_go_word (x t : string) :
  Props.spacefree x = true ->
  Py.split_go (x ++ t) = (x ++ fst (Py.split_go t), snd (Py.split_go t)).
Proof.
  induction x as [|c x IH]; intros Hx.
  - cbn [append]. now destruct (Py.split_go t).
  - cbn [Props.spacefree] in Hx. apply andb_true_iff in Hx as [Hc Hx].
    apply negb_true_iff in Hc.
    cbn [append Py.split_go]. rewrite (IH Hx), Hc. reflexivity.
Qed.

Lemma split_go_spaced (ws : list string) :
  Forall (fun x => Props.is_token x = true) ws ->
  Py.split_go (Spec.spaced ws) = ("", ws).
Proof.
  induction 1 as [|y r Hy _ IH]; [reflexivity|].
  unfold Props.is_token in Hy. apply andb_true_iff in Hy as [Hne Hy].
  cbn [Spec.spaced]. change (" " ++ y ++ Spec.spaced r)
    with (String " " (y ++ Spec.spaced r)).
  cbn [Py.split_go]. rewrite (split_go_word _ _ Hy), IH. cbn [fst snd].
  replace (Py.is_space " ") with true by reflexivity.
  rewrite append_empty_r. now destruct y.
Qed.

(** Splitting what was joined with single spaces gives the tokens back. *)
Lemma split_join (ws : list string) :
  Forall (fun x => Props.is_token x = true) ws ->
  Py.split (Py.join " " ws) = ws.
Proof.
  intros H. destruct H as [|x r Hx Hr]; [reflexivity|].
  rewrite join_spaced. unfold Py.split.
  unfold Props.is_token in Hx. apply andb_true_iff in Hx as [Hne Hx].
  rewrite (split_go_word _ _ Hx), (split_go_spaced _ Hr). cbn [fst snd].
  rewrite append_empty_r. now destruct x.
Qed.

(** X11. A text that went through [' '.join(text.split())] is in normal form:
    it is a list of tokens separated by single spaces, splitting it gives
    these tokens back, and normalising it again changes nothing. This holds
    for every statement returned by [_clean_advanced_sql]. *)
Theorem X11_cleaned_statements_are_normalised (s : string) :
  (exists ws,
      Forall (fun x => Props.is_token x = true) ws
      /\ Props.normalize s = Py.join " " ws
      /\ Py.split (Props.normalize s) = ws)
  /\ Props.normalize (Props.normalize s) = Props.normalize s
  /\ Props.normalize (AdvancedPipeline._clean_advanced_sql s)
     = AdvancedPipeline._clean_advanced_sql s.
Proof.
  assert (Hn : forall t, Props.normalize (Props.normalize t) = Props.normalize t).
  { intros t. unfold Props.normalize. now rewrite (split_join _ (split_tokens t)). }
  split; [|split; [apply Hn | apply Hn]].
  exists (Py.split s). split; [apply split_tokens|]. split; [reflexivity|].
  apply split_join, split_tokens.
Qed.

(** *** Keywords survive the normalisation *)

Lemma prefix_leading_word (w s t : string) :
  Props.spacefree w = true -> prefix w s = true ->
  prefix w (fst (Py.split_go s) ++ t) = true.
Proof.
  revert s. induction w as [|k w IH]; intros s Hw Hp; [apply prefix_empty|].
  destruct s as [|c s]; [discriminate|].
  cbn [prefix] in Hp. destruct (ascii_dec k c) as [->|]; [|discriminate].
  cbn [Props.spacefree] in Hw. apply andb_true_iff in Hw as [Hc Hw].
  apply negb_true_iff in Hc.
  cbn [Py.split_go]. destruct (Py.split_go s) as [w0 ws] eqn:Hs.
  rewrite Hc. cbn [fst append prefix].
  destruct (ascii_dec c c); [|congruence].
  specialize (IH s Hw Hp). now rewrite Hs in IH.
Qed.

Lemma contains_normalize (w s : string) :
  Props.is_token w = true ->
  Py.contains w s = true -> Py.contains w (Props.normalize s) = true.
Proof.
  intros Hw. unfold Props.is_token in Hw. apply andb_true_iff in Hw as [Hne Hw].
  destruct w as [|k w]; [discriminate|]. clear Hne.
  unfold Props.normalize, Py.split.
  induction s as [|c s IH]; intros H; [discriminate|].
  cbn [Py.contains] in H. cbn [Py.split_go].
  destruct (Py.split_go s) as [w0 ws] eqn:Hs.
  destruct (Py.is_space c) eqn:Hc.
  - cbn [Py.cons_word]. apply IH.
    apply orb_true_iff in H as [H|H]; [|exact H].
    cbn [prefix] in H. destruct (ascii_dec k c) as [->|]; [|discriminate].
    cbn [Props.spacefree] in Hw. now rewrite Hc in Hw.
  - cbn [Py.cons_word]. rewrite join_spaced.
    apply orb_true_iff in H as [H|H].
    + apply contains_prefix.
      pose proof (prefix_leading_word (String k w) (String c s) (Spec.spaced ws) Hw H)
        as Hp.
      cbn [Py.split_go] in Hp. now rewrite Hs, Hc in Hp.
    + specialize (IH H). cbn [append]. apply contains_tail.
      destruct w0 as [|d w0].
      * cbn [Py.cons_word append] in IH |- *.
        destruct ws as [|y r]; [discriminate|].
        rewrite join_spaced in IH. cbn [Spec.spaced].
        now apply (contains_tail _ " ").
      * cbn [Py.cons_word] in IH. now rewrite join_spaced in IH.
Qed.

Lemma to_upper_space (c : ascii) : Py.is_space (Py.to_upper c) = Py.is_space c.
Proof. destruct c as [[] [] [] [] [] [] [] []]; reflexivity. Qed.

Lemma upper_token (w : string) :
  Props.is_token (Py.upper w) = Props.is_token w.
Proof.
  unfold Props.is_token. f_equal; [now destruct w|].
  unfold Py.upper. induction w as [|c w IH]; [reflexivity|].
  cbn [Py.map_chars Props.spacefree]. now rewrite to_upper_space, IH.
Qed.

Lemma mentions_normalize (kw s : string) :
  Props.is_token kw = true ->
  Spec.mentions kw s -> Spec.mentions kw (Props.normalize s).
Proof.
  intros Hk (pre & w & post & -> & Hup).
  assert (Hw : Props.is_token w = true) by now rewrite <- upper_token, Hup.
  pose proof (contains_normalize w _ Hw (contains_intro w pre post)) as Hc.
  apply contains_elim in Hc as (pre' & post' & ->).
  now exists pre', w, post'.
Qed.

Lemma token_solid (kw : string) :
  Props.is_token kw = true ->
  Spec.solid_start kw = true /\ Spec.solid_end kw = true.
Proof.
  unfold Props.is_token. intros H. apply andb_true_iff in H as [Hne H].
  destruct kw as [|k kw]; [discriminate|]. clear Hne.
  cbn [Props.spacefree] in H. apply andb_true_iff in H as [Hk H].
  split; [exact Hk|].
  revert k Hk. induction kw as [|d kw IH]; intros k Hk; [exact Hk|].
  cbn [Props.spacefree] in H. apply andb_true_iff in H as [Hd H].
  change (Spec.solid_end (String d kw) = true). now apply IH.
Qed.

Lemma simple_rejects_denylisted (s kw : string) :
  In kw SimplePipeline.dangerous_words ->
  Spec.mentions kw s -> SimplePipeline._is_safe_sql s = false.
Proof.
  intros Hin Hm.
  assert (Hk : Props.is_token kw = true).
  { unfold SimplePipeline.dangerous_words in Hin. cbn [In] in Hin.
    repeat (destruct Hin as [<-|Hin]; [reflexivity|]). contradiction. }
  apply (mentions_normalize _ _ Hk) in Hm.
  apply mentions_contains_upper in Hm.
  destruct (token_solid _ Hk) as [Hs He].
  pose proof (contains_strip _ _ Hs He Hm) as Hc.
  unfold SimplePipeline._is_safe_sql.
  destruct (_ || _); [reflexivity|].
  destruct (_ && _); [reflexivity|].
  replace (existsb _ SimplePipeline.dangerous_words) with true; [reflexivity|].
  symmetry. apply existsb_exists. exists kw. split; [exact Hin | exact Hc].
Qed.

(** X12. Each of the three validators rejects every text in which a keyword
    of its own denylist occurs, in any letter case and at any position. *)
Theorem X12_every_denylist_is_enforced (s kw : string) :
  Spec.mentions kw s ->
  (In kw QueryPipeline.dangerous_patterns ->
   fst (QueryPipeline.validate_sql_syntax s) = false)
  /\ (In kw AdvancedPipeline.dangerous_keywords ->
      AdvancedPipeline._is_safe_sql s = false)
  /\ (In kw SimplePipeline.dangerous_words ->
      SimplePipeline._is_safe_sql s = false).
Proof.
  intros Hm. split; [|split]; intros Hin.
  - apply validate_rejects_denylisted with kw; [exact Hin|].
    now apply mentions_contains_upper.
  - apply advanced_rejects_denylisted with kw; [exact Hin|].
    now apply mentions_contains_upper.
  - now apply simple_rejects_denylisted with kw.
Qed.

End Tokens.

Lemma X12_witness :
  (In "TRUNCATE" QueryPipeline.dangerous_patterns ->
   fst (QueryPipeline.validate_sql_syntax "select 1 from t where a = 'truncate'") = false)
  /\ (In "TRUNCATE" AdvancedPipeline.dangerous_keywords ->
      AdvancedPipeline._is_safe_sql "select 1 from t where a = 'truncate'" = false)
  /\ (In "TRUNCATE" SimplePipeline.dangerous_words ->
      SimplePipeline._is_safe_sql "select 1 from t where a = 'truncate'" = false).
Proof.
  apply (X12_every_denylist_is_enforced "select 1 from t where a = 'truncate'" "TRUNCATE").
  exists "select 1 from t where a = '", "truncate", "'". split; reflexivity.
Defined.

(* ================================================================== *)
(** ** Further properties: result rows *)
(* ================================================================== *)

Section Rows.









(** *** The row conversion of the advanced pipeline *)

Lemma nth_error_skipn {T} (l : list T) (i : nat) (v : T) :
  nth_error l i = Some v -> skipn i l = v :: skipn (S i) l.
Proof.
  revert l. induction i as [|i IH]; intros [|x l] H; try discriminate.
  - cbn in H. now injection H as ->.
  - cbn [nth_error] in H. cbn [skipn]. now apply IH.
Qed.

Lemma row_to_dict_full (columns : list string) (i : nat) (r : list value) (d : row) :
  List.length columns + i <= List.length r ->
  AdvancedPipeline.row_to_dict columns i r d
  = Ok (fold_left (fun d kv => dict_set (fst kv) (snd kv) d)
                  (combine columns (skipn i r)) d).
Proof.
  revert i d. induction columns as [|c cs IH]; intros i d Hlen; [reflexivity|].
  cbn [List.length] in Hlen. cbn [AdvancedPipeline.row_to_dict].
  destruct (nth_error r i) as [v|] eqn:Hn.
  - rewrite (nth_error_skipn _ _ _ Hn). cbn [combine fold_left fst snd].
    apply IH. lia.
  - apply nth_error_None in Hn. lia.
Qed.

Lemma row_to_dict_short (columns : list string) (i : nat) (r : list value) (d : row) :
  i <= List.length r -> List.length r < List.length columns + i ->
  AdvancedPipeline.row_to_dict columns i r d = Raise IndexError.
Proof.
  revert i d. induction columns as [|c cs IH]; intros i d Hi Hlen;
    cbn [List.length] in Hlen; [lia|].
  cbn [AdvancedPipeline.row_to_dict].
  destruct (nth_error r i) as [v|] eqn:Hn; [|reflexivity].
  assert (i < List.length r) by (apply nth_error_Some; congruence).
  apply IH; lia.
Qed.

Lemma collect_rows (columns : list string) (rows : list (list value)) (acc : list row) :
  Forall (fun r => List.length columns <= List.length r) rows ->
  for_each rows
    (fun results r =>
       row_dict <~ AdvancedPipeline.row_to_dict columns 0 r [] ;;
       Ok (results ++ [row_dict])%list) acc
  = Ok (acc ++ map (fun r => dict (combine columns r)) rows)%list.
Proof.
  intros H. revert acc. induction H as [|r rows Hr _ IH]; intros acc.
  - cbn. now rewrite app_nil_r.
  - cbn [for_each map]. rewrite row_to_dict_full by lia. cbn [obind skipn].
    rewrite IH. now rewrite <- app_assoc.
Qed.

(** X14. The row conversion of the advanced pipeline agrees with the
    [dict(zip(columns, row))] of the two other pipelines on every row that
    has a value for each column, and raises [IndexError] on a shorter row.
    When the database answers the statement with full rows, [_execute_query]
    returns one record per row, in the order of the rows. *)
Theorem X14_advanced_rows_agree_with_zip :
  (forall columns r,
      List.length columns <= List.length r ->
      AdvancedPipeline.row_to_dict columns 0 r [] = Ok (dict (combine columns r)))
  /\ (forall columns r,
         List.length r < List.length columns ->
         AdvancedPipeline.row_to_dict columns 0 r [] = Raise IndexError)
  /\ (forall E sql w columns rows,
         connect E (db_log w) = Ok tt ->
         execute E (db_log w) sql = DbResult columns rows ->
         Forall (fun r => List.length columns <= List.length r) rows ->
         AdvancedPipeline._execute_query E sql w
         = (Ok (map (fun r => dict (combine columns r)) rows),
            {| llm_calls := llm_calls w; db_log := db_log w ++ [sql] |})).
Proof.
  split; [|split].
  - intros columns r H. rewrite row_to_dict_full by lia. reflexivity.
  - intros columns r H. apply row_to_dict_short; lia.
  - intros E sql w columns rows Hc Hx Hrows.
    unfold AdvancedPipeline._execute_query, try_except, bind, open_connection,
      run_statement, lift.
    rewrite Hc, Hx. now rewrite (collect_rows columns rows [] Hrows).
Qed.

End Rows.


Lemma X14_witness :
  AdvancedPipeline.row_to_dict ["id"; "total"] 0 [VNum 7] [] = Raise IndexError.
Proof.
  apply (proj1 (proj2 X14_advanced_rows_agree_with_zip)). cbn. lia.
Defined.

(* ================================================================== *)
(** ** Further properties: the matcher and the extractor *)
(* ================================================================== *)

Section Matcher.

Lemma plus_greedy_result {T} (p : Re.charclass) (s : string)
      (k : string -> option T) (x : T) :
  Re.plus_greedy p s k = Some x -> exists s', k s' = Some x.
Proof.
  induction s as [|c s IH]; cbn [Re.plus_greedy]; [discriminate|].
  destruct (p c); [|discriminate].
  destruct (Re.plus_greedy p s k) as [r|]; intros H.
  - injection H as ->. now apply IH.
  - now exists s.
Qed.

Lemma plus_lazy_result {T} (p : Re.charclass) (s : string)
      (k : string -> option T) (x : T) :
  Re.plus_lazy p s k = Some x -> exists s', k s' = Some x.
Proof.
  induction s as [|c s IH]; cbn [Re.plus_lazy]; [discriminate|].
  destruct (p c); [|discriminate].
  destruct (k s) as [r|] eqn:Hk; intros H.
  - injection H as ->. now exists s.
  - now apply IH.
Qed.

(** Whatever the matcher returns, its continuation returned. *)
Lemma run_result (r : Re.regex) :
  forall (s : string) (caps : Re.captures) (k : Re.cont) (x : string * Re.captures),
    Re.run r s caps k = Some x -> exists s' caps', k s' caps' = Some x.
Proof.
  induction r as [|p|a IHa b IHb|a IHa b IHb|a IHa|p|p|p|p|a IHa|n a IHa];
    intros s caps k x H; cbn [Re.run] in H.
  - now exists s, caps.
  - destruct s as [|c s]; [discriminate|]. destruct (p c); [|discriminate].
    now exists s, caps.
  - apply IHa in H as (s1 & c1 & H). now apply IHb in H.
  - destruct (Re.run a s caps k) as [y|] eqn:Ha.
    + injection H as ->. now apply IHa in Ha.
    + now apply IHb in H.
  - destruct (Re.run a s caps k) as [y|] eqn:Ha.
    + injection H as ->. now apply IHa in Ha.
    + now exists s, caps.
  - apply plus_greedy_result in H as [s' H]. now exists s', caps.
  - apply plus_lazy_result in H as [s' H]. now exists s', caps.
  - unfold Re.star_greedy in H.
    destruct (Re.plus_greedy p s _) as [y|] eqn:Hp.
    + injection H as ->. apply plus_greedy_result in Hp as [s' Hp].
      now exists s', caps.
    + now exists s, caps.
  - unfold Re.star_lazy in H. destruct (k s caps) as [y|] eqn:Hk.
    + injection H as ->. now exists s, caps.
    + apply plus_lazy_result in H as [s' H]. now exists s', caps.
  - revert H. generalize (String.length s) at 1. intros fuel. revert s caps.
    induction fuel as [|fuel IHf]; intros s caps H.
    + now exists s, caps.
    + match type of H with
      | match ?m with _ => _ end = _ => destruct m as [y|] eqn:Ha
      end.
      * injection H as ->. apply IHa in Ha as (s1 & c1 & Ha).
        destruct (Nat.ltb _ _); [|discriminate]. now apply IHf in Ha.
      * now exists s, caps.
  - apply IHa in H as (s1 & c1 & H). now exists s1, ((n, Re.consumed s s1) :: c1).
Qed.

(** The text of an outermost group is the text of the match. *)
Lemma match_at_outer_group (n : nat) (a : Re.regex) (s txt : string)
      (caps : Re.captures) :
  Re.match_at (Re.Group n a) s = Some (txt, caps) -> Re.group n caps = txt.
Proof.
  unfold Re.match_at.
  destruct (Re.run (Re.Group n a) s [] Re.accept) as [[rest caps0]|] eqn:H;
    [|discriminate].
  intros Heq. injection Heq as <- <-.
  cbn [Re.run] in H. apply run_result in H as (s1 & c1 & H).
  unfold Re.accept in H. injection H as <- <-.
  cbn [Re.group]. now rewrite Nat.eqb_refl.
Qed.

Lemma substring_is_prefix (n : nat) (s : string) :
  exists post, s = substring 0 n s ++ post.
Proof.
  revert n. induction s as [|c s IH]; intros [|n]; cbn.
  - now exists "".
  - now exists "".
  - now exists (String c s).
  - destruct (IH n) as [post Hp]. exists post. now rewrite <- Hp.
Qed.

Lemma match_at_is_prefix (r : Re.regex) (s txt : string) (caps : Re.captures) :
  Re.match_at r s = Some (txt, caps) -> exists post, s = txt ++ post.
Proof.
  unfold Re.match_at. destruct (Re.run r s [] Re.accept) as [[rest c]|];
    [|discriminate].
  intros H. injection H as <- _. apply substring_is_prefix.
Qed.

(** [re.search] returns a match at some position of the text. *)
Lemma search_position (r : Re.regex) (s txt : string) (caps : Re.captures) :
  Re.search r s = Some (txt, caps) ->
  exists before rest,
    s = before ++ rest /\ Re.match_at r rest = Some (txt, caps).
Proof.
  induction s as [|c s IH]; cbn [Re.search]; intros H.
  - destruct (Re.match_at r "") as [m|] eqn:Hm; [|discriminate].
    injection H as ->. now exists "", "".
  - destruct (Re.match_at r (String c s)) as [m|] eqn:Hm.
    + injection H as ->. now exists "", (String c s).
    + destruct (IH H) as (before & rest & -> & Hr).
      now exists (String c before), rest.
Qed.

(** X15. When the pattern of [extract_sql_condition] matches, the function
    returns the matched text verbatim: the result is a piece of the response
    of the model, taken at the leftmost position where the pattern matches. *)
Theorem X15_extracted_condition_is_verbatim (s txt : string) (caps : Re.captures) :
  Re.search QueryPipeline.condition_pattern s = Some (txt, caps) ->
  QueryPipeline.extract_sql_condition s = txt /\ Spec.occurs txt s.
Proof.
  intros H. unfold QueryPipeline.extract_sql_condition. rewrite H.
  apply search_position in H as (before & rest & -> & Hm).
  split.
  - revert Hm. unfold QueryPipeline.condition_pattern.
    apply match_at_outer_group.
  - apply match_at_is_prefix in Hm as [post ->]. now exists before, post.
Qed.

End Matcher.

Lemma X15_witness :
  QueryPipeline.extract_sql_condition "The condition is: first_name LIKE 'S%' ok"
  = "first_name LIKE 'S%'"
  /\ Spec.occurs "first_name LIKE 'S%'" "The condition is: first_name LIKE 'S%' ok".
Proof.
  apply (X15_extracted_condition_is_verbatim
           "The condition is: first_name LIKE 'S%' ok" "first_name LIKE 'S%'"
           [(1, "first_name LIKE 'S%'"); (2, "LIKE")]).
  vm_compute. reflexivity.
Defined.

(* ================================================================== *)
(** ** Further properties: the records and the exceptions of the pipelines *)
(* ================================================================== *)

Section Records.

Variable E : env.

(** X16. A record of [SQLQueryPipeline] with [validation_passed] true has no
    error message; its tables are tables of the snapshot and there is at least
    one; its joins follow foreign keys between these tables; and its statement
    passed [validate_sql_syntax] and the semantic validation. *)
Theorem X16_validated_records_are_consistent
        (sc : QueryPipeline.schema) (user_query : string) (w w' : world)
        (r : QueryPipeline.response) :
  QueryPipeline.process_query E sc user_query w = (Ok r, w') ->
  QueryPipeline.r_validation_passed r = true ->
  QueryPipeline.r_error r = None
  /\ QueryPipeline.r_tables r <> []
  /\ Forall (fun t => QueryPipeline.has_table sc t = true) (QueryPipeline.r_tables r)
  /\ Forall (Props.backed_join sc (QueryPipeline.r_tables r)) (QueryPipeline.r_joins r)
  /\ fst (QueryPipeline.validate_sql_syntax (QueryPipeline.r_sql_query r)) = true
  /\ QueryPipeline._validate_sql_semantics sc (QueryPipeline.r_sql_query r)
       (QueryPipeline.r_tables r) (QueryPipeline.r_columns r) = true.
Proof.
  unfold QueryPipeline.process_query, try_except.
  destruct (QueryPipeline.process_query_body E sc user_query w) as [[r0|e] w1] eqn:Hb;
    intros H Hv; injection H as <- <-; [|discriminate].
  unfold QueryPipeline.process_query_body in Hb.
  apply bind_ok in Hb as (tables & w2 & H1 & Hb).
  apply bind_ok in Hb as (joins & w3 & H2 & Hb).
  apply bind_ok in Hb as (columns & w4 & H3 & Hb).
  apply bind_ok in Hb as (sql & w5 & H4 & Hb).
  apply bind_ok in Hb as (results & w6 & H5 & Hb).
  injection Hb as <- _. cbn.
  unfold lift in H2. injection H2 as H2 _.
  apply step1_returns_known_tables in H1 as (Hknown & _).
  apply step4_returns_checked in H4 as ((wr & Ha) & Hsyn & Hsem & _).
  split; [reflexivity|]. split; [intros ->; discriminate|].
  split; [exact Hknown|].
  split; [now apply (proj1 (step2_returns_backed_joins sc tables))|].
  now split.
Qed.

Lemma identify_table_known (sc : SimplePipeline.schema) (q t : string) (w w' : world) :
  SimplePipeline._identify_table E sc q w = (Ok (Some t), w') ->
  In t (SimplePipeline.keys sc).
Proof.
  unfold SimplePipeline._identify_table, bind, invoke, ret.
  destruct (llm E (llm_calls w)) as [response|]; [|discriminate].
  destruct (Py.mem _ _) eqn:Hm; intros H.
  - injection H as <- _. now apply mem_In.
  - injection H as H _. now apply find_some in H as [H _].
Qed.

(** X17. In the simple and in the advanced pipeline, a record with [success]
    true echoes the question, has no error message, and carries a statement
    that passed the safety check of the pipeline (in the simple pipeline also
    a table of the snapshot); a record with [success] false always carries an
    error message. *)
Theorem X17_success_and_failure_records :
  (forall sc user_question w w' r,
      SimplePipeline.process_query E sc user_question w = (Ok r, w') ->
      (SimplePipeline.success r = true ->
       SimplePipeline.user_question r = Some user_question
       /\ SimplePipeline.error r = None
       /\ (exists t, SimplePipeline.target_table r = Some t
                     /\ In t (SimplePipeline.keys sc))
       /\ exists sql, SimplePipeline.sql_query r = Some sql
                      /\ SimplePipeline._is_safe_sql sql = true)
      /\ (SimplePipeline.success r = false ->
          exists msg, SimplePipeline.error r = Some msg))
  /\ (forall set_order user_question w w' r,
         AdvancedPipeline.process_query E set_order user_question w = (Ok r, w') ->
         (AdvancedPipeline.success r = true ->
          AdvancedPipeline.user_question r = user_question
          /\ AdvancedPipeline.error r = None
          /\ AdvancedPipeline._is_safe_sql (AdvancedPipeline.sql_query r) = true)
         /\ (AdvancedPipeline.success r = false ->
             exists msg, AdvancedPipeline.error r = Some msg)).
Proof.
  split.
  - intros sc q w w' r. unfold SimplePipeline.process_query, try_except.
    destruct (SimplePipeline.process_query_body E sc q w) as [[r0|e] w1] eqn:Hb;
      intros H; injection H as <- <-;
      [|split; [discriminate | intros _; now eexists]].
    unfold SimplePipeline.process_query_body in Hb.
    apply bind_ok in Hb as (found & w2 & Hi & Hb).
    destruct found as [[|c t]|];
      try (injection Hb as <- _; split; [discriminate | intros _; now eexists]).
    apply bind_ok in Hb as (sql & w3 & _ & Hb).
    destruct (SimplePipeline._is_safe_sql sql) eqn:Hsafe; cbn [negb] in Hb;
      [|injection Hb as <- _; split; [discriminate | intros _; now eexists]].
    apply bind_ok in Hb as (rows & w4 & _ & Hb). injection Hb as <- _.
    split; [|discriminate]. intros _. cbn.
    split; [reflexivity|]. split; [reflexivity|]. split.
    + exists (String c t). split; [reflexivity|].
      now apply identify_table_known in Hi.
    + now exists sql.
  - intros set_order q w w' r. unfold AdvancedPipeline.process_query, try_except.
    destruct (AdvancedPipeline.process_query_body E set_order q w)
      as [[r0|e] w1] eqn:Hb;
      intros H; injection H as <- <-;
      [|split; [discriminate | intros _; now eexists]].
    unfold AdvancedPipeline.process_query_body in Hb.
    apply bind_ok in Hb as (sql & w2 & _ & Hb).
    destruct (AdvancedPipeline._is_safe_sql sql) eqn:Hsafe; cbn [negb] in Hb;
      [|injection Hb as <- _; split; [discriminate | intros _; now eexists]].
    apply bind_ok in Hb as (rows & w3 & _ & Hb). injection Hb as <- _.
    split; [|discriminate]. intros _. cbn. now repeat split.
Qed.

(** *** No missing-key error in [SQLQueryPipeline] *)

Lemma step1_raises_with_the_model (sc : QueryPipeline.schema) (q : string)
      (w w' : world) (e : exn) :
  QueryPipeline.step1_identify_tables E sc q w = (Raise e, w') ->
  llm E (llm_calls w) = Raise e.
Proof.
  unfold QueryPipeline.step1_identify_tables, bind, invoke, ret.
  destruct (llm E (llm_calls w)); [discriminate|].
  intros H. now injection H as <- _.
Qed.

Lemma step2_raises_index_error (sc : QueryPipeline.schema) (tables : list string)
      (e : exn) :
  Forall (fun t => QueryPipeline.has_table sc t = true) tables ->
  QueryPipeline.step2_analyze_joins sc tables = Raise e -> e = IndexError.
Proof.
  intros Ht. rewrite Forall_forall in Ht. unfold QueryPipeline.step2_analyze_joins.
  destruct (Nat.ltb 1 (List.length tables)); [|discriminate].
  apply (for_each_raise_inv (fun e => e = IndexError)). intros acc table1 e1 H1.
  apply (for_each_raise_inv (fun e => e = IndexError)). intros acc2 table2 e2 H2 Hb.
  destruct (String.eqb table1 table2); cbn [negb] in Hb; [discriminate|].
  destruct (has_table_lookup sc table1 (Ht _ H1)) as [info Hl].
  rewrite Hl in Hb. cbn [obind] in Hb.
  now apply joins_of_foreign_keys_raises in Hb.
Qed.

Lemma collect_columns_total (sc : QueryPipeline.schema) (tables : list string)
      (pick : list string -> list string) :
  Forall (fun t => QueryPipeline.has_table sc t = true) tables ->
  exists cols, QueryPipeline.collect_columns sc tables pick = Ok cols.
Proof.
  intros Ht. rewrite Forall_forall in Ht. unfold QueryPipeline.collect_columns.
  apply for_each_total. intros acc table Hin.
  destruct (has_table_lookup sc table (Ht _ Hin)) as [info ->]. now eexists.
Qed.

Lemma step3_raises_with_the_model (sc : QueryPipeline.schema) (q : string)
      (tables : list string) (w w' : world) (e : exn) :
  Forall (fun t => QueryPipeline.has_table sc t = true) tables ->
  QueryPipeline.step3_select_columns E sc q tables w = (Raise e, w') ->
  llm E (llm_calls w) = Raise e.
Proof.
  intros Ht. unfold QueryPipeline.step3_select_columns.
  destruct (QueryPipeline.is_empty tables); [discriminate|].
  unfold bind, lift, invoke, ret.
  destruct (collect_columns_total sc tables (fun cols => cols) Ht) as [c0 ->].
  destruct (llm E (llm_calls w)) as [response|e0];
    [|intros H; now injection H as <- _].
  destruct (Py.contains "," _).
  - destruct (_ && _); [|discriminate].
    destruct (Py.contains "name" _).
    + destruct (collect_columns_total sc tables
                  (filter (fun col => Py.contains "name" (Py.lower col))) Ht)
        as [c1 ->]. discriminate.
    + destruct (collect_columns_total sc tables (firstn 3) Ht) as [c1 ->].
      discriminate.
  - destruct (collect_columns_total sc tables
                (filter (fun col => Py.contains (Py.lower col)
                                      (Py.lower (QueryPipeline.clean_response response))))
                Ht) as [c1 ->].
    destruct (_ && _); [|discriminate].
    destruct (Py.contains "name" _).
    + destruct (collect_columns_total sc tables
                  (filter (fun col => Py.contains "name" (Py.lower col))) Ht)
        as [c2 ->]. discriminate.
    + destruct (collect_columns_total sc tables (firstn 3) Ht) as [c2 ->].
      discriminate.
Qed.

Lemma validation_layers_raise_value_errors (sc : QueryPipeline.schema)
      (sql : string) (tables columns : list string) (w w' : world) (e : exn) :
  QueryPipeline.validation_layers E sc sql tables columns w = (Raise e, w') ->
  exists msg, e = ValueError msg.
Proof.
  unfold QueryPipeline.validation_layers, QueryPipeline._validate_sql_with_explain,
    try_except, bind, open_connection, run_statement, ret, raise.
  destruct (QueryPipeline.validate_sql_syntax sql) as [[|] d];
    cbv beta iota zeta delta [negb];
    [|intros H; injection H as <- _; now eexists].
  destruct (connect E (db_log w)); cbv beta iota zeta delta [negb];
    [|intros H; injection H as <- _; now eexists].
  destruct (execute E (db_log w) _); cbv beta iota zeta delta [negb];
    [intros H; injection H as <- _; now eexists|].
  destruct (QueryPipeline._validate_sql_semantics sc sql tables columns);
    cbv beta iota zeta delta [negb]; [discriminate|].
  intros H. injection H as <- _. now eexists.
Qed.

Lemma step4_raises (sc : QueryPipeline.schema) (tables : list string)
      (joins : list QueryPipeline.join) (columns : list string) (q : string)
      (w w' : world) (e : exn) :
  Forall (fun t => QueryPipeline.has_table sc t = true) tables ->
  QueryPipeline.step4_build_sql E sc tables joins columns q w = (Raise e, w') ->
  llm E (llm_calls w) = Raise e \/ exists msg, e = ValueError msg.
Proof.
  intros Ht. unfold QueryPipeline.step4_build_sql, bind, lift.
  unfold QueryPipeline.sql_parts.
  destruct tables as [|t0 ts].
  { intros H. injection H as <- _. right. now eexists. }
  destruct (select_clause_total sc (t0 :: ts) columns Ht) as [sel ->].
  cbn [obind]. unfold QueryPipeline._extract_where_conditions.
  cbn [QueryPipeline.is_empty]. unfold bind, invoke, ret.
  destruct (llm E (llm_calls w)) as [response|e0].
  - intros H. right. now apply validation_layers_raise_value_errors in H.
  - intros H. injection H as <- _. now left.
Qed.

(** X18. In [process_query] of [SQLQueryPipeline] no table or column lookup
    fails: an exception that reaches the handler was raised by the model, or
    is the [IndexError] of a foreign key without column, or is a [ValueError]
    of the assembly or of a validation layer. *)
Theorem X18_no_lookup_fails_in_the_pipeline
        (sc : QueryPipeline.schema) (user_query : string) (w w' : world) (e : exn) :
  QueryPipeline.process_query_body E sc user_query w = (Raise e, w') ->
  (exists n, llm E n = Raise e)
  \/ e = IndexError
  \/ exists msg, e = ValueError msg.
Proof.
  unfold QueryPipeline.process_query_body, bind at 1.
  destruct (QueryPipeline.step1_identify_tables E sc user_query w)
    as [[tables|e1] w1] eqn:H1.
  2: { intros H. injection H as <- _. left.
       apply step1_raises_with_the_model in H1. eexists. exact H1. }
  apply step1_returns_known_tables in H1 as (Hknown & _).
  unfold bind at 1, lift.
  destruct (QueryPipeline.step2_analyze_joins sc tables) as [joins|e2] eqn:H2.
  2: { intros H. injection H as <- _. right. left.
       now apply (step2_raises_index_error sc tables). }
  unfold bind at 1.
  destruct (QueryPipeline.step3_select_columns E sc user_query tables w1)
    as [[columns|e3] w3] eqn:H3.
  2: { intros H. injection H as <- _. left.
       apply (step3_raises_with_the_model _ _ _ _ _ _ Hknown) in H3.
       eexists. exact H3. }
  unfold bind at 1.
  destruct (QueryPipeline.step4_build_sql E sc tables joins columns user_query w3)
    as [[sql|e4] w4] eqn:H4.
  2: { intros H. injection H as <- _.
       apply (step4_raises _ _ _ _ _ _ _ _ Hknown) in H4 as [H4|H4].
       - left. eexists. exact H4.
       - now right; right. }
  unfold bind at 1.
  destruct (step5_never_raises E sql w4) as (rows & w5 & sent & -> & _).
  discriminate.
Qed.

End Records.

Lemma X16_witness :
  QueryPipeline.r_error
    {| QueryPipeline.r_tables := ["orders"; "customers"];
       QueryPipeline.r_joins := [Sample.orders_to_customers];
       QueryPipeline.r_columns := ["total"; "first_name"];
       QueryPipeline.r_sql_query := Sample.shop_sql;
       QueryPipeline.r_results := [];
       QueryPipeline.r_error := None;
       QueryPipeline.r_validation_passed := true |} = None
  /\ ["orders"; "customers"] <> []
  /\ Forall (fun t => QueryPipeline.has_table Sample.shop t = true)
            ["orders"; "customers"]
  /\ Forall (Props.backed_join Sample.shop ["orders"; "customers"])
            [Sample.orders_to_customers]
  /\ fst (QueryPipeline.validate_sql_syntax Sample.shop_sql) = true
  /\ QueryPipeline._validate_sql_semantics Sample.shop Sample.shop_sql
       ["orders"; "customers"] ["total"; "first_name"] = true.
Proof.
  apply (X16_validated_records_are_consistent Sample.failing_statements Sample.shop
           "orders of customers in NYC" Sample.start
           {| llm_calls := 3;
              db_log := ["EXPLAIN " ++ Sample.shop_sql; QueryPipeline.SET_TIMEOUT;
                         Sample.shop_sql] |}
           {| QueryPipeline.r_tables := ["orders"; "customers"];
              QueryPipeline.r_joins := [Sample.orders_to_customers];
              QueryPipeline.r_columns := ["total"; "first_name"];
              QueryPipeline.r_sql_query := Sample.shop_sql;
              QueryPipeline.r_results := [];
              QueryPipeline.r_error := None;
              QueryPipeline.r_validation_passed := true |});
    vm_compute; reflexivity.
Defined.

Lemma X17_witness :
  exists msg,
    AdvancedPipeline.error
      (AdvancedPipeline._error_response "Table 'shop.orders' doesn't exist")
    = Some msg.
Proof.
  apply (proj2 (proj2 (X17_success_and_failure_records Sample.failing_advanced)
                  (fun l => l) "all orders" Sample.start
                  {| llm_calls := 1; db_log := ["SELECT * FROM orders"] |}
                  (AdvancedPipeline._error_response "Table 'shop.orders' doesn't exist")
                  ltac:(vm_compute; reflexivity))).
  reflexivity.
Defined.

Lemma X18_witness :
  (exists n, llm Sample.failing_statements n
             = Raise (ValueError "No tables identified for the query"))
  \/ ValueError "No tables identified for the query" = IndexError
  \/ exists msg, ValueError "No tables identified for the query" = ValueError msg.
Proof.
  apply (X18_no_lookup_fails_in_the_pipeline Sample.failing_statements Sample.shop
           "what is the weather" {| llm_calls := 5; db_log := [] |}
           {| llm_calls := 6; db_log := [] |}).
  vm_compute. reflexivity.
Defined.

(* ================================================================== *)
(** ** Further properties: the EXPLAIN check and the fenced answers *)
(* ================================================================== *)

Section ExplainFirst.

Variable E : env.

(** X19. In the simple pipeline a statement whose EXPLAIN fails is not
    executed: [_execute_query] sends the EXPLAIN only and raises an exception
    whose message is [SQL syntax error: ] followed by the message of the
    database; [process_query] then returns the error record with this
    message. *)
Theorem X19_failed_explain_stops_the_simple_pipeline :
  (forall sql msg w,
      connect E (db_log w) = Ok tt ->
      execute E (db_log w) ("EXPLAIN " ++ sql) = DbRaises msg ->
      SimplePipeline._execute_query E sql w
      = (Raise (PlainException ("SQL syntax error: " ++ msg)),
         {| llm_calls := llm_calls w; db_log := db_log w ++ ["EXPLAIN " ++ sql] |}))
  /\ (forall sc user_question c t sql msg w w1 w2,
         SimplePipeline._identify_table E sc user_question w
         = (Ok (Some (String c t)), w1) ->
         SimplePipeline._generate_sql E sc user_question (String c t) w1
         = (Ok sql, w2) ->
         SimplePipeline._is_safe_sql sql = true ->
         connect E (db_log w2) = Ok tt ->
         execute E (db_log w2) ("EXPLAIN " ++ sql) = DbRaises msg ->
         SimplePipeline.process_query E sc user_question w
         = (Ok (SimplePipeline._error_response ("SQL syntax error: " ++ msg)),
            {| llm_calls := llm_calls w2;
               db_log := db_log w2 ++ ["EXPLAIN " ++ sql] |})).
Proof.
  assert (Hx : forall sql msg w,
             connect E (db_log w) = Ok tt ->
             execute E (db_log w) ("EXPLAIN " ++ sql) = DbRaises msg ->
             SimplePipeline._execute_query E sql w
             = (Raise (PlainException ("SQL syntax error: " ++ msg)),
                {| llm_calls := llm_calls w;
                   db_log := db_log w ++ ["EXPLAIN " ++ sql] |})).
  { intros sql msg w Hc He.
    unfold SimplePipeline._execute_query, try_except, bind, open_connection,
      run_statement, raise, ret.
    now rewrite Hc, He. }
  split; [exact Hx|].
  intros sc q c t sql msg w w1 w2 Hi Hg Hsafe Hc He.
  unfold SimplePipeline.process_query, try_except,
    SimplePipeline.process_query_body.
  rewrite (bind_step _ _ _ _ _ Hi). cbv beta iota.
  rewrite (bind_step _ _ _ _ _ Hg), Hsafe. cbn [negb].
  rewrite (bind_raise _ _ _ _ _ (Hx sql msg w2 Hc He)).
  reflexivity.
Qed.

End ExplainFirst.

Section FencedAnswers.

Lemma no_fence_here (c : ascii) (s : string) :
  Ascii.eqb c "`" = false ->
  Re.match_at AdvancedPipeline.fence_pattern (String c s) = None.
Proof.
  intros H. unfold Re.match_at, AdvancedPipeline.fence_pattern.
  cbn. unfold Re.char. now rewrite H.
Qed.

(** Text without backquote is copied by the deletion of the fences. *)
Lemma sub_copies_plain_text (q t : string) :
  Py.count_char "`" q = 0 ->
  Re.sub_go AdvancedPipeline.fence_pattern "" 0 (q ++ t)
  = q ++ Re.sub_go AdvancedPipeline.fence_pattern "" 0 t.
Proof.
  induction q as [|c q IH]; intros H; [reflexivity|].
  cbn [Py.count_char] in H.
  destruct (Ascii.eqb c "`") eqn:Hc; [discriminate|].
  cbn [append Re.sub_go]. rewrite (no_fence_here _ _ Hc).
  now rewrite IH.
Qed.

Lemma rstrip_line_feed (q : string) : Py.rstrip (q ++ Py.LF) = Py.rstrip q.
Proof.
  induction q as [|c q IH]; [reflexivity|].
  cbn [append Py.rstrip]. now rewrite IH.
Qed.

Lemma strip_line_feed (q : string) : Py.strip (q ++ Py.LF) = Py.strip q.
Proof.
  unfold Py.strip. induction q as [|c q IH]; [reflexivity|].
  cbn [append Py.lstrip]. destruct (Py.is_space c); [exact IH|].
  apply (rstrip_line_feed (String c q)).
Qed.

Lemma length_of_append (a b : string) :
  String.length (a ++ b) = String.length a + String.length b.
Proof. induction a as [|c a IH]; cbn; [reflexivity | now rewrite IH]. Qed.

Lemma substring_of_append (a b : string) :
  substring 0 (String.length a) (a ++ b) = a.
Proof.
  induction a as [|c a IH]; cbn; [now destruct b | now rewrite IH].
Qed.

Lemma fence_at_start (rest : string) :
  Re.match_at AdvancedPipeline.fence_pattern
              (AdvancedPipeline.fence ++ "sql" ++ Py.LF ++ rest)
  = Some (AdvancedPipeline.fence ++ "sql" ++ Py.LF, []).
Proof.
  unfold Re.match_at.
  replace (Re.run AdvancedPipeline.fence_pattern
             (AdvancedPipeline.fence ++ "sql" ++ Py.LF ++ rest) [] Re.accept)
    with (Some (rest, @nil (nat * string))) by reflexivity.
  unfold Re.consumed.
  change (AdvancedPipeline.fence ++ "sql" ++ Py.LF ++ rest)
    with ((AdvancedPipeline.fence ++ "sql" ++ Py.LF) ++ rest).
  rewrite length_of_append.
  replace (String.length (AdvancedPipeline.fence ++ "sql" ++ Py.LF)
           + String.length rest - String.length rest)
    with (String.length (AdvancedPipeline.fence ++ "sql" ++ Py.LF)) by lia.
  now rewrite substring_of_append.
Qed.

Lemma sub_fenced (q : string) :
  Py.count_char "`" q = 0 ->
  Re.sub AdvancedPipeline.fence_pattern ""
         (AdvancedPipeline.fence ++ "sql" ++ Py.LF ++ q ++ Py.LF ++ AdvancedPipeline.fence)
  = q ++ Py.LF.
Proof.
  intros H. unfold Re.sub.
  change (AdvancedPipeline.fence ++ "sql" ++ Py.LF ++ q ++ Py.LF ++ AdvancedPipeline.fence)
    with (String "`"
            ("``sql" ++ Py.LF ++ q ++ Py.LF ++ AdvancedPipeline.fence)) at 1.
  cbn [Re.sub_go].
  change (String "`" ("``sql" ++ Py.LF ++ q ++ Py.LF ++ AdvancedPipeline.fence))
    with (AdvancedPipeline.fence ++ "sql" ++ Py.LF
          ++ (q ++ Py.LF ++ AdvancedPipeline.fence)).
  rewrite fence_at_start.
  change (Re.sub_go AdvancedPipeline.fence_pattern ""
            (String.length (AdvancedPipeline.fence ++ "sql" ++ Py.LF) - 1)
            ("``sql" ++ Py.LF ++ q ++ Py.LF ++ AdvancedPipeline.fence))
    with (Re.sub_go AdvancedPipeline.fence_pattern "" 0
            (q ++ Py.LF ++ AdvancedPipeline.fence)).
  rewrite (sub_copies_plain_text q _ H).
  replace (Re.sub_go AdvancedPipeline.fence_pattern "" 0
             (Py.LF ++ AdvancedPipeline.fence)) with Py.LF
    by (vm_compute; reflexivity).
  reflexivity.
Qed.

(** X20. An answer of the model that is a statement inside a markdown fence
    tagged [sql] is unwrapped by [_clean_advanced_sql]: when the statement has
    no backquote and starts with SELECT (in any letter case, after white
    space), the result is the statement stripped, without its trailing
    semicolons, and with every run of white space replaced by one space. *)
Theorem X20_fenced_statements_are_unwrapped (q : string) :
  Py.count_char "`" q = 0 ->
  Py.startswith (Py.upper (Py.strip q)) "SELECT" = true ->
  AdvancedPipeline._clean_advanced_sql
    (AdvancedPipeline.fence ++ "sql" ++ Py.LF ++ q ++ Py.LF ++ AdvancedPipeline.fence)
  = Props.normalize (Py.rstrip_char ";" (Py.strip q)).
Proof.
  intros Hq Hsel. unfold AdvancedPipeline._clean_advanced_sql.
  rewrite (sub_fenced q Hq), !strip_line_feed, Hsel. cbn [negb].
  now rewrite strip_line_feed.
Qed.

End FencedAnswers.

Lemma X20_witness :
  AdvancedPipeline._clean_advanced_sql
    (AdvancedPipeline.fence ++ "sql" ++ Py.LF ++ "select a,  b from t ;" ++ Py.LF
     ++ AdvancedPipeline.fence)
  = Props.normalize (Py.rstrip_char ";" (Py.strip "select a,  b from t ;")).
Proof.
  apply (X20_fenced_statements_are_unwrapped "select a,  b from t ;");
    vm_compute; reflexivity.
Defined.

Lemma X19_witness :
  SimplePipeline.process_query Props.explain_refused Props.one_table "all orders"
    Sample.start
  = (Ok (SimplePipeline._error_response
           "SQL syntax error: You have an error in your SQL syntax"),
     {| llm_calls := 2; db_log := ["EXPLAIN SELECT * FROM orders"] |}).
Proof.
  apply (proj2 (X19_failed_explain_stops_the_simple_pipeline Props.explain_refused)
           Props.one_table "all orders" "o"%char "rders" "SELECT * FROM orders"
           "You have an error in your SQL syntax" Sample.start
           {| llm_calls := 1; db_log := [] |} {| llm_calls := 2; db_log := [] |});
    vm_compute; reflexivity.
Defined.

(* ================================================================== *)
(** ** Further properties: what the advanced validator accepts *)
(* ================================================================== *)

Section AcceptedStatements.

Lemma rstrip_is_prefix (s : string) : exists t, s = Py.rstrip s ++ t.
Proof.
  induction s as [|c s [t IH]]; [now exists ""|].
  cbn [Py.rstrip]. destruct (Py.rstrip s) as [|d r] eqn:Hr.
  - destruct (Py.is_space c); [now exists (String c s) | now exists s].
  - exists t. cbn [append] in *. now rewrite <- IH.
Qed.

Lemma lstrip_is_suffix (s : string) : exists t, s = t ++ Py.lstrip s.
Proof.
  induction s as [|c s [t IH]]; [now exists ""|].
  cbn [Py.lstrip]. destruct (Py.is_space c); [|now exists ""].
  exists (String c t). cbn [append]. now rewrite <- IH.
Qed.

Lemma occurs_in_strip (sub s : string) :
  Spec.occurs sub (Py.strip s) -> Spec.occurs sub s.
Proof.
  unfold Py.strip. intros (pre & post & H).
  destruct (lstrip_is_suffix s) as [a Ha].
  destruct (rstrip_is_prefix (Py.lstrip s)) as [b Hb].
  exists (a ++ pre), (post ++ b).
  rewrite Ha at 1. rewrite Hb at 1. rewrite H.
  now rewrite !append_assoc.
Qed.

Lemma map_chars_split (f : ascii -> ascii) (a b s : string) :
  Py.map_chars f s = a ++ b ->
  exists s1 s2, s = s1 ++ s2 /\ Py.map_chars f s1 = a /\ Py.map_chars f s2 = b.
Proof.
  revert s. induction a as [|x a IH]; intros s H.
  - now exists "", s.
  - destruct s as [|c s]; [discriminate|].
    cbn [Py.map_chars append] in H. injection H as Hx H.
    destruct (IH s H) as (s1 & s2 & -> & H1 & H2).
    exists (String c s1), s2. cbn [Py.map_chars append]. now rewrite Hx, H1.
Qed.

(** A keyword found in the upper-cased text occurs in the text in some
    letter case. *)
Lemma contains_upper_mentions (kw s : string) :
  Py.contains kw (Py.upper s) = true -> Spec.mentions kw s.
Proof.
  intros H. apply contains_elim in H as (pre & post & H).
  unfold Py.upper in H.
  apply map_chars_split in H as (s1 & s2 & -> & _ & H).
  apply map_chars_split in H as (w & s3 & -> & Hw & _).
  now exists s1, w, s3.
Qed.

(** X21. The safety check of the advanced pipeline accepts exactly the texts
    that, once put in capitals and stripped, start with SELECT or WITH, in
    which no keyword of its denylist occurs in any letter case, and which hold
    no semicolon. *)
Theorem X21_what_the_advanced_validator_accepts (s : string) :
  AdvancedPipeline._is_safe_sql s = true
  <-> ((Py.startswith (Py.strip (Py.upper s)) "SELECT" = true
        \/ Py.startswith (Py.strip (Py.upper s)) "WITH" = true)
       /\ (forall kw, In kw AdvancedPipeline.dangerous_keywords -> ~ Spec.mentions kw s)
       /\ ~ Spec.occurs ";" s).
Proof.
  unfold AdvancedPipeline._is_safe_sql. split.
  - destruct (Py.startswith _ "SELECT" || Py.startswith _ "WITH") eqn:Hstart;
      cbn [negb]; [|discriminate].
    destruct (find _ _) as [kw|] eqn:Hfind; [discriminate|].
    destruct (Py.contains ";" s) eqn:Hsemi; [discriminate|]. intros _.
    split; [now apply orb_true_iff|]. split.
    + intros kw Hin Hm.
      apply mentions_contains_upper in Hm.
      destruct (advanced_keywords_solid _ Hin) as [Hs He].
      pose proof (contains_strip _ _ Hs He Hm) as Hc.
      now rewrite (find_none _ _ Hfind kw Hin) in Hc.
    + intros Ho. apply occurs_contains in Ho. congruence.
  - intros (Hstart & Hkw & Hsemi).
    apply orb_true_iff in Hstart. rewrite Hstart. cbn [negb].
    destruct (find _ _) as [kw|] eqn:Hfind.
    + exfalso. apply find_some in Hfind as [Hin Hc].
      apply (Hkw kw Hin). apply contains_upper_mentions.
      apply occurs_contains. apply occurs_in_strip. now apply occurs_contains.
    + destruct (Py.contains ";" s) eqn:Hc; [|reflexivity].
      exfalso. apply Hsemi. now apply occurs_contains.
Qed.

End AcceptedStatements.

(* ================================================================== *)
(** ** Further properties: how often the model is asked *)
(* ================================================================== *)

Section ModelCalls.

Context {A B : Type}.

Lemma asks_weaken (n m : nat) (c : M A) :
  n <= m -> Props.asks n c -> Props.asks m c.
Proof. intros Hle H w. destruct (H w). split; lia. Qed.

Lemma asks_ret (a : A) : Props.asks 0 (ret a).
Proof. intros w. cbn. lia. Qed.

Lemma asks_raise (e : exn) : Props.asks 0 (@raise A e).
Proof. intros w. cbn. lia. Qed.

Lemma asks_lift (c : outcome A) : Props.asks 0 (lift c).
Proof. intros w. cbn. lia. Qed.

Lemma asks_bind (n m : nat) (c : M A) (k : A -> M B) :
  Props.asks n c -> (forall a, Props.asks m (k a)) ->
  Props.asks (n + m) (bind c k).
Proof.
  intros Hc Hk w. unfold bind. destruct (Hc w) as [H1 H2].
  destruct (c w) as [[a|e] w1]; cbn [snd] in *.
  - destruct (Hk a w1). split; lia.
  - split; lia.
Qed.

Lemma asks_try (n m : nat) (body : M A) (h : exn -> M A) :
  Props.asks n body -> (forall e, Props.asks m (h e)) ->
  Props.asks (n + m) (try_except body h).
Proof.
  intros Hb Hh w. unfold try_except. destruct (Hb w) as [H1 H2].
  destruct (body w) as [[a|e] w1]; cbn [snd] in *.
  - split; lia.
  - destruct (Hh e w1). split; lia.
Qed.

End ModelCalls.

Section ModelCallsOfThePipelines.

Variable E : env.

Lemma asks_invoke : Props.asks 1 (invoke E).
Proof. intros w. cbn. lia. Qed.

Lemma asks_open : Props.asks 0 (open_connection E).
Proof. intros w. cbn. lia. Qed.

Lemma asks_run (stmt : string) : Props.asks 0 (run_statement E stmt).
Proof.
  intros w. unfold run_statement. destruct (execute E (db_log w) stmt); cbn; lia.
Qed.

Lemma asks_step1 (sc : QueryPipeline.schema) (q : string) :
  Props.asks 1 (QueryPipeline.step1_identify_tables E sc q).
Proof.
  unfold QueryPipeline.step1_identify_tables.
  apply (asks_bind 1 0); [apply asks_invoke | intros; apply asks_ret].
Qed.

Lemma asks_step3 (sc : QueryPipeline.schema) (q : string) (tables : list string) :
  Props.asks 1 (QueryPipeline.step3_select_columns E sc q tables).
Proof.
  unfold QueryPipeline.step3_select_columns.
  destruct (QueryPipeline.is_empty tables);
    [apply (asks_weaken 0); [lia | apply asks_ret]|].
  apply (asks_bind 0 1); [apply asks_lift|]. intros _.
  apply (asks_bind 1 0); [apply asks_invoke|]. intros response.
  apply (asks_bind 0 0); [apply asks_lift|]. intros cols.
  destruct (_ && _); [|apply asks_ret].
  destruct (Py.contains _ _); apply asks_lift.
Qed.

Lemma asks_explain (sql : string) :
  Props.asks 0 (QueryPipeline._validate_sql_with_explain E sql).
Proof.
  unfold QueryPipeline._validate_sql_with_explain.
  apply (asks_try 0 0); [|intros; apply asks_ret].
  apply (asks_bind 0 0); [apply asks_open|]. intros _.
  apply (asks_bind 0 0); [apply asks_run|]. intros _. apply asks_ret.
Qed.

Lemma asks_step4 (sc : QueryPipeline.schema) (tables : list string)
      (joins : list QueryPipeline.join) (columns : list string) (q : string) :
  Props.asks 1 (QueryPipeline.step4_build_sql E sc tables joins columns q).
Proof.
  unfold QueryPipeline.step4_build_sql.
  apply (asks_bind 0 1); [apply asks_lift|]. intros parts.
  apply (asks_bind 1 0).
  - unfold QueryPipeline._extract_where_conditions.
    destruct (QueryPipeline.is_empty tables);
      [apply (asks_weaken 0); [lia | apply asks_ret]|].
    apply (asks_bind 1 0); [apply asks_invoke | intros; apply asks_ret].
  - intros wr. unfold QueryPipeline.validation_layers.
    destruct (QueryPipeline.validate_sql_syntax _) as [[|] d]; cbn [negb];
      [|apply asks_raise].
    apply (asks_bind 0 0); [apply asks_explain|]. intros explained.
    destruct (negb explained); [apply asks_raise|].
    destruct (negb _); [apply asks_raise | apply asks_ret].
Qed.

Lemma asks_step5 (sql : string) :
  Props.asks 0 (QueryPipeline.step5_execute_query E sql).
Proof.
  unfold QueryPipeline.step5_execute_query.
  apply (asks_try 0 0); [|intros; apply asks_ret].
  apply (asks_bind 0 0); [apply asks_open|]. intros _.
  apply (asks_bind 0 0); [apply asks_run|]. intros _.
  apply (asks_bind 0 0); [apply asks_run|]. intros [keys rows]. apply asks_ret.
Qed.

Lemma asks_advanced_execute (sql : string) :
  Props.asks 0 (AdvancedPipeline._execute_query E sql).
Proof.
  unfold AdvancedPipeline._execute_query.
  apply (asks_try 0 0); [|intros; apply asks_raise].
  apply (asks_bind 0 0); [apply asks_open|]. intros _.
  apply (asks_bind 0 0); [apply asks_run|]. intros [columns rows].
  apply asks_lift.
Qed.

Lemma asks_simple_execute (sql : string) :
  Props.asks 0 (SimplePipeline._execute_query E sql).
Proof.
  unfold SimplePipeline._execute_query.
  apply (asks_try 0 0); [|intros; apply asks_raise].
  apply (asks_bind 0 0); [apply asks_open|]. intros _.
  apply (asks_bind 0 0).
  - apply (asks_try 0 0); [|intros; apply asks_raise].
    apply (asks_bind 0 0); [apply asks_run | intros; apply asks_ret].
  - intros _. apply (asks_bind 0 0); [apply asks_run|].
    intros [names rows]. apply asks_ret.
Qed.

(** X22. For one question the model is asked at most three times by
    [SQLQueryPipeline] (tables, columns, filter), at most twice by the simple
    pipeline (table, statement) and exactly once by the advanced pipeline. *)
Theorem X22_model_calls_per_question :
  (forall sc user_query w,
      llm_calls w <= llm_calls (snd (QueryPipeline.process_query E sc user_query w))
      /\ llm_calls (snd (QueryPipeline.process_query E sc user_query w))
         <= llm_calls w + 3)
  /\ (forall sc user_question w,
         llm_calls w
         <= llm_calls (snd (SimplePipeline.process_query E sc user_question w))
         /\ llm_calls (snd (SimplePipeline.process_query E sc user_question w))
            <= llm_calls w + 2)
  /\ (forall set_order user_question w,
         llm_calls (snd (AdvancedPipeline.process_query E set_order user_question w))
         = llm_calls w + 1).
Proof.
  split; [|split].
  - intros sc q. change (Props.asks 3 (QueryPipeline.process_query E sc q)).
    unfold QueryPipeline.process_query.
    apply (asks_try 3 0); [|intros; apply asks_ret].
    unfold QueryPipeline.process_query_body.
    apply (asks_bind 1 2); [apply asks_step1|]. intros tables.
    apply (asks_bind 0 2); [apply asks_lift|]. intros joins.
    apply (asks_bind 1 1); [apply asks_step3|]. intros columns.
    apply (asks_bind 1 0); [apply asks_step4|]. intros sql.
    apply (asks_bind 0 0); [apply asks_step5 | intros; apply asks_ret].
  - intros sc q. change (Props.asks 2 (SimplePipeline.process_query E sc q)).
    unfold SimplePipeline.process_query.
    apply (asks_try 2 0); [|intros; apply asks_ret].
    unfold SimplePipeline.process_query_body.
    apply (asks_bind 1 1).
    { unfold SimplePipeline._identify_table.
      apply (asks_bind 1 0); [apply asks_invoke|]. intros response.
      destruct (Py.mem _ _); apply asks_ret. }
    intros found.
    destruct found as [[|c t]|];
      try (apply (asks_weaken 0); [lia | apply asks_ret]).
    apply (asks_bind 1 0).
    { unfold SimplePipeline._generate_sql.
      apply (asks_bind 0 1); [apply asks_lift|]. intros _.
      apply (asks_bind 1 0); [apply asks_invoke | intros; apply asks_ret]. }
    intros sql. destruct (negb _); [apply asks_ret|].
    apply (asks_bind 0 0); [apply asks_simple_execute | intros; apply asks_ret].
  - intros set_order q w.
    unfold AdvancedPipeline.process_query, try_except,
      AdvancedPipeline.process_query_body, bind at 1.
    unfold AdvancedPipeline._generate_advanced_sql, bind at 1, invoke, ret.
    destruct (llm E (llm_calls w)) as [response|e]; [|cbn; lia].
    destruct (negb _); [cbn; lia|].
    unfold bind.
    destruct (asks_advanced_execute
                (AdvancedPipeline._clean_advanced_sql (Py.strip response))
                {| llm_calls := S (llm_calls w); db_log := db_log w |}) as [H1 H2].
    destruct (AdvancedPipeline._execute_query E _ _) as [[rows|e] w2];
      cbn [snd llm_calls] in *; lia.
Qed.

End ModelCallsOfThePipelines.
